(** * PrecepGo agents dashboard: REST client, document-store client,
      spreadsheet export and optimistic state updates

    A shallow embedding of the TypeScript sources
      - [src/services/api.ts]        (module [Api]),
      - [src/services/firestore.ts]  (module [Firestore]),
      - [src/utils/exportExcel.ts]   (module [ExportExcel]),
      - [src/App.tsx], [handleAgentAction] and [getStatusBadge] (module [App]),
    then of more of the same sources and of two components,
      - [src/services/firestore.ts], the one-shot queries and the
        listeners written out on their own (module [FirestoreQueries]),
      - [src/App.tsx], status polling, the automated-mode toggle, the
        listener on the states of all agents, the completion alerts, the
        status badge and the download buttons (module [Dashboard]),
      - [src/components/TimeSavingsDashboard.tsx] (module [TimeSavings]),
      - [src/components/DocumentTable.tsx], the rows and their date
        cells (module [DocumentTable]),
    followed by the properties established about them.

    Conventions of the embedding.
      - A JavaScript value of type [any] is a [value]; objects are finite
        maps from property names to values ([gmap string value]); reading
        an absent property gives [VUndefined].
      - JavaScript numbers are modelled by integers; [NaN] only arises as
        the time value of an invalid [Date], which is [None].
      - Code that may throw, or an awaited promise that may reject, is a
        computation in [io E], which records the externally visible
        effects (events of type [E]) in the order they happen and ends in
        [Returned] or [Threw].
      - Strings are sequences of one-byte characters, the code units 0
        to 255 of a JavaScript string; [length] and [substring] count
        those.
      - What the code calls and does not define - [Date.parse],
        [toLocaleString], ToNumber and ToString of objects,
        [JSON.stringify], the order in which [Object.keys] enumerates
        the keys of an object, the entries of [data/standards.json],
        the network, the document-store SDK, the caller's callbacks -
        is a variable of the section that uses it.
      - Of the spreadsheet library the check of the name of a new
        worksheet is written out ([addWorksheet]), since it decides
        whether an export throws; what the library does with the cells
        is not.
      - A button is clicked through [click]: a button that is not
        rendered, or is disabled, runs no handler.
      - Console output is kept where the code logs a failure; the debug
        logging of the export is left out, except where evaluating its
        arguments can throw. *)

From Stdlib Require Import ZArith String Ascii List Bool Lia.
From stdpp Require Import base option list gmap strings pretty sorting.

Set Warnings "-register-all,-clear-no-such-hyp".
Local Open Scope Z_scope.
Local Open Scope string_scope.

(* ================================================================== *)
(** * Part I: the embedding *)
(* ================================================================== *)

(** ** JavaScript values and exceptions *)

Module JS.

(** The time value of a [Date]: milliseconds since the epoch, or [None]
    for an invalid date ([getTime()] is [NaN]). *)
Abbreviation time_value := (option Z).

Inductive value : Type :=
| VUndefined
| VNull
| VBool (b : bool)
| VNum (n : Z)
| VStr (s : string)
| VTimestamp (ms : Z)          (* a Firestore [Timestamp]; has [toDate()] *)
| VDate (t : time_value)       (* a JavaScript [Date] *)
| VArr (l : list value)
| VObj (o : gmap string value).

(** A thrown [Error]: its [name], [message] and (Firestore) [code]. *)
Record js_error : Type := mkError {
  err_name : string;
  err_message : string;
  err_code : option string
}.

Definition Error (msg : string) : js_error := mkError "Error" msg None.
Definition TypeError (msg : string) : js_error := mkError "TypeError" msg None.

Inductive outcome (A : Type) : Type :=
| Returned (a : A)
| Threw (e : js_error).
Arguments Returned {A} a.
Arguments Threw {A} e.

(** Computations with a log of events and exceptions. *)
Record io (E A : Type) : Type := IO {
  trace : list E;
  result : outcome A
}.
Arguments IO {E A} trace result.
Arguments trace {E A} _.
Arguments result {E A} _.

Definition ret {E A} (a : A) : io E A := IO [] (Returned a).
Definition throw {E A} (e : js_error) : io E A := IO [] (Threw e).
Definition emit {E} (e : E) : io E unit := IO [e] (Returned tt).

Definition bind {E A B} (m : io E A) (f : A -> io E B) : io E B :=
  match result m with
  | Returned a => IO (trace m ++ trace (f a)) (result (f a))
  | Threw e => IO (trace m) (Threw e)
  end.

(** [try { m } catch (e) { h e }] *)
Definition try_catch {E A} (m : io E A) (h : js_error -> io E A) : io E A :=
  match result m with
  | Returned a => m
  | Threw e => IO (trace m ++ trace (h e)) (result (h e))
  end.

(** Awaiting a promise whose settlement is already known. *)
Definition await {E A} (p : outcome A) : io E A := IO [] p.

Definition when {E} (b : bool) (m : io E unit) : io E unit :=
  if b then m else ret tt.

(** [forEach] with a body that returns the element to push. *)
Fixpoint map_io {E A B} (f : A -> io E B) (l : list A) : io E (list B) :=
  match l with
  | [] => ret []
  | x :: l' => bind (f x) (fun y => bind (map_io f l') (fun ys => ret (y :: ys)))
  end.

(** ToBoolean. *)
Definition truthy (v : value) : bool :=
  match v with
  | VUndefined | VNull => false
  | VBool b => b
  | VNum n => negb (Z.eqb n 0)
  | VStr s => negb (String.eqb s "")
  | VTimestamp _ | VDate _ | VArr _ | VObj _ => true
  end.

(** [a || b] on already evaluated operands. *)
Definition or_else (a b : value) : value := if truthy a then a else b.

(** [v === undefined || v === null] *)
Definition nullish (v : value) : bool :=
  match v with VUndefined | VNull => true | _ => false end.

(** The first value of [l] that is neither [undefined] nor [null], or
    [otherwise]. *)
Fixpoint first_defined (l : list value) (otherwise : value) : value :=
  match l with
  | [] => otherwise
  | x :: l' => if nullish x then first_defined l' otherwise else x
  end.

(** Property read on an object literal or document map. *)
Definition field (o : gmap string value) (k : string) : value :=
  default VUndefined (o !! k).

(** [v.k] for a data property [k] (not the name of a built-in method):
    throws on [undefined] and [null], reads the map of an object, knows
    [length] of strings and arrays, and is [undefined] elsewhere. *)
Definition get_prop (v : value) (k : string) : outcome value :=
  match v with
  | VUndefined =>
      Threw (TypeError ("Cannot read properties of undefined (reading '" +:+ k +:+ "')"))
  | VNull =>
      Threw (TypeError ("Cannot read properties of null (reading '" +:+ k +:+ "')"))
  | VObj o => Returned (field o k)
  | VStr s =>
      Returned (if String.eqb k "length" then VNum (Z.of_nat (String.length s)) else VUndefined)
  | VArr l =>
      Returned (if String.eqb k "length" then VNum (Z.of_nat (List.length l)) else VUndefined)
  | VBool _ | VNum _ | VTimestamp _ | VDate _ => Returned VUndefined
  end.

(** [v.k] for a [v] already known not to be [undefined] or [null]. *)
Definition read (v : value) (k : string) : value :=
  match get_prop v k with
  | Returned x => x
  | Threw _ => VUndefined
  end.

(** Sequencing of code that may throw and has no other effect. *)
Definition and_then {A B} (o : outcome A) (f : A -> outcome B) : outcome B :=
  match o with
  | Returned a => f a
  | Threw e => Threw e
  end.

(** [a || b] where evaluating [a] may throw and [b] is only evaluated
    when [a] is falsy. *)
Definition or_else_lazy (a b : outcome value) : outcome value :=
  and_then a (fun x => if truthy x then Returned x else b).

(** [map] with a function that may throw: stops at the first throw. *)
Fixpoint map_outcome {A B} (f : A -> outcome B) (l : list A) : outcome (list B) :=
  match l with
  | [] => Returned []
  | x :: l' =>
      and_then (f x) (fun y => and_then (map_outcome f l') (fun ys => Returned (y :: ys)))
  end.

(** [Array.isArray(v)] *)
Definition isArray (v : value) : bool :=
  match v with VArr _ => true | _ => false end.

(** The elements of an array value. *)
Definition elements (v : value) : list value :=
  match v with VArr l => l | _ => [] end.

(** ** [Array.prototype.sort]

    The comparator returns a number, [None] standing for [NaN], which
    [sort] treats as [0]; [x] is placed after [y] when the comparator
    is positive on [(x, y)].  The sort is stable (ECMAScript 2019), so
    for a comparator that is a consistent ordering the result is fully
    determined; it is computed here by insertion.  For an inconsistent
    comparator (one that returns [NaN] for some pairs, say) the standard
    leaves the order to the implementation, and engines differ: the
    list computed here is then one of the possible orders, and need not
    be that of a given engine.  What is stated below of a sort with
    such a comparator is no more than that it permutes the list; an
    order is stated only where the comparator is consistent. *)
Definition sorts_after (c : option Z) : bool :=
  match c with
  | Some n => Z.ltb 0 n
  | None => false
  end.

Fixpoint insert_sorted {A} (cmp : A -> A -> option Z) (x : A) (l : list A) : list A :=
  match l with
  | [] => [x]
  | y :: l' => if sorts_after (cmp x y) then y :: insert_sorted cmp x l' else x :: y :: l'
  end.

Fixpoint js_sort {A} (cmp : A -> A -> option Z) (l : list A) : list A :=
  match l with
  | [] => []
  | x :: l' => insert_sorted cmp x (js_sort cmp l')
  end.

(** [sort] with a comparator that may throw: the throw leaves [sort]. *)
Fixpoint insert_sorted_m {A} (cmp : A -> A -> outcome (option Z)) (x : A) (l : list A)
  : outcome (list A) :=
  match l with
  | [] => Returned [x]
  | y :: l' =>
      and_then (cmp x y) (fun c =>
        if sorts_after c
        then and_then (insert_sorted_m cmp x l') (fun r => Returned (y :: r))
        else Returned (x :: y :: l'))
  end.

Fixpoint js_sort_m {A} (cmp : A -> A -> outcome (option Z)) (l : list A)
  : outcome (list A) :=
  match l with
  | [] => Returned []
  | x :: l' => and_then (js_sort_m cmp l') (insert_sorted_m cmp x)
  end.

(** The comparator orders the elements of [l] by decreasing [key]. *)
Definition by_key_desc {A} (cmp : A -> A -> option Z) (key : A -> Z) (l : list A) : Prop :=
  forall a b, a ∈ l -> b ∈ l -> cmp a b = Some (key b - key a).

(** On the elements of [l] the comparator does not throw and is [cmp']. *)
Definition agrees_on {A} (cmp : A -> A -> outcome (option Z)) (cmp' : A -> A -> option Z)
    (l : list A) : Prop :=
  forall a b, a ∈ l -> b ∈ l -> cmp a b = Returned (cmp' a b).

(** [arr.some(f)] with an [f] that may throw. *)
Fixpoint some_m {A} (f : A -> outcome bool) (l : list A) : outcome bool :=
  match l with
  | [] => Returned false
  | x :: l' => and_then (f x) (fun b => if b then Returned true else some_m f l')
  end.

(** [arr.length > 0] *)
Definition nonempty {A} (l : list A) : bool :=
  match l with [] => false | _ :: _ => true end.

(** [s.replace(needle, by)] for a string [needle]: the first occurrence. *)
Fixpoint replace_first (needle by_ s : string) : string :=
  if String.prefix needle s
  then by_ +:+ String.substring (String.length needle) (String.length s) s
  else match s with
       | EmptyString => EmptyString
       | String c s' => String c (replace_first needle by_ s')
       end.

(** [s.replace(/[...]/g, c)] for a class of single characters. *)
Fixpoint replace_chars (in_class : ascii -> bool) (by_ : ascii) (s : string) : string :=
  match s with
  | EmptyString => EmptyString
  | String c s' => String (if in_class c then by_ else c) (replace_chars in_class by_ s')
  end.

(** [s.toUpperCase()] on the letters a-z. *)
Definition upper_char (c : ascii) : ascii :=
  let n := nat_of_ascii c in
  if Nat.leb 97 n && Nat.leb n 122 then ascii_of_nat (n - 32) else c.
Fixpoint toUpperCase (s : string) : string :=
  match s with
  | EmptyString => EmptyString
  | String c s' => String (upper_char c) (toUpperCase s')
  end.

(** The largest time value a [Date] can hold (TimeClip). *)
Definition max_time : Z := 8640000000000000.
Definition time_clip (n : Z) : time_value :=
  if Z.leb (Z.abs n) max_time then Some n else None.

(** [s.includes(needle)] *)
Fixpoint includes (needle s : string) : bool :=
  String.prefix needle s
  || match s with
     | EmptyString => false
     | String _ s' => includes needle s'
     end.

(** [s.substring(0, n)] *)
Definition substring0 (n : nat) (s : string) : string := String.substring 0 n s.

End JS.

Export JS.

Declare Scope io_scope.
Delimit Scope io_scope with io.
Notation "x <- m ;; k" := (bind m (fun x => k))
  (at level 100, m at next level, right associativity) : io_scope.
Notation "m ;;; k" := (bind m (fun _ => k))
  (at level 100, right associativity) : io_scope.
Local Open Scope io_scope.

(* ------------------------------------------------------------------ *)
(** ** More of JavaScript: object literals, letter case, loops *)
(* ------------------------------------------------------------------ *)

Module Builtins.

(** The property names that an object literal inherits from
    [Object.prototype]. *)
Definition inherited_names : list string :=
  [ "constructor"; "__proto__"; "hasOwnProperty"; "isPrototypeOf";
    "propertyIsEnumerable"; "toLocaleString"; "toString"; "valueOf";
    "__defineGetter__"; "__defineSetter__"; "__lookupGetter__"; "__lookupSetter__" ].

(** [literal[k]] for an object literal with the own properties [own]:
    an own property, a member inherited from [Object.prototype] (a
    function, or the prototype itself: truthy, and not a string), or
    [undefined]. *)
Inductive member (A : Type) : Type :=
| Own (a : A)
| Inherited
| Absent.
Arguments Own {A} a.
Arguments Inherited {A}.
Arguments Absent {A}.

Definition lookup_literal {A} (own : gmap string A) (k : string) : member A :=
  match own !! k with
  | Some a => Own a
  | None => if bool_decide (k ∈ inherited_names) then Inherited else Absent
  end.

(** [s.toLowerCase()].  Among the characters of a string the capital
    letters are A-Z (65 to 90) and the accented capitals 192 to 222,
    which leaves out the multiplication sign (215); the small letter of
    each is 32 further on. *)
Definition lower_char (c : ascii) : ascii :=
  let n := nat_of_ascii c in
  if (Nat.leb 65 n && Nat.leb n 90)
     || (Nat.leb 192 n && Nat.leb n 222 && negb (Nat.eqb n 215))
  then ascii_of_nat (n + 32) else c.
Fixpoint toLowerCase (s : string) : string :=
  match s with
  | EmptyString => EmptyString
  | String c s' => String (lower_char c) (toLowerCase s')
  end.

(** A capital letter A-Z. *)
Definition is_upper (c : ascii) : bool :=
  let n := nat_of_ascii c in
  Nat.leb 65 n && Nat.leb n 90.

(** A computation seen from a caller whose events are of another
    type. *)
Definition lift {E F A} (f : E -> F) (m : io E A) : io F A :=
  IO (map f (trace m)) (result m).

(** [for (const x of l) { s = body(s, x) }] *)
Fixpoint fold_io {E S A} (body : S -> A -> io E S) (l : list A) (s : S) : io E S :=
  match l with
  | [] => ret s
  | x :: l' => bind (body s x) (fun s' => fold_io body l' s')
  end.

(** [d.toISOString()] throws a [RangeError] on an invalid date; on a
    valid one the time value is returned here, to be printed. *)
Definition valid_time (d : time_value) : outcome Z :=
  match d with
  | Some t => Returned t
  | None => Threw (mkError "RangeError" "Invalid time value" None)
  end.

(** [message || otherwise] on strings. *)
Definition or_string (message otherwise : string) : string :=
  if String.eqb message "" then otherwise else message.

End Builtins.

Export Builtins.

(* ------------------------------------------------------------------ *)
(** ** [src/services/api.ts] *)
(* ------------------------------------------------------------------ *)

Module Api.

(** The [RequestInit] argument of [fetch], as far as the code sets it. *)
Record RequestInit : Type := mkInit {
  init_method : option string;
  init_headers : list (string * string);
  init_mode : option string;
  init_credentials : option string
}.

(** A [Response]: [ok] is derived from the status as the Fetch standard
    defines it; [text()] and [json()] are promises. *)
Record Response : Type := mkResponse {
  status : Z;
  text : outcome string;
  json : outcome value
}.

Definition ok (r : Response) : bool := Z.leb 200 (status r) && Z.leb (status r) 299.

Inductive event : Type :=
| EFetch (url : string) (init : RequestInit)
| EConsoleLog (msg : string)
| EConsoleError (msg : string).

Section Env.

(** [import.meta.env.VITE_API_URL], [import.meta.env.DEV], and
    [window.location.origin] when there is a [window]. *)
Variable VITE_API_URL : option string.
Variable DEV : bool.
Variable window_origin : option string.
(** What the network answers to a [fetch]. *)
Variable network : string -> RequestInit -> outcome Response.

Definition API_BASE_URL : string :=
  match VITE_API_URL with
  | Some s => if String.eqb s "" then "https://your-api-url.run.app" else s
  | None => "https://your-api-url.run.app"
  end.

Definition DEBUG : bool := DEV.

Definition fetch (url : string) (init : RequestInit) : io event Response :=
  emit (EFetch url init) ;;; await (network url init).

(** [{ ...options, mode: 'cors', credentials: 'omit' }] *)
Definition with_cors (options : option RequestInit) : RequestInit :=
  match options with
  | Some o => mkInit (init_method o) (init_headers o) (Some "cors") (Some "omit")
  | None => mkInit None [] (Some "cors") (Some "omit")
  end.

(** [options?.method || 'GET'] *)
Definition method_or_GET (options : option RequestInit) : string :=
  match options with
  | Some o =>
      match init_method o with
      | Some m => if String.eqb m "" then "GET" else m
      | None => "GET"
      end
  | None => "GET"
  end.

Definition http_error_message (st : Z) (errorText : string) : string :=
  "HTTP error! status: " +:+ pretty st +:+ ", body: " +:+ substring0 100 errorText.

(** The test of the [catch] block on the caught error. *)
Definition looks_like_cors (error : js_error) : bool :=
  includes "CORS" (err_message error)
  || includes "ERR_CONNECTION_RESET" (err_message error)
  || includes "Failed to fetch" (err_message error)
  || (String.eqb (err_name error) "TypeError"
      && includes "Failed to fetch" (err_message error)).

Definition frontendOrigin : string := default "unknown" window_origin.

Definition cors_error : js_error :=
  Error ("CORS_ERROR: Backend server is not configured to allow requests from origin: "
         +:+ frontendOrigin
         +:+ ". Please update the backend CORS settings to include this origin.").

(** What the [catch] block throws for a caught [e]. *)
Definition rethrown (e : js_error) : js_error :=
  if looks_like_cors e then cors_error else e.

(** [fetchWithErrorHandling].  The [try] block ends in
    [return response.json()], which is not awaited: the block returns
    that promise, and its rejection does not reach the [catch]. *)
Definition fetchWithErrorHandling (url : string) (options : option RequestInit)
  : io event value :=
  when DEBUG (emit (EConsoleLog ("[API] " +:+ method_or_GET options +:+ " " +:+ url))) ;;;
  promise <-
    try_catch
      (response <- fetch url (with_cors options) ;;
       when DEBUG (emit (EConsoleLog
         ("[API] Response status: " +:+ pretty (status response) +:+ " for " +:+ url))) ;;;
       if negb (ok response) then
         errorText <- await (text response) ;;
         when DEBUG (emit (EConsoleError ("[API] Error response for " +:+ url +:+ ":"))) ;;;
         throw (Error (http_error_message (status response) errorText))
       else ret (json response))
      (fun error =>
         when DEBUG (emit (EConsoleError ("[API] Fetch error for " +:+ url +:+ ":"))) ;;;
         throw (rethrown error)) ;;
  await promise.

Definition post_json : option RequestInit :=
  Some (mkInit (Some "POST") [("Content-Type", "application/json")] None None).

Definition string_of_bool (b : bool) : string := if b then "true" else "false".

(** The [api] object. *)
Definition healthCheck : io event value :=
  fetchWithErrorHandling (API_BASE_URL +:+ "/health") None.
Definition getAgentStatus (agentName : string) : io event value :=
  fetchWithErrorHandling (API_BASE_URL +:+ "/agents/" +:+ agentName +:+ "/status") None.
Definition createDemoEvaluation : io event value :=
  fetchWithErrorHandling (API_BASE_URL +:+ "/agents/evaluation/create-demo") post_json.
Definition generateScenario : io event value :=
  fetchWithErrorHandling (API_BASE_URL +:+ "/mentor/make-scenario") post_json.
Definition runSafetyCheck : io event value :=
  fetchWithErrorHandling (API_BASE_URL +:+ "/agents/notification/safety-check") post_json.
Definition generateCOAReports : io event value :=
  fetchWithErrorHandling (API_BASE_URL +:+ "/agents/coa-compliance/generate-reports") post_json.
Definition startAutomatedMode : io event value :=
  fetchWithErrorHandling (API_BASE_URL +:+ "/agents/automated-mode/start") post_json.
Definition stopAutomatedMode : io event value :=
  fetchWithErrorHandling (API_BASE_URL +:+ "/agents/automated-mode/stop") post_json.
Definition getAutomatedModeStatus : io event value :=
  fetchWithErrorHandling (API_BASE_URL +:+ "/agents/automated-mode/status") None.
Definition toggleAutomatedMode : io event value :=
  fetchWithErrorHandling (API_BASE_URL +:+ "/agents/automated-mode/toggle") post_json.
(** Absent arguments take the defaults ['monthly'] and [true]. *)
Definition getTimeSavingsAnalytics (timeframe : option string) (includeInsights : option bool)
  : io event value :=
  fetchWithErrorHandling
    (API_BASE_URL +:+ "/agents/time-savings/analytics?timeframe="
       +:+ default "monthly" timeframe
       +:+ "&include_insights=" +:+ string_of_bool (default true includeInsights))
    None.
Definition generateSiteReport : io event value :=
  fetchWithErrorHandling (API_BASE_URL +:+ "/agents/site/generate-report") post_json.

End Env.

(** The requests issued, in order. *)
Definition fetches (t : list event) : list (string * RequestInit) :=
  omap (fun e => match e with EFetch u i => Some (u, i) | _ => None end) t.

(** The HTTP method of a request: [GET] unless the init names one. *)
Definition http_method (i : RequestInit) : string := default "GET" (init_method i).

(** [m] performs exactly one fetch: method [meth] on URL [url]. *)
Definition one_fetch (m : io event value) (meth url : string) : Prop :=
  exists init, fetches (trace m) = [(url, init)] /\ http_method init = meth.

(** *** Sample data *)

Definition sample_response : Response :=
  mkResponse 500 (Returned "internal error")
    (Threw (mkError "SyntaxError" "Unexpected token i in JSON" None)).

End Api.

(* ------------------------------------------------------------------ *)
(** ** [src/services/firestore.ts] *)
(* ------------------------------------------------------------------ *)

Module Firestore.

(** A document of a query snapshot: [doc.id] and [doc.data()]. *)
Record QueryDocumentSnapshot : Type := mkSnap {
  doc_id : string;
  doc_data : gmap string value
}.

(** [interface FirestoreDocument]; an absent [createdAt] is [None], a
    present one is the time value of the [Date]. *)
Record FirestoreDocument : Type := mkDoc {
  id : string;
  data : gmap string value;
  createdAt : option time_value;
  updatedAt : option time_value
}.

(** [v?.toDate?.()]: [undefined] when [v], or its [toDate], is
    [undefined] or [null]; the [Date] of a Firestore [Timestamp]; a
    [TypeError] when [v] is a map with a [toDate] entry, which is not a
    function. *)
Definition toDate_opt (v : value) : outcome value :=
  match v with
  | VTimestamp ms => Returned (VDate (Some ms))
  | VObj o =>
      if nullish (field o "toDate") then Returned VUndefined
      else Threw (TypeError "toDate is not a function")
  | _ => Returned VUndefined
  end.

(** [data.created_at?.toDate?.() || data.createdAt?.toDate?.()
     || data.created_at || data.createdAt] *)
Definition createdAtTimestamp (data : gmap string value) : outcome value :=
  or_else_lazy (toDate_opt (field data "created_at"))
    (or_else_lazy (toDate_opt (field data "createdAt"))
       (Returned (or_else (field data "created_at") (field data "createdAt")))).

(** [data.modified_at?.toDate?.() || data.updated_at?.toDate?.()
     || data.updatedAt?.toDate?.() || data.modified_at
     || data.updated_at || data.updatedAt] *)
Definition updatedAtTimestamp (data : gmap string value) : outcome value :=
  or_else_lazy (toDate_opt (field data "modified_at"))
    (or_else_lazy (toDate_opt (field data "updated_at"))
       (or_else_lazy (toDate_opt (field data "updatedAt"))
          (Returned (or_else (field data "modified_at")
                       (or_else (field data "updated_at") (field data "updatedAt")))))).

Inductive Unsubscribe : Type :=
| SdkUnsubscribe (handle : nat)     (* the function returned by [onSnapshot] *)
| NoOp.                             (* [() => {}] *)

Inductive event : Type :=
| EConsoleLog (msg : string)
| EConsoleError (msg : string)
| EGetDocs (collectionName : string) (limitCount : Z)
| EQuery (collectionName : string) (limitCount : Z)
| EOnSnapshot (collectionName : string) (limitCount : Z)
| ENotify (what : string).          (* left to the caller's callbacks *)

Section Dates.

(** [Date.parse], and the time value of [new Date(v)] for a [v] that
    is an object other than a [Date]. *)
Variable Date_parse : string -> time_value.
Variable Date_of_object : value -> time_value.

(** The time value of [new Date(v)]. *)
Definition new_Date (v : value) : time_value :=
  match v with
  | VDate t => t
  | VNum n => time_clip n
  | VStr s => Date_parse s
  | VBool b => Some (if b then 1 else 0)
  | VNull => Some 0
  | VUndefined => None
  | VTimestamp _ | VArr _ | VObj _ => Date_of_object v
  end.

(** [ts ? new Date(ts) : undefined], as a field and as a data value. *)
Definition date_if_truthy (ts : value) : option time_value :=
  if truthy ts then Some (new_Date ts) else None.
Definition date_value (d : option time_value) : value :=
  match d with
  | Some t => VDate t
  | None => VUndefined
  end.

(** The object pushed for one document of the snapshot. *)
Definition to_document (doc : QueryDocumentSnapshot) : outcome FirestoreDocument :=
  let data := doc_data doc in
  and_then (createdAtTimestamp data) (fun createdAtTs =>
  and_then (updatedAtTimestamp data) (fun updatedAtTs =>
  Returned
    (mkDoc (doc_id doc)
       (<["updatedAt" := date_value (date_if_truthy updatedAtTs)]>
          (<["createdAt" := date_value (date_if_truthy createdAtTs)]>
             (<["modified_at" := updatedAtTs]>
                (<["created_at" := createdAtTs]> data))))
       (date_if_truthy createdAtTs)
       (date_if_truthy updatedAtTs)))).

(** [documents.every(d => d.createdAt)]: a [Date] is always truthy. *)
Definition every_createdAt (documents : list FirestoreDocument) : bool :=
  forallb (fun d => match createdAt d with Some _ => true | None => false end) documents.

(** [(a, b) => { if (!a.createdAt || !b.createdAt) return 0;
                 return b.createdAt.getTime() - a.createdAt.getTime(); }] *)
Definition compare_createdAt (a b : FirestoreDocument) : option Z :=
  match createdAt a, createdAt b with
  | Some ta, Some tb =>
      match ta, tb with
      | Some x, Some y => Some (y - x)
      | _, _ => None
      end
  | _, _ => Some 0
  end.

Definition sort_if_dated (documents : list FirestoreDocument) : list FirestoreDocument :=
  if every_createdAt documents then js_sort compare_createdAt documents else documents.

Definition snapshotToDocuments (querySnapshot : list QueryDocumentSnapshot)
  : outcome (list FirestoreDocument) :=
  and_then (map_outcome to_document querySnapshot) (fun documents =>
  Returned (sort_if_dated documents)).

Definition permission_denied_message (collectionName : string) : string :=
  "Permission denied: Check Firestore security rules for collection '" +:+ collectionName
  +:+ "'. See FIRESTORE_RULES_FIX.md for instructions.".

(** [getCollection].  Building the query,
    [query(collection(db, collectionName), limit(limitCount))], is a
    step of the SDK that may throw (on a limit that is not positive, on
    a path that names no collection): [sdk_query]; [getDocs] is what the
    SDK answers to the query.  An absent [limitCount] is 50. *)
Definition getCollection
    (sdk_query : string -> Z -> outcome unit)
    (getDocs : string -> Z -> outcome (list QueryDocumentSnapshot))
    (collectionName : string) (limitCount : option Z)
  : io event (list FirestoreDocument) :=
  let n := default 50 limitCount in
  try_catch
    (emit (EConsoleLog ("[Firestore] ========== Fetching collection: " +:+ collectionName)) ;;;
     emit (EQuery collectionName n) ;;;
     await (sdk_query collectionName n) ;;;
     emit (EConsoleLog "[Firestore] Fetching documents without ordering...") ;;;
     emit (EGetDocs collectionName n) ;;;
     querySnapshot <- await (getDocs collectionName n) ;;
     emit (EConsoleLog "[Firestore] Query succeeded!") ;;;
     emit (EConsoleLog ("[Firestore] Got documents from " +:+ collectionName)) ;;;
     emit (EConsoleLog "[Firestore] Query snapshot empty:") ;;;
     documents <-
       map_io (fun doc =>
                 emit (EConsoleLog ("[Firestore] Processing document " +:+ doc_id doc)) ;;;
                 await (to_document doc))
              querySnapshot ;;
     let documents := sort_if_dated documents in
     emit (EConsoleLog ("[Firestore] Returning documents from " +:+ collectionName)) ;;;
     ret documents)
    (fun error =>
       emit (EConsoleError ("[Firestore] ERROR fetching collection " +:+ collectionName)) ;;;
       emit (EConsoleError "[Firestore] Error code:") ;;;
       emit (EConsoleError "[Firestore] Error message:") ;;;
       emit (EConsoleError "[Firestore] Full error:") ;;;
       if bool_decide (err_code error = Some "permission-denied")
       then throw (Error (permission_denied_message collectionName))
       else throw error).

(** *** Listeners *)

Section Listener.

(** The SDK: building the query and registering the listener may
    each throw; a registration returns the handle of its
    unsubscribe function. *)
Variable sdk_query : string -> Z -> outcome unit.
Variable sdk_onSnapshot :
  string -> Z ->
  (list QueryDocumentSnapshot -> io event unit) -> (js_error -> io event unit) ->
  outcome nat.

(** The caller's callbacks. *)
Variable callback : list FirestoreDocument -> io event unit.
Variable onError : option (js_error -> io event unit).

(** [if (onError) onError(e)] *)
Definition report (e : js_error) : io event unit :=
  match onError with
  | Some f => f e
  | None => ret tt
  end.

(** The two functions handed to [onSnapshot]. *)
Definition on_snapshot (collectionName : string)
    (querySnapshot : list QueryDocumentSnapshot) : io event unit :=
  emit (EConsoleLog ("[Firestore] Snapshot update for " +:+ collectionName)) ;;;
  documents <- await (snapshotToDocuments querySnapshot) ;;
  callback documents.

Definition on_listen_error (collectionName : string) (error : js_error) : io event unit :=
  emit (EConsoleError ("[Firestore] ERROR in listener for " +:+ collectionName)) ;;;
  if bool_decide (err_code error = Some "permission-denied")
  then report (Error (permission_denied_message collectionName))
  else report error.

(** An absent [limitCount] is 50. *)
Definition listenToCollection (collectionName : string) (limitCount : option Z)
  : io event Unsubscribe :=
  let n := default 50 limitCount in
  try_catch
    (emit (EConsoleLog ("[Firestore] Setting up listener for collection: " +:+ collectionName)) ;;;
     emit (EQuery collectionName n) ;;;
     await (sdk_query collectionName n) ;;;
     emit (EOnSnapshot collectionName n) ;;;
     unsubscribe <- await (sdk_onSnapshot collectionName n
                             (on_snapshot collectionName)
                             (on_listen_error collectionName)) ;;
     ret (SdkUnsubscribe unsubscribe))
    (fun error =>
       emit (EConsoleError ("[Firestore] ERROR setting up listener for " +:+ collectionName)) ;;;
       report error ;;;
       ret NoOp).

(** The per-collection wrappers; their absent [limitCount] is 20. *)
Definition listenToEvaluations (limitCount : option Z) : io event Unsubscribe :=
  listenToCollection "agent_evaluations" (Some (default 20 limitCount)).
Definition listenToNotifications (limitCount : option Z) : io event Unsubscribe :=
  listenToCollection "agent_notifications" (Some (default 20 limitCount)).
Definition listenToCOAReports (limitCount : option Z) : io event Unsubscribe :=
  listenToCollection "agent_coa_reports" (Some (default 20 limitCount)).
Definition listenToSiteReports (limitCount : option Z) : io event Unsubscribe :=
  listenToCollection "agent_sites" (Some (default 20 limitCount)).

End Listener.

End Dates.

(** *** Vocabulary of the properties *)

(** The caller's [onError], when given, returns normally on every
    error. *)
Definition returns_normally (onError : option (js_error -> io event unit)) : Prop :=
  match onError with
  | Some f => forall e, result (f e) = Returned tt
  | None => True
  end.

(** The first truthy value of a chain [a || b || ... || z]: the last
    operand when none is truthy. *)
Fixpoint first_truthy (l : list value) : value :=
  match l with
  | [] => VUndefined
  | [x] => x
  | x :: l' => if truthy x then x else first_truthy l'
  end.

(** The [Date] of a Firestore [Timestamp], [undefined] for the rest. *)
Definition timestamp_date (v : value) : value :=
  match v with
  | VTimestamp ms => VDate (Some ms)
  | _ => VUndefined
  end.

(** [v?.toDate?.()] does not throw: [v] is not a map with a [toDate]
    entry other than [null] (such an entry is no function).  A document
    is well formed when this holds of its five timestamp fields. *)
Definition toDate_callable (v : value) : Prop :=
  match v with
  | VObj o => nullish (field o "toDate") = true
  | _ => True
  end.
Definition well_formed_timestamps (data : gmap string value) : Prop :=
  Forall (fun k => toDate_callable (field data k))
    ["created_at"; "createdAt"; "modified_at"; "updated_at"; "updatedAt"].

(** [a] is at least as new as [b]: both dates are valid and ordered. *)
Definition newer_or_equal (ta tb : option time_value) : Prop :=
  match ta, tb with
  | Some (Some x), Some (Some y) => y <= x
  | _, _ => False
  end.
Definition newest_first (a b : FirestoreDocument) : Prop :=
  newer_or_equal (createdAt a) (createdAt b).

Definition valid_createdAt (d : FirestoreDocument) : Prop :=
  exists t, createdAt d = Some (Some t).

(** The time of a valid [createdAt]. *)
Definition createdAt_time (d : FirestoreDocument) : Z :=
  match createdAt d with
  | Some (Some t) => t
  | _ => 0
  end.

(** The keys that the service writes into the data of a document. *)
Definition written_keys : list string :=
  ["created_at"; "modified_at"; "createdAt"; "updatedAt"].

(** One of the fields [keys] of the document holds a truthy value. *)
Definition holds_truthy (data : gmap string value) (keys : list string) : Prop :=
  Exists (fun k => truthy (field data k) = true) keys.

(** The document has one of the fields [keys], whatever it holds. *)
Definition contains_field (data : gmap string value) (keys : list string) : Prop :=
  Exists (fun k => is_Some (data !! k)) keys.

Definition creation_fields : list string := ["created_at"; "createdAt"].
Definition update_fields : list string := ["modified_at"; "updated_at"; "updatedAt"].

(** The value of a field converted with [toDate()] when it has one. *)
Definition converted (v : value) : value :=
  match v with
  | VTimestamp ms => VDate (Some ms)
  | _ => v
  end.

(** The log lines of a listener set-up and of its failure. *)
Definition setup_log (name : string) : event :=
  EConsoleLog ("[Firestore] Setting up listener for collection: " +:+ name).
Definition setup_error_log (name : string) : event :=
  EConsoleError ("[Firestore] ERROR setting up listener for " +:+ name).

(** The error handed to [onError] for a subscription error. *)
Definition reported_error (name : string) (error : js_error) : js_error :=
  if bool_decide (err_code error = Some "permission-denied")
  then Error (permission_denied_message name)
  else error.

(** *** Sample snapshots *)

(** [Date.parse] on the strings of the samples (['pending'] is not a
    date), and [new Date(v)] on their objects (none is a date). *)
Definition sample_Date_parse (s : string) : time_value :=
  if String.eqb s "2024-01-01" then Some 1704067200000 else None.
Definition sample_Date_of_object (v : value) : time_value := None.

Definition three_stamped : list QueryDocumentSnapshot :=
  [ mkSnap "a" (<["created_at" := VTimestamp 1000]> ∅);
    mkSnap "b" (<["created_at" := VTimestamp 3000]> ∅);
    mkSnap "c" (<["createdAt" := VTimestamp 2000]> ∅) ].

Definition one_unparsed : list QueryDocumentSnapshot :=
  [ mkSnap "x" (<["created_at" := VStr "pending"]> ∅);
    mkSnap "a" (<["created_at" := VNum 1000]> ∅);
    mkSnap "b" (<["created_at" := VNum 2000]> ∅) ].

Definition untimed : list QueryDocumentSnapshot :=
  [ mkSnap "doc1" (<["title" := VStr "Case 12"]> ∅) ].

Definition falsy_stamps : list QueryDocumentSnapshot :=
  [ mkSnap "a" (<["created_at" := VNull]> ∅);
    mkSnap "b" (<["created_at" := VNum 0]> ∅) ].

Definition string_then_timestamp : gmap string value :=
  <["createdAt" := VTimestamp 1700000000000]>
    (<["created_at" := VStr "2024-01-01"]> ∅).

End Firestore.

(* ------------------------------------------------------------------ *)
(** ** [src/utils/exportExcel.ts] *)
(* ------------------------------------------------------------------ *)

Module ExportExcel.
Import Firestore.

(** What the code asks of a worksheet, in order.  Fonts, fills,
    borders, alignments, column widths and row heights are left out;
    so are the [console.log] calls, except where evaluating their
    arguments can throw. *)
Inductive op : Type :=
| AddImage
| MergeCells (range : string)
| SetCell (cell : string) (v : value)
| AddRow (cells : list value).

(** A worksheet: the name under which [addWorksheet] added it to the
    workbook, a string, and the operations applied to it. *)
Record Worksheet : Type := mkSheet {
  sheet_name : value;
  sheet_ops : list op
}.

(** *** The spreadsheet library: the names of worksheets

    [workbook.addWorksheet(name)] of ExcelJS does not take every name.
    The setter of a worksheet's name (exceljs 4, [lib/doc/worksheet.js])
    makes the checks below, in this order, and throws an [Error] when
    one fails; a name of more than 31 characters is cut to 31 (with a
    warning on the console, left out here); a name is taken when a
    sheet of the workbook has it, letter case ignored. *)

(** The characters that a name may not hold: [* ? : / \ [ ]]. *)
Definition forbidden_in_name (c : ascii) : bool :=
  bool_decide (c ∈ ["*"; "?"; ":"; "/"; "\"; "["; "]"]%char).

Fixpoint ends_with (c : ascii) (s : string) : bool :=
  match s with
  | EmptyString => false
  | String x EmptyString => Ascii.eqb x c
  | String _ s' => ends_with c s'
  end.

(** [/(^')|('$)/.test(name)] *)
Definition quote_at_end (s : string) : bool :=
  String.prefix "'" s || ends_with "'" s.

(** [/[*?:/\\[\]]/.test(name)] *)
Definition has_forbidden (s : string) : bool :=
  existsb forbidden_in_name (list_ascii_of_string s).

(** The names of the sheets of a workbook. *)
Definition sheet_names (workbook : list Worksheet) : list string :=
  omap (fun ws => match sheet_name ws with VStr s => Some s | _ => None end) workbook.

(** [workbook._worksheets.find(ws => ws && ws.name.toLowerCase()
     === name.toLowerCase())] *)
Definition name_taken (workbook : list Worksheet) (name : string) : bool :=
  bool_decide (toLowerCase name ∈ map toLowerCase (sheet_names workbook)).

Definition double_quote : string := String (ascii_of_nat 34) EmptyString.

(** [workbook.addWorksheet(name)], as far as the name goes: the name
    under which the sheet is added, or the error thrown.  An
    [undefined] name stands for ['sheet' + id], the id being the number
    of the sheet in the workbook. *)
Definition addWorksheet (workbook : list Worksheet) (name : value) : outcome string :=
  let name :=
    match name with
    | VUndefined => VStr ("sheet" +:+ pretty (S (length workbook)))
    | _ => name
    end in
  match name with
  | VStr s =>
      if String.eqb s "" then Threw (Error "The name can't be empty.")
      else if String.eqb s "History" then
        Threw (Error ("The name " +:+ double_quote +:+ "History" +:+ double_quote
                      +:+ " is protected. Please use a different name."))
      else if has_forbidden s then
        Threw (Error ("Worksheet name " +:+ s
                      +:+ " cannot include any of the following characters: * ? : \ / [ ]"))
      else if quote_at_end s then
        Threw (Error ("The first or last character of worksheet name cannot be a single "
                      +:+ "quotation mark: " +:+ s))
      else
        let s := if Nat.ltb 31 (String.length s) then substring0 31 s else s in
        if name_taken workbook s
        then Threw (Error ("Worksheet name already exists: " +:+ s))
        else Returned s
  | _ => Threw (Error "The name has to be a string.")
  end.

Inductive event : Type :=
| EAlert (msg : string)
| ENewWorkbook
| EFetchLogo
| EDownload (filename : string) (workbook : list Worksheet).

Section Env.

Variable Date_parse : string -> time_value.
Variable Date_of_object : value -> time_value.
(** [Date.prototype.toLocaleString], on the time value. *)
Variable toLocaleString : time_value -> string.
(** ToNumber and ToString of a string or object, [JSON.stringify], and
    [Array.prototype.join(', ')]. *)
Variable ToNumber_other : value -> option Z.
Variable ToString : value -> string.
Variable JSON_stringify : value -> string.
Variable join_comma : list value -> string.
(** [Object.keys(o)]: the keys of the object in the order in which
    they are enumerated (the keys that are array indices in ascending
    order, then the others in the order in which they were created),
    which a finite map does not record. *)
Variable Object_keys : gmap string value -> list string.
(** The entries [(id, standard)] of [data/standards.json]. *)
Variable standardsData : list (string * string).
(** Whether [loadLogoAsBase64] found the logo, and
    [new Date().toISOString()] at the time of the export. *)
Variable logoData : bool.
Variable now_iso : string.

Local Abbreviation new_Date := (new_Date Date_parse Date_of_object).

(** [getStandardsMap]: later entries overwrite earlier ones. *)
Definition getStandardsMap : gmap string string :=
  fold_left (fun m std => <[fst std := snd std]> m) standardsData ∅.

(** [standardsMap.get(k)]: only a string can be a key of the map. *)
Definition standardsMap_get (k : value) : value :=
  match k with
  | VStr s => match getStandardsMap !! s with
              | Some d => VStr d
              | None => VUndefined
              end
  | _ => VUndefined
  end.

(** [addLogoHeader(workbook, worksheet, logoData, subtitle)] *)
Definition addLogoHeader (subtitle : value) : list op :=
  [ AddImage; MergeCells "A1:B2";
    SetCell "C1" (VStr "PrecepGo"); MergeCells "C1:E1";
    SetCell "C2" (or_else subtitle (VStr "COA Compliance Reports")); MergeCells "C2:E2";
    AddRow [] ].

(** The file-name stamp:
    [new Date().toISOString().replace(/[:.]/g, '-').substring(0, 19)] *)
Definition timestamp : string :=
  substring0 19
    (replace_chars (fun c => Ascii.eqb c ":" || Ascii.eqb c ".")%char "-"%char now_iso).

(** ToNumber, and [v > n]. *)
Definition to_number (v : value) : option Z :=
  match v with
  | VUndefined => None
  | VNull => Some 0
  | VBool b => Some (if b then 1 else 0)
  | VNum n => Some n
  | VDate t => t
  | VStr _ | VTimestamp _ | VArr _ | VObj _ => ToNumber_other v
  end.
Definition greater_than (v : value) (n : Z) : bool :=
  match to_number v with
  | Some x => Z.ltb n x
  | None => false
  end.

(** ToString in a template literal. *)
Definition string_of (v : value) : string :=
  match v with
  | VStr s => s
  | _ => ToString v
  end.

(** *** [exportCOAReportsToExcel] *)

(** [getDate] of the sort comparator. *)
Definition getDate (doc : FirestoreDocument) : outcome time_value :=
  match createdAt doc with
  | Some t => Returned t
  | None =>
      let created_at := field (data doc) "created_at" in
      if truthy created_at then
        and_then (toDate_opt created_at) (fun d =>
        Returned (new_Date (or_else d created_at)))
      else Returned (Some 0)
  end.

(** [b - a] on time values; [NaN] when either is. *)
Definition time_diff (tb ta : time_value) : option Z :=
  match tb, ta with
  | Some y, Some x => Some (y - x)
  | _, _ => None
  end.

Definition compare_dates (a b : FirestoreDocument) : outcome (option Z) :=
  and_then (getDate a) (fun dateA =>
  and_then (getDate b) (fun dateB =>
  Returned (time_diff dateB dateA))).

(** [Array.isArray(sr.standard_scores) && sr.standard_scores.length > 0] *)
Definition has_scores (sr : value) : outcome bool :=
  and_then (get_prop sr "standard_scores") (fun ss =>
  Returned (isArray ss && nonempty (elements ss))).

(** The [for (const doc of sortedDocs)] search. *)
Fixpoint find_with_scores (docs : list FirestoreDocument)
  : outcome (option FirestoreDocument) :=
  match docs with
  | [] => Returned None
  | doc :: rest =>
      let student_reports := field (data doc) "student_reports" in
      if isArray student_reports then
        and_then (some_m has_scores (elements student_reports)) (fun hasData =>
        if hasData then Returned (Some doc) else find_with_scores rest)
      else find_with_scores rest
  end.

(** The document exported: [documentToUse]. *)
Definition documentToUse (latestDoc : FirestoreDocument)
    (sortedDocs : list FirestoreDocument) : outcome FirestoreDocument :=
  let student_reports := field (data latestDoc) "student_reports" in
  if isArray student_reports && nonempty (elements student_reports) then
    and_then (some_m has_scores (elements student_reports)) (fun hasStudentStandards =>
    if hasStudentStandards then Returned latestDoc
    else and_then (find_with_scores sortedDocs) (fun found =>
         Returned (default latestDoc found)))
  else Returned latestDoc.

(** [sortedDocs[0]], then [latestDoc.data]. *)
Definition first_document (sortedDocs : list FirestoreDocument) : outcome FirestoreDocument :=
  match sortedDocs with
  | doc :: _ => Returned doc
  | [] => Threw (TypeError "Cannot read properties of undefined (reading 'data')")
  end.

(** The debug log [Object.keys(data.student_reports[0])] throws on a
    first entry that is [null] or [undefined]. *)
Definition log_first_report_keys (data : gmap string value) : outcome unit :=
  match field data "student_reports" with
  | VArr (x :: _) =>
      if nullish x then Threw (TypeError "Cannot convert undefined or null to object")
      else Returned tt
  | _ => Returned tt
  end.

Definition array_length (v : value) : value :=
  VNum (if isArray v then Z.of_nat (length (elements v)) else 0).

Definition created_date (doc : FirestoreDocument) : value :=
  match createdAt doc with
  | Some t => VStr (toLocaleString t)
  | None => VStr "N/A"
  end.

Definition reportId (doc : FirestoreDocument) : value := VStr (substring0 8 (id doc)).

Definition summary_header : list value :=
  [ VStr "Report ID"; VStr "Created Date"; VStr "Students Processed";
    VStr "Total Standards"; VStr "Student Reports Count";
    VStr "Standard Scores Count"; VStr "Agent" ].

Definition summary_row (doc : FirestoreDocument) : list value :=
  let finalData := data doc in
  [ reportId doc;
    created_date doc;
    or_else (field finalData "students_processed") (VNum 0);
    or_else (field finalData "total_standards") (VNum 0);
    array_length (field finalData "student_reports");
    array_length (field finalData "standard_scores");
    or_else (field finalData "agent") (VStr "N/A") ].

Definition summary_sheet (doc : FirestoreDocument) : Worksheet :=
  mkSheet (VStr "Summary")
    ((if logoData then addLogoHeader VUndefined
      else [SetCell "A1" (VStr "PrecepGo - COA Compliance Report"); AddRow []])
     ++ [AddRow summary_header; AddRow (summary_row doc)]).

(** [score.id || score.standard_id || score.standardId || 'N/A'] *)
Definition standardId (score : value) : outcome value :=
  and_then (get_prop score "id") (fun i =>
  Returned (or_else i
             (or_else (read score "standard_id")
                (or_else (read score "standardId") (VStr "N/A"))))).

(** The [if ... else if ... else if] chain on [score], [value],
    [scores]; it runs after [standardId], so the record is neither
    [null] nor [undefined]. *)
Definition scoreValue (score : value) : value :=
  if negb (nullish (read score "score")) then read score "score"
  else if negb (nullish (read score "value")) then read score "value"
  else if negb (nullish (read score "scores")) then read score "scores"
  else VNum 0.

Definition standard_row (score : value) : outcome op :=
  and_then (standardId score) (fun sid =>
  Returned (AddRow [or_else (standardsMap_get sid) sid; scoreValue score])).

(** [studentName.length > 31 ? studentName.substring(0, 28) + '...'
     : studentName]; only a string has [substring]. *)
Definition sheetName (studentName : value) : outcome value :=
  if greater_than (read studentName "length") 31 then
    match studentName with
    | VStr s => Returned (VStr (substring0 28 s +:+ "..."))
    | _ => Threw (TypeError "studentName.substring is not a function")
    end
  else Returned studentName.

Definition student_summary_section (doc : FirestoreDocument)
    (studentReport studentName : value) : list op :=
  [ AddRow [VStr "Student Summary"]; AddRow [];
    AddRow [VStr "Field"; VStr "Value"];
    AddRow [VStr "Report ID"; reportId doc];
    AddRow [VStr "Student ID"; or_else (read studentReport "student_id") (VStr "N/A")];
    AddRow [VStr "Student Name"; studentName];
    AddRow [VStr "Class Standing"; or_else (read studentReport "class_standing") (VStr "N/A")];
    AddRow [VStr "Evaluations Processed";
            or_else (read studentReport "evaluations_processed") (VNum 0)];
    AddRow [VStr "Total Score"; or_else (read studentReport "total_score") (VNum 0)];
    AddRow [VStr "Total Standards"; or_else (read studentReport "total_standards") (VNum 0)];
    AddRow [VStr "Generated At"; or_else (read studentReport "generated_at") (VStr "N/A")];
    AddRow []; AddRow [] ].

Definition standard_scores_section (rows : list op) : list op :=
  [ AddRow [VStr "Standard Scores"]; AddRow [];
    AddRow [VStr "Standard Description"; VStr "Preceptor Attestations"] ]
  ++ rows.

(** [studentReport.standard_scores || studentReport.standards || []] *)
Definition standardScores (studentReport : value) : value :=
  or_else (read studentReport "standard_scores")
    (or_else (read studentReport "standards") (VArr [])).

Definition standard_rows (studentReport : value) : outcome (list op) :=
  let scores := standardScores studentReport in
  if isArray scores && nonempty (elements scores)
  then map_outcome standard_row (elements scores)
  else Returned [AddRow [VStr "No standards found"; VStr ""]].

(** The body of [finalData.student_reports.forEach]: the sheet that
    it adds to the workbook. *)
Definition student_sheet (workbook : list Worksheet) (doc : FirestoreDocument)
    (studentReport : value) : outcome Worksheet :=
  and_then (get_prop studentReport "student_name") (fun student_name =>
  let studentName := or_else student_name (VStr "N/A") in
  and_then (sheetName studentName) (fun sheetName =>
  and_then (addWorksheet workbook sheetName) (fun name =>
  and_then (standard_rows studentReport) (fun rows =>
  Returned
    (mkSheet (VStr name)
       ((if logoData then addLogoHeader VUndefined else [])
        ++ student_summary_section doc studentReport studentName
        ++ standard_scores_section rows)))))).

(** [forEach] over the student reports: each sheet is added to the
    workbook that holds the sheets added before it. *)
Fixpoint add_student_sheets (doc : FirestoreDocument) (reports : list value)
    (workbook : list Worksheet) : outcome (list Worksheet) :=
  match reports with
  | [] => Returned workbook
  | studentReport :: rest =>
      and_then (student_sheet workbook doc studentReport) (fun sheet =>
      add_student_sheets doc rest (workbook ++ [sheet])%list)
  end.

Definition student_sheets (doc : FirestoreDocument) (workbook : list Worksheet)
  : outcome (list Worksheet) :=
  let student_reports := field (data doc) "student_reports" in
  if isArray student_reports
  then add_student_sheets doc (elements student_reports) workbook
  else Returned workbook.

(** One element of [aggregateScoresData], as the row of its values. *)
Definition aggregate_row (doc : FirestoreDocument) (score : value) : outcome op :=
  and_then (get_prop score "id") (fun i =>
  let sid := or_else i (VStr "N/A") in
  Returned (AddRow [ reportId doc; sid; or_else (standardsMap_get sid) sid;
                     or_else (read score "score") (VNum 0) ])).

Definition aggregate_header : list value :=
  [ VStr "Report ID"; VStr "Standard ID"; VStr "Standard Description"; VStr "Score" ].

(** The 'Aggregate Standards' sheet, added to the workbook when
    [aggregateScoresData] is not empty. *)
Definition aggregate_sheets (doc : FirestoreDocument) (workbook : list Worksheet)
  : outcome (list Worksheet) :=
  let standard_scores := field (data doc) "standard_scores" in
  and_then (if isArray standard_scores
            then map_outcome (aggregate_row doc) (elements standard_scores)
            else Returned []) (fun rows =>
  if nonempty rows then
    and_then (addWorksheet workbook (VStr "Aggregate Standards")) (fun name =>
    Returned
      (workbook
       ++ [ mkSheet (VStr name)
              ((if logoData then addLogoHeader VUndefined else [])
               ++ AddRow aggregate_header :: rows) ])%list)
  else Returned workbook).

Definition exportCOAReportsToExcel (documents : list FirestoreDocument) : io event unit :=
  if Nat.eqb (length documents) 0 then
    emit (EAlert "No COA reports to export")
  else
    sortedDocs <- await (js_sort_m compare_dates documents) ;;
    latestDoc <- await (first_document sortedDocs) ;;
    emit ENewWorkbook ;;;
    emit EFetchLogo ;;;
    await (log_first_report_keys (data latestDoc)) ;;;
    doc <- await (documentToUse latestDoc sortedDocs) ;;
    workbook <- await (student_sheets doc [summary_sheet doc]) ;;
    workbook <- await (aggregate_sheets doc workbook) ;;
    emit (EDownload ("COA_Reports_" +:+ timestamp +:+ ".xlsx") workbook).

(** *** [exportSiteReportsToExcel] *)

(** The date of the sort comparator:
    [(d.data.created_at?.toDate ? d.data.created_at.toDate() : null)
     || (d.createdAt ? new Date(d.createdAt) : new Date(0))] *)
Definition site_date (doc : FirestoreDocument) : outcome time_value :=
  let fallback := default (Some 0) (createdAt doc) in
  match field (data doc) "created_at" with
  | VTimestamp ms => Returned (Some ms)
  | VObj o =>
      if truthy (field o "toDate")
      then Threw (TypeError "created_at.toDate is not a function")
      else Returned fallback
  | _ => Returned fallback
  end.

Definition compare_site_dates (a b : FirestoreDocument) : outcome (option Z) :=
  and_then (site_date a) (fun dateA =>
  and_then (site_date b) (fun dateB =>
  Returned (time_diff dateB dateA))).

(** [formatFirestoreDate]; a throw inside its [try] gives ['N/A']. *)
Definition formatFirestoreDate (dateField : value) : value :=
  if negb (truthy dateField) then VStr "N/A"
  else match dateField with
       | VTimestamp ms => VStr (toLocaleString (Some ms))
       | VObj o => if truthy (field o "toDate") then VStr "N/A"
                   else VStr (ToString dateField)
       | VDate t => VStr (toLocaleString t)
       | VStr str => VStr (toLocaleString (Date_parse str))
       | _ => VStr (ToString dateField)
       end.

(** [data.analysis_data || data] *)
Definition analysisData (data : gmap string value) : value :=
  or_else (field data "analysis_data") (VObj data).

Definition reportTitle (data : gmap string value) : value :=
  or_else (field data "report_title") (or_else (field data "title") (VStr "Site Report")).

Definition site_header (data : gmap string value) : list op :=
  if logoData then addLogoHeader (reportTitle data) else [].

Definition site_summary_header : list value :=
  [ VStr "Report ID"; VStr "Created Date"; VStr "Generated Date"; VStr "Analyzed Date";
    VStr "Report Version"; VStr "Total Sites"; VStr "Total Preceptors";
    VStr "Total Evaluations"; VStr "Total Evaluations Analyzed"; VStr "Agent" ].

Definition site_summary_row (doc : FirestoreDocument) : list value :=
  let data := data doc in
  let analysis := analysisData data in
  [ reportId doc;
    formatFirestoreDate (or_else (field data "created_at") (date_value (createdAt doc)));
    formatFirestoreDate (or_else (field data "generated_at") (read analysis "generated_at"));
    formatFirestoreDate (or_else (read analysis "analyzed_at") (field data "analyzed_at"));
    or_else (field data "report_version") (VStr "N/A");
    or_else (read analysis "total_sites") (or_else (field data "total_sites") (VNum 0));
    or_else (read analysis "total_preceptors")
      (or_else (field data "total_preceptors") (VNum 0));
    or_else (read analysis "total_evaluations")
      (or_else (field data "total_evaluations") (VNum 0));
    or_else (field data "total_evaluations_analyzed")
      (or_else (read analysis "total_evaluations") (VNum 0));
    or_else (field data "agent") (VStr "N/A") ].

Definition site_summary_sheet (doc : FirestoreDocument) : Worksheet :=
  let data := data doc in
  mkSheet (VStr "Summary")
    ((if logoData then addLogoHeader (reportTitle data)
      else [SetCell "A1" (VStr ("PrecepGo - " +:+ string_of (reportTitle data))); AddRow []])
     ++ [AddRow site_summary_header; AddRow (site_summary_row doc)]
     ++ (if truthy (field data "report_text")
         then [ AddRow []; AddRow [VStr "Report Text"]; AddRow [field data "report_text"];
                MergeCells "the report text row" ]
         else [])).

(** [Array.isArray(x) ? x.join(', ') : (x || 'N/A')] *)
Definition joined_or (x : value) (otherwise : value) : value :=
  if isArray x then VStr (join_comma (elements x)) else otherwise.

Definition site_row (site : value) : outcome op :=
  and_then (get_prop site "case_types") (fun case_types =>
  Returned
    (AddRow
       [ or_else (read site "name") (or_else (read site "site_name") (VStr "N/A"));
         or_else (read site "total_evaluations")
           (or_else (read site "evaluations_count") (VNum 0));
         or_else (read site "unique_preceptors") (VNum 0);
         joined_or case_types (or_else case_types (VStr "N/A"));
         joined_or (read site "preceptor_names")
           (joined_or (read site "preceptors")
              (or_else (read site "preceptors") (VStr "N/A"))) ])).

Definition preceptor_row (preceptor : value) : outcome op :=
  and_then (get_prop preceptor "case_types") (fun case_types =>
  Returned
    (AddRow
       [ or_else (read preceptor "name")
           (or_else (read preceptor "preceptor_name") (VStr "N/A"));
         or_else (read preceptor "site") (or_else (read preceptor "site_name") (VStr "N/A"));
         or_else (read preceptor "student_count") (VNum 0);
         or_else (read preceptor "total_evaluations")
           (or_else (read preceptor "evaluations_count") (VNum 0));
         joined_or case_types (or_else case_types (VStr "N/A")) ])).

(** The rows of the 'Sites' and 'Preceptors' sheets for the array
    [analysisData.k || data.k || []]. *)
Definition listed (data : gmap string value) (k : string) : value :=
  or_else (read (analysisData data) k) (or_else (field data k) (VArr [])).

Definition rows_or (row : value -> outcome op) (placeholder : string) (entries : value)
  : outcome (list op) :=
  if isArray entries && nonempty (elements entries)
  then map_outcome row (elements entries)
  else Returned [AddRow [VStr placeholder; VStr ""; VStr ""; VStr ""; VStr ""]].

Definition sites_sheet (data : gmap string value) : outcome Worksheet :=
  and_then (rows_or site_row "No sites data available" (listed data "sites")) (fun rows =>
  Returned
    (mkSheet (VStr "Sites")
       (site_header data
        ++ AddRow [ VStr "Site Name"; VStr "Total Evaluations"; VStr "Unique Preceptors";
                    VStr "Case Types"; VStr "Preceptor Names" ] :: rows))).

Definition preceptors_sheet (data : gmap string value) : outcome Worksheet :=
  and_then (rows_or preceptor_row "No preceptors data available" (listed data "preceptors"))
    (fun rows =>
  Returned
    (mkSheet (VStr "Preceptors")
       (site_header data
        ++ AddRow [ VStr "Preceptor Name"; VStr "Site"; VStr "Student Count";
                    VStr "Total Evaluations"; VStr "Case Types" ] :: rows))).

Definition exportSiteReportsToExcel (documents : list FirestoreDocument) : io event unit :=
  if Nat.eqb (length documents) 0 then
    emit (EAlert "No site reports available to export. Please generate some reports first.")
  else
    emit ENewWorkbook ;;;
    emit EFetchLogo ;;;
    sortedDocs <- await (js_sort_m compare_site_dates documents) ;;
    latestDoc <- await (first_document sortedDocs) ;;
    sites <- await (sites_sheet (data latestDoc)) ;;
    preceptors <- await (preceptors_sheet (data latestDoc)) ;;
    emit (EDownload ("Site_Report_" +:+ timestamp +:+ ".xlsx")
            [site_summary_sheet latestDoc; sites; preceptors]).

(** *** [exportToExcel] *)

(** The properties of [row] in the order of their creation;
    [row[key] = ...] overwrites in place, or adds at the end. *)
Fixpoint set_column (key : string) (v : value) (row : list (string * value))
  : list (string * value) :=
  match row with
  | [] => [(key, v)]
  | (k, x) :: row' =>
      if String.eqb k key then (k, v) :: row' else (k, x) :: set_column key v row'
  end.

(** [row[key] = v] on the object literal [row]: the key ['__proto__']
    names the accessor of [Object.prototype], so that the assignment
    creates no property. *)
Definition assign (key : string) (v : value) (row : list (string * value))
  : list (string * value) :=
  if String.eqb key "__proto__" then row else set_column key v row.

(** An array index: the canonical numeral of an integer below
    [2^32 - 1]. *)
Definition digit (c : ascii) : option N :=
  let n := N_of_ascii c in
  if N.leb 48 n && N.leb n 57 then Some (n - 48)%N else None.
Fixpoint numeral (s : string) (acc : N) : option N :=
  match s with
  | EmptyString => Some acc
  | String c s' =>
      match digit c with
      | Some d => numeral s' (10 * acc + d)%N
      | None => None
      end
  end.
Definition array_index (key : string) : option N :=
  match key with
  | EmptyString => None
  | String c rest =>
      if Ascii.eqb c "0" then (if String.eqb rest "" then Some 0%N else None)
      else match numeral key 0 with
           | Some n => if N.leb n 4294967294 then Some n else None
           | None => None
           end
  end.

Fixpoint insert_index {A} (n : N) (x : A) (l : list (N * A)) : list (N * A) :=
  match l with
  | [] => [(n, x)]
  | (m, y) :: l' => if N.leb n m then (n, x) :: l else (m, y) :: insert_index n x l'
  end.

(** The order in which [Object.keys] and [Object.values] enumerate the
    properties of an object: those whose key is an array index first,
    in ascending order, then the others in the order of creation. *)
Definition own_properties (row : list (string * value)) : list (string * value) :=
  map snd
    (fold_right (fun kv indexed =>
                   match array_index (fst kv) with
                   | Some n => insert_index n kv indexed
                   | None => indexed
                   end) [] row)
  ++ filter (fun kv => array_index (fst kv) = None) row.

(** The flattening of one data value. *)
Definition flatten (v : value) : value :=
  if nullish v then VStr "N/A"
  else match v with
       | VObj _ | VTimestamp _ => VStr (JSON_stringify v)
       | VArr l => if nonempty l then VStr (JSON_stringify v) else VStr "[]"
       | _ => v
       end.

(** One element of [exportData], as [Object.keys] and [Object.values]
    enumerate it: the literal with ['ID'] and ['Created Date'], then
    [row[key] = ...] for the keys of [doc.data] in their order. *)
Definition export_row (doc : FirestoreDocument) : list (string * value) :=
  own_properties
    (fold_left (fun row key => assign key (flatten (field (data doc) key)) row)
       (Object_keys (data doc))
       [("ID", VStr (id doc)); ("Created Date", created_date doc)]).

Definition sheet_title (collectionName : string) : string :=
  replace_first "agent_" "" collectionName.

Definition exportToExcel (documents : list FirestoreDocument) (collectionName : string)
  : io event unit :=
  if Nat.eqb (length documents) 0 then
    emit (EAlert ("No " +:+ collectionName +:+ " documents to export"))
  else
    emit ENewWorkbook ;;;
    name <- await (addWorksheet [] (VStr (sheet_title collectionName))) ;;
    emit EFetchLogo ;;;
    let exportData := map export_row documents in
    let header :=
      match exportData with
      | row :: _ => map (fun kv => VStr (fst kv)) row
      | [] => []
      end in
    emit (EDownload (collectionName +:+ "_" +:+ timestamp +:+ ".xlsx")
            [ mkSheet (VStr name)
                ((if logoData then addLogoHeader VUndefined
                  else [ SetCell "A1"
                           (VStr ("PrecepGo - " +:+
                                  toUpperCase
                                    (replace_chars (fun c => Ascii.eqb c "_")%char " "%char
                                       (sheet_title collectionName))));
                         AddRow [] ])
                 ++ AddRow header :: map (fun row => AddRow (map snd row)) exportData) ]).

(** *** Vocabulary of the properties *)

Definition student_reports (doc : FirestoreDocument) : value :=
  field (data doc) "student_reports".

(** The entry has a non-empty [standard_scores] array. *)
Definition has_scores_b (sr : value) : bool :=
  isArray (read sr "standard_scores") && nonempty (elements (read sr "standard_scores")).

(** [student_reports] of the document is an array with some entry
    that has a non-empty [standard_scores] array. *)
Definition with_scores (doc : FirestoreDocument) : bool :=
  isArray (student_reports doc) && existsb has_scores_b (elements (student_reports doc)).

(** [student_reports] of the document is a non-empty array none of
    whose entries has a non-empty [standard_scores] array. *)
Definition lacks_scores (doc : FirestoreDocument) : bool :=
  isArray (student_reports doc) && nonempty (elements (student_reports doc))
  && negb (existsb has_scores_b (elements (student_reports doc))).

(** No entry of [student_reports] is [null] or [undefined]. *)
Definition entries_defined (doc : FirestoreDocument) : Prop :=
  Forall (fun sr => nullish sr = false) (elements (student_reports doc)).

(** A student report from which a sheet can be built: it is not
    [null], its name (or the default) is a string, and none of its
    score records is [null] or [undefined]. *)
Definition studentName (studentReport : value) : value :=
  or_else (read studentReport "student_name") (VStr "N/A").

Definition sheet_ready (studentReport : value) : Prop :=
  nullish studentReport = false
  /\ (exists s, studentName studentReport = VStr s)
  /\ Forall (fun score => nullish score = false) (elements (standardScores studentReport)).

(** The name under which the sheet of a student called [s] is added. *)
Definition truncated (s : string) : string :=
  if Z.ltb 31 (Z.of_nat (String.length s)) then substring0 28 s +:+ "..." else s.

(** A name that a workbook takes as it is, unless a sheet has it
    already: it is not empty and not ['History'], holds none of
    [* ? : / \ [ ]], neither begins nor ends with an apostrophe, and
    has at most 31 characters. *)
Definition plain_name (s : string) : bool :=
  negb (String.eqb s "") && negb (String.eqb s "History")
  && negb (has_forbidden s) && negb (quote_at_end s)
  && Nat.leb (String.length s) 31.

(** A name that a workbook takes, cut to 31 characters, unless a sheet
    has it already. *)
Definition accepted_name (s : string) : bool :=
  negb (String.eqb s "") && negb (String.eqb s "History")
  && negb (has_forbidden s) && negb (quote_at_end s).

(** The name of the student of a report that has one, and the name of
    the sheet of the report. *)
Definition student_name_string (studentReport : value) : string :=
  match read studentReport "student_name" with
  | VStr s => s
  | _ => ""
  end.
Definition sheet_label (studentReport : value) : string :=
  truncated (student_name_string studentReport).

(** The names of the sheets that the export of [doc] is to add, in
    order. *)
Definition aggregate_expected (doc : FirestoreDocument) : bool :=
  isArray (field (data doc) "standard_scores")
  && nonempty (elements (field (data doc) "standard_scores")).
Definition expected_names (doc : FirestoreDocument) : list string :=
  "Summary" :: map sheet_label (elements (field (data doc) "student_reports"))
  ++ (if aggregate_expected doc then ["Aggregate Standards"] else []).

(** The workbook takes the names of the sheets of [doc]: every
    student has a name, a string, which - shortened when it is longer
    than 31 characters - is a plain name, and no two sheets of the
    workbook get the same name, letter case ignored. *)
Definition names_accepted (doc : FirestoreDocument) : Prop :=
  Forall (fun sr => plain_name (sheet_label sr) = true
                    /\ read sr "student_name" = VStr (student_name_string sr))
    (elements (field (data doc) "student_reports"))
  /\ NoDup (map toLowerCase (expected_names doc)).

(** The steps of [exportCOAReportsToExcel] up to the choice of the
    document. *)
Definition selected_document (documents : list FirestoreDocument)
  : outcome FirestoreDocument :=
  and_then (js_sort_m compare_dates documents) (fun sortedDocs =>
  and_then (first_document sortedDocs) (fun latestDoc =>
  and_then (log_first_report_keys (data latestDoc)) (fun _ =>
  documentToUse latestDoc sortedDocs))).

(** Every document has a valid date, [date d]. *)
Definition dated (date : FirestoreDocument -> Z) (docs : list FirestoreDocument) : Prop :=
  forall d, d ∈ docs -> getDate d = Returned (Some (date d)).

(** The comparator of documents with the valid dates [date]. *)
Definition by_date (date : FirestoreDocument -> Z) (a b : FirestoreDocument) : option Z :=
  Some (date b - date a).

(** The sheet built for the student report [sr]: named by the student's
    name, truncated; a student-summary section, then a standard-scores
    section. *)
Definition sheet_of_student (doc : FirestoreDocument) (sr : value) (sheet : Worksheet) : Prop :=
  exists s rows,
    studentName sr = VStr s
    /\ sheet_name sheet = VStr (truncated s)
    /\ sheet_ops sheet
       = ((if logoData then addLogoHeader VUndefined else [])
          ++ student_summary_section doc sr (VStr s)
          ++ standard_scores_section rows)%list.

(** The file a run downloads, if any, and whether a run creates a
    workbook. *)
Definition downloads (t : list event) : list (string * list Worksheet) :=
  omap (fun e => match e with EDownload f w => Some (f, w) | _ => None end) t.
Definition creates_workbook (t : list event) : bool :=
  existsb (fun e => match e with ENewWorkbook => true | _ => false end) t.

End Env.

(** *** Sample reports *)

(** The environment of the samples. *)
Definition sample_toLocaleString (t : time_value) : string :=
  match t with
  | Some _ => "1/1/2026, 10:20:30 AM"
  | None => "Invalid Date"
  end.
Definition sample_ToNumber (v : value) : option Z := None.
Definition sample_ToString (v : value) : string := "[object Object]".
Definition sample_JSON_stringify (v : value) : string := "{}".
Definition sample_join (l : list value) : string := "".
(** The keys of the samples, in the order in which the finite map
    lists them. *)
Definition sample_Object_keys (o : gmap string value) : list string :=
  map fst (map_to_list o).

Definition one_score : value :=
  VObj (<["score" := VNum 3]> (<["id" := VStr "s1"]> ∅)).

(** An older report whose student has a score. *)
Definition scored_report : FirestoreDocument :=
  mkDoc "report-old"
    (<["student_reports" :=
         VArr [VObj (<["standard_scores" := VArr [one_score]]>
                       (<["student_name" := VStr "Ann"]> ∅))]]> ∅)
    (Some (Some 1000)) None.

(** A newer report whose student has no scores. *)
Definition unscored_report : FirestoreDocument :=
  mkDoc "report-new"
    (<["student_reports" :=
         VArr [VObj (<["standard_scores" := VArr []]>
                       (<["student_name" := VStr "Ann"]> ∅))]]> ∅)
    (Some (Some 2000)) None.

(** A newer report without students. *)
Definition studentless_report : FirestoreDocument :=
  mkDoc "report-new"
    (<["student_reports" := VArr []]> ∅)
    (Some (Some 2000)) None.

(** A report whose second student report is [null]. *)
Definition report_with_null : FirestoreDocument :=
  mkDoc "report-1"
    (<["student_reports" :=
         VArr [ VObj (<["standard_scores" := VArr [one_score]]>
                        (<["student_name" := VStr "Ann"]> ∅));
                VNull ]]> ∅)
    (Some (Some 1000)) None.

(** A report whose student has no name, and a report with two
    students of the same name. *)
Definition unnamed_report : FirestoreDocument :=
  mkDoc "report-2"
    (<["student_reports" :=
         VArr [VObj (<["standard_scores" := VArr [one_score]]> ∅)]]> ∅)
    (Some (Some 1000)) None.
Definition namesakes_report : FirestoreDocument :=
  mkDoc "report-3"
    (<["student_reports" :=
         VArr [ VObj (<["student_name" := VStr "Ann"]> ∅);
                VObj (<["student_name" := VStr "ANN"]> ∅) ]]> ∅)
    (Some (Some 1000)) None.

Definition sample_now : string := "2026-01-01T10:20:30.000Z".

Definition sample_standards : list (string * string) := [("s1", "Airway management")].

End ExportExcel.

(* ------------------------------------------------------------------ *)
(** ** [src/App.tsx]: [handleAgentAction] and [getStatusBadge] *)
(* ------------------------------------------------------------------ *)

Module App.

(** The properties copied by an object spread [{ ...v }]: the own
    properties of an object, the indexed elements of an array or
    string, nothing for the other values. *)
Definition spread (v : value) : gmap string value :=
  match v with
  | VObj o => o
  | VArr l => list_to_map (imap (fun i x => (pretty i, x)) l)
  | VStr s =>
      list_to_map (imap (fun i c => (pretty i, VStr (String c EmptyString)))
                        (list_ascii_of_string s))
  | _ => ∅
  end.

(** [{ state: x, status: x, agent_state: x, ...prev }]: in an object
    literal later properties overwrite earlier ones, so the spread
    properties of [prev] win over the three listed before them. *)
Definition state_literal (x : string) (prev : value) : gmap string value :=
  spread prev ∪ <["agent_state" := VStr x]> (<["status" := VStr x]> (<["state" := VStr x]> ∅)).

(** The updater [prevStates => ({ ...prevStates, [apiName]: {...} })]. *)
Definition set_entry (x : string) (apiName : string) (prevStates : gmap string value)
  : gmap string value :=
  <[apiName := VObj (state_literal x (field prevStates apiName))]> prevStates.

Definition optimistic_update := set_entry "active".
Definition revert_update := set_entry "idle".

(** The part of the component state that [handleAgentAction] reads and
    writes. *)
Record state : Type := mkState {
  automatedMode : bool;
  isInitialLoad : bool;
  loading : option string;
  agentFirestoreStates : gmap string value
}.

Definition update_states (f : gmap string value -> gmap string value) (s : state) : state :=
  mkState (automatedMode s) (isInitialLoad s) (loading s) (f (agentFirestoreStates s)).
Definition setLoading (l : option string) (s : state) : state :=
  mkState (automatedMode s) (isInitialLoad s) l (agentFirestoreStates s).

Record Agent : Type := mkAgent {
  name : string;
  apiName : string
}.

Inductive event : Type :=
| EAlertAutomatedMode                        (* 'Automated mode is active...' *)
| EAlertFailed (agent : string) (detail : value)
| EAlertError (agent : string) (message : string)
| EConsoleLog (msg : string)
| EConsoleError (msg : string)
| ECallAction (agent : string)
| ESetTimeoutClearLoading (ms : Z).

(** [result.ok !== false] *)
Definition ok_not_false (result : value) : outcome bool :=
  match get_prop result "ok" with
  | Returned (VBool false) => Returned false
  | Returned _ => Returned true
  | Threw e => Threw e
  end.

(** [handleAgentAction agent].  [settled] is how the promise of
    [agent.action()] settles; [meanwhile] is what other handlers (the
    Firestore listener) do to [agentFirestoreStates] while the action
    is pending, the identity when nothing arrives. *)
Definition handleAgentAction (s : state) (agent : Agent)
    (meanwhile : gmap string value -> gmap string value)
    (settled : outcome value) : io event state :=
  if automatedMode s then
    emit EAlertAutomatedMode ;;; ret s
  else
    let s := update_states (optimistic_update (apiName agent)) s in
    let s := setLoading (Some (name agent)) s in
    emit (EConsoleLog ("[App] Starting " +:+ name agent)) ;;;
    emit (ECallAction (apiName agent)) ;;;
    let s := update_states meanwhile s in
    s' <- try_catch
            (result <- await settled ;;
             not_false <- await (ok_not_false result) ;;
             if (not_false : bool) then
               emit (EConsoleLog ("[App] " +:+ name agent +:+ " action completed")) ;;;
               ret s
             else
               let s := update_states (revert_update (apiName agent)) s in
               (if isInitialLoad s
                then emit (EConsoleError ("[App] " +:+ name agent +:+ " failed on initial load:"))
                else emit (EAlertFailed (name agent)
                             (or_else (read result "detail") (VStr "Unknown error")))) ;;;
               emit (EConsoleLog ("[App] " +:+ name agent +:+ " failed - reverted optimistic update")) ;;;
               ret s)
            (fun error =>
               let s := update_states (revert_update (apiName agent)) s in
               (if isInitialLoad s
                then emit (EConsoleError ("[App] " +:+ name agent +:+ " error on initial load:"))
                else emit (EAlertError (name agent)
                             (if String.eqb (err_message error) ""
                              then "Unknown error" else err_message error))) ;;;
               emit (EConsoleLog ("[App] " +:+ name agent +:+ " error - reverted optimistic update")) ;;;
               ret s) ;;
    emit (ESetTimeoutClearLoading 3000) ;;;
    ret s'.

(** Step 1 of [getStatusBadge]: the state shown for an agent that has
    an entry, [entry.state || entry.status || entry.agent_state]. *)
Definition entry_state (states : gmap string value) (agentName : string) : value :=
  let e := field states agentName in
  if truthy e then
    or_else (read e "state") (or_else (read e "status") (read e "agent_state"))
  else VUndefined.

Definition active_entry : value :=
  VObj (<["agent_state" := VStr "active"]> (<["status" := VStr "active"]>
          (<["state" := VStr "active"]> ∅))).

(** *** Sample data *)

Definition scenario_agent : Agent := mkAgent "Scenario Agent" "scenario_agent".

Definition idle_entry : value :=
  VObj (<["last_activity" := VNull]> (<["state" := VStr "idle"]> ∅)).

End App.

(* ------------------------------------------------------------------ *)
(** ** [src/services/firestore.ts]: the recent-document queries and the
       listeners written out on their own *)
(* ------------------------------------------------------------------ *)

Module FirestoreQueries.
Import Firestore.

Section Queries.

Variable Date_parse : string -> time_value.
Variable Date_of_object : value -> time_value.
Variable sdk_query : string -> Z -> outcome unit.
Variable getDocs : string -> Z -> outcome (list QueryDocumentSnapshot).

Local Abbreviation getCollection :=
  (getCollection Date_parse Date_of_object sdk_query getDocs).

(** Their absent [limitCount] is 20. *)
Definition getRecentEvaluations (limitCount : option Z) :=
  getCollection "agent_evaluations" (Some (default 20 limitCount)).
Definition getRecentScenarios (limitCount : option Z) :=
  getCollection "agent_scenarios" (Some (default 20 limitCount)).
Definition getRecentNotifications (limitCount : option Z) :=
  getCollection "agent_notifications" (Some (default 20 limitCount)).
Definition getRecentCOAReports (limitCount : option Z) :=
  getCollection "agent_coa_reports" (Some (default 20 limitCount)).

End Queries.

(** The queries built and the calls of [getDocs] in a run, in order. *)
Definition queries_built (t : list event) : list (string * Z) :=
  omap (fun e => match e with EQuery c n => Some (c, n) | _ => None end) t.
Definition getDocs_calls (t : list event) : list (string * Z) :=
  omap (fun e => match e with EGetDocs c n => Some (c, n) | _ => None end) t.

(** The calls of [getDocs] of a run on the collection [c] with the
    limit [n]: one when the SDK builds the query, none when building
    it throws. *)
Definition asked (sdk_query : string -> Z -> outcome unit) (c : string) (n : Z)
  : list (string * Z) :=
  match sdk_query c n with
  | Returned _ => [(c, n)]
  | Threw _ => []
  end.

(** *** Listeners *)

(** What a listener is registered on: the latest documents of a
    collection ([orderBy(field, 'desc')], [limit(n)]), its documents
    since a date ([where(field, '>=', Timestamp.fromDate(d))],
    [orderBy(field, 'desc')]), or one document ([doc(db, c, id)]). *)
Inductive target : Type :=
| Latest (collectionName orderField : string) (limitCount : Z)
| Since (collectionName orderField : string) (since : Z)
| Document (collectionName documentId : string).

Inductive listen_event : Type :=
| ELog (msg : string)
| EError (msg : string)
| EBuild (q : target)               (* the query or reference is built *)
| ESubscribe (q : target).          (* [onSnapshot] is called *)

Section Listeners.

Variable Date_parse : string -> time_value.
Variable Date_of_object : value -> time_value.
(** [Date.prototype.toISOString] on a valid time value. *)
Variable toISOString : Z -> string.
(** The SDK: building the query or reference, and registering the
    listener, may each throw; a registration returns the handle of its
    unsubscribe function. *)
Variable sdk_build : target -> outcome unit.
Variable sdk_onSnapshot :
  target ->
  (list QueryDocumentSnapshot -> io listen_event unit) -> (js_error -> io listen_event unit) ->
  outcome nat.
(** For a document, the snapshot is its data when it exists. *)
Variable sdk_onSnapshot_doc :
  target ->
  (option (gmap string value) -> io listen_event unit) -> (js_error -> io listen_event unit) ->
  outcome nat.

Variable onError : option (js_error -> io listen_event unit).

(** [if (onError) onError(e)] *)
Definition report (e : js_error) : io listen_event unit :=
  match onError with
  | Some f => f e
  | None => ret tt
  end.

(** The two functions handed to [onSnapshot] for a query; [what] is
    how the log lines name the listener. *)
Definition on_query_snapshot (callback : list FirestoreDocument -> io listen_event unit)
    (what : string) (querySnapshot : list QueryDocumentSnapshot) : io listen_event unit :=
  emit (ELog ("[Firestore] Snapshot update for " +:+ what)) ;;;
  documents <- await (snapshotToDocuments Date_parse Date_of_object querySnapshot) ;;
  callback documents.

Definition on_subscription_error (what collectionName : string) (error : js_error)
  : io listen_event unit :=
  emit (EError ("[Firestore] ERROR in listener for " +:+ what)) ;;;
  if bool_decide (err_code error = Some "permission-denied")
  then report (Error (permission_denied_message collectionName))
  else report error.

(** The [catch] block of a listener set-up. *)
Definition setup_failed (what : string) (error : js_error) : io listen_event Unsubscribe :=
  emit (EError ("[Firestore] ERROR setting up listener for " +:+ what)) ;;;
  report error ;;;
  ret NoOp.

(** An absent [limitCount] is 10. *)
Definition listenToScenarios (callback : list FirestoreDocument -> io listen_event unit)
    (limitCount : option Z) : io listen_event Unsubscribe :=
  let n := default 10 limitCount in
  let q := Latest "agent_scenarios" "created_at" n in
  try_catch
    (emit (ELog ("[Firestore] Setting up listener for latest " +:+ pretty n +:+ " scenarios")) ;;;
     emit (EBuild q) ;;;
     await (sdk_build q) ;;;
     emit (ESubscribe q) ;;;
     unsubscribe <- await (sdk_onSnapshot q
                             (on_query_snapshot callback "scenarios")
                             (on_subscription_error "scenarios" "agent_scenarios")) ;;
     ret (SdkUnsubscribe unsubscribe))
    (setup_failed "scenarios").

Definition listenToEvaluationsSince (sinceDate : time_value)
    (callback : list FirestoreDocument -> io listen_event unit) : io listen_event Unsubscribe :=
  try_catch
    (t <- await (valid_time sinceDate) ;;
     let q := Since "agent_evaluations" "created_at" t in
     emit (ELog ("[Firestore] Setting up listener for evaluations since " +:+ toISOString t)) ;;;
     emit (EBuild q) ;;;
     await (sdk_build q) ;;;
     emit (ESubscribe q) ;;;
     unsubscribe <- await (sdk_onSnapshot q
                             (on_query_snapshot callback
                                ("evaluations since " +:+ toISOString t))
                             (on_subscription_error "evaluations since" "agent_evaluations")) ;;
     ret (SdkUnsubscribe unsubscribe))
    (setup_failed "evaluations since").

Definition listenToNotificationsSince (sinceDate : time_value)
    (callback : list FirestoreDocument -> io listen_event unit) : io listen_event Unsubscribe :=
  try_catch
    (t <- await (valid_time sinceDate) ;;
     let q := Since "agent_notifications" "created_at" t in
     emit (ELog ("[Firestore] Setting up listener for notifications since " +:+ toISOString t)) ;;;
     emit (EBuild q) ;;;
     await (sdk_build q) ;;;
     emit (ESubscribe q) ;;;
     unsubscribe <- await (sdk_onSnapshot q
                             (on_query_snapshot callback
                                ("notifications since " +:+ toISOString t))
                             (on_subscription_error "notifications since" "agent_notifications")) ;;
     ret (SdkUnsubscribe unsubscribe))
    (setup_failed "notifications since").

(** The two functions handed to [onSnapshot] for a document of
    [agent_states]. *)
Definition on_document_snapshot (callback : option (gmap string value) -> io listen_event unit)
    (documentId : string) (documentSnapshot : option (gmap string value))
  : io listen_event unit :=
  emit (ELog "[Firestore] Snapshot received") ;;;
  match documentSnapshot with
  | Some data =>
      emit (ELog ("[Firestore] Snapshot update for agent_states/" +:+ documentId)) ;;;
      callback (Some data)
  | None =>
      emit (ELog ("[Firestore] Document agent_states/" +:+ documentId +:+ " does not exist")) ;;;
      callback None
  end.

Definition on_document_error (documentId : string) (error : js_error) : io listen_event unit :=
  emit (EError ("[Firestore] ERROR in listener for agent_states/" +:+ documentId)) ;;;
  emit (EError "[Firestore] Error details:") ;;;
  if bool_decide (err_code error = Some "permission-denied")
  then report (Error (permission_denied_message "agent_states"))
  else report error.

Definition listenToAgentState (documentId : string)
    (callback : option (gmap string value) -> io listen_event unit) : io listen_event Unsubscribe :=
  let q := Document "agent_states" documentId in
  try_catch
    (emit (ELog ("[Firestore] Setting up listener for agent_states/" +:+ documentId)) ;;;
     emit (EBuild q) ;;;
     await (sdk_build q) ;;;
     emit (ESubscribe q) ;;;
     unsubscribe <- await (sdk_onSnapshot_doc q
                             (on_document_snapshot callback documentId)
                             (on_document_error documentId)) ;;
     emit (ELog "[Firestore] Listener active") ;;;
     ret (SdkUnsubscribe unsubscribe))
    (setup_failed ("agent_states/" +:+ documentId)).

End Listeners.

(** *** Vocabulary of the properties *)

(** The caller's [onError], when given, returns normally on every
    error. *)
Definition handler_returns (onError : option (js_error -> io listen_event unit)) : Prop :=
  match onError with
  | Some f => forall e, result (f e) = Returned tt
  | None => True
  end.

(** The queries built and the listeners registered in a run. *)
Definition built (t : list listen_event) : list target :=
  omap (fun e => match e with EBuild q => Some q | _ => None end) t.
Definition subscribed (t : list listen_event) : list target :=
  omap (fun e => match e with ESubscribe q => Some q | _ => None end) t.

(** What the set-up of a listener on [q] gives: the SDK's unsubscribe
    function when building and registering succeed, the no-op
    otherwise. *)
Definition registration (built_ : outcome unit) (registered : outcome nat) : Unsubscribe :=
  match built_, registered with
  | Returned _, Returned h => SdkUnsubscribe h
  | _, _ => NoOp
  end.

(** A value without a [toDate]: not a Firestore [Timestamp], and not a
    map with a [toDate] entry. *)
Definition toDate_free (v : value) : Prop :=
  match v with
  | VTimestamp _ => False
  | VObj o => nullish (field o "toDate") = true
  | _ => True
  end.

(** What a converted document holds under the four keys that the
    service writes: the two dates again, and the timestamps they were
    made of. *)
Definition dates_stored (Date_parse : string -> time_value)
    (Date_of_object : value -> time_value) (d : FirestoreDocument) : Prop :=
  field (data d) "createdAt" = date_value (createdAt d)
  /\ field (data d) "updatedAt" = date_value (updatedAt d)
  /\ createdAt d = date_if_truthy Date_parse Date_of_object (field (data d) "created_at")
  /\ updatedAt d = date_if_truthy Date_parse Date_of_object (field (data d) "modified_at")
  /\ toDate_free (field (data d) "created_at")
  /\ toDate_free (field (data d) "modified_at").

(** The date by which the exports order a document that the service
    produced: its [createdAt], or the epoch when it has none. *)
Definition createdAt_or_epoch (d : FirestoreDocument) : time_value :=
  default (Some 0) (createdAt d).

(** The comparator of the exports on such documents. *)
Definition by_createdAt (a b : FirestoreDocument) : option Z :=
  ExportExcel.time_diff (createdAt_or_epoch b) (createdAt_or_epoch a).

(** *** Sample data *)

Definition sample_toISOString (t : Z) : string := "2026-01-01T10:20:30.000Z".

(** Two documents stamped at the same time, and a newer one. *)
Definition two_at_once : list QueryDocumentSnapshot :=
  [ mkSnap "first" (<["created_at" := VTimestamp 1000]> ∅);
    mkSnap "second" (<["created_at" := VTimestamp 1000]> ∅);
    mkSnap "newer" (<["created_at" := VTimestamp 2000]> ∅) ].

End FirestoreQueries.

(* ------------------------------------------------------------------ *)
(** ** [src/utils/exportExcel.ts]: further vocabulary *)
(* ------------------------------------------------------------------ *)

Module ExportVocabulary.
Import ExportExcel.

(** A cell that a spreadsheet shows as it is: a string, a number, a
    boolean or a date. *)
Definition scalar (v : value) : Prop :=
  match v with
  | VStr _ | VNum _ | VBool _ | VDate _ => True
  | _ => False
  end.

(** The rows added to a sheet, in order. *)
Definition rows (ops : list op) : list (list value) :=
  omap (fun o => match o with AddRow cells => Some cells | _ => None end) ops.

(** The characters of a string. *)
Definition chars (s : string) : list ascii := list_ascii_of_string s.

(** The name of a sheet that was asked for under the title [s]. *)
Definition cut_to_31 (s : string) : string :=
  if Nat.ltb 31 (String.length s) then substring0 31 s else s.

(** Keys that each make a column of their own, after the columns
    ['ID'] and ['Created Date'] and in the order given: they are
    distinct, none is the name of one of the two columns, none is
    ['__proto__'] and none is an array index. *)
Definition plain_keys (keys : list string) : Prop :=
  NoDup keys
  /\ Forall (fun k => k <> "ID" /\ k <> "Created Date" /\ k <> "__proto__"
                      /\ array_index k = None) keys.

(** The description under which the standard [k] is listed: that of
    the last entry for [k]. *)
Definition listed_standard (standardsData : list (string * string)) (k : string)
  : option string :=
  snd <$> last (filter (fun std => fst std = k) standardsData).

(** What a run of an export comes to: it only alerts, it downloads a
    workbook, or it throws before any download. *)
Inductive export_run (m : io event unit) : Prop :=
| OnlyAlerts (msg : string) :
    m = IO [EAlert msg] (Returned tt) -> export_run m
| Downloads (before : list event) (filename : string) (workbook : list Worksheet) :
    m = IO (before ++ [EDownload filename workbook]) (Returned tt) ->
    Forall (fun e => e = ENewWorkbook \/ e = EFetchLogo) before ->
    export_run m
| Throws (before : list event) (e : js_error) :
    m = IO before (Threw e) ->
    Forall (fun e => e = ENewWorkbook \/ e = EFetchLogo) before ->
    export_run m.

(** *** Sample data *)

Definition long_named_report : value :=
  VObj (<["student_name" := VStr "Maximiliana Wolfeschlegelstein-Hausen"]> ∅).

Definition site_report : Firestore.FirestoreDocument :=
  Firestore.mkDoc "site-report-1"
    (<["sites" := VArr []]> (<["report_title" := VStr "Sites, Fall term"]> ∅))
    (Some (Some 1000)) None.

End ExportVocabulary.

(* ------------------------------------------------------------------ *)
(** ** [src/App.tsx]: status polling, the automated-mode toggle, the
       [all_states] listener, the status badge, the completion alerts
       and the download buttons; [src/components/DocumentViewer.tsx]:
       the export button *)
(* ------------------------------------------------------------------ *)

Module Dashboard.
Import Firestore.

(** The part of the component state that these functions read and
    write.  [automatedMode] is set from the API's [autoStatus.active],
    which is of type [any]. *)
Record state : Type := mkState {
  automatedMode : value;
  corsError : bool;
  agentStatuses : gmap string value;
  togglingAutomatedMode : bool;
  isInitialLoad : bool;
  allStatesData : option (gmap string value);
  timeAgentState : option (gmap string value);
  agentFirestoreStates : gmap string value
}.

Definition setAutomatedMode (v : value) (s : state) : state :=
  mkState v (corsError s) (agentStatuses s) (togglingAutomatedMode s) (isInitialLoad s)
    (allStatesData s) (timeAgentState s) (agentFirestoreStates s).
Definition setCorsError (b : bool) (s : state) : state :=
  mkState (automatedMode s) b (agentStatuses s) (togglingAutomatedMode s) (isInitialLoad s)
    (allStatesData s) (timeAgentState s) (agentFirestoreStates s).
Definition setAgentStatuses (m : gmap string value) (s : state) : state :=
  mkState (automatedMode s) (corsError s) m (togglingAutomatedMode s) (isInitialLoad s)
    (allStatesData s) (timeAgentState s) (agentFirestoreStates s).
Definition setTogglingAutomatedMode (b : bool) (s : state) : state :=
  mkState (automatedMode s) (corsError s) (agentStatuses s) b (isInitialLoad s)
    (allStatesData s) (timeAgentState s) (agentFirestoreStates s).
Definition setAllStatesData (d : option (gmap string value)) (s : state) : state :=
  mkState (automatedMode s) (corsError s) (agentStatuses s) (togglingAutomatedMode s)
    (isInitialLoad s) d (timeAgentState s) (agentFirestoreStates s).
Definition setAgentFirestoreStates (m : gmap string value) (s : state) : state :=
  mkState (automatedMode s) (corsError s) (agentStatuses s) (togglingAutomatedMode s)
    (isInitialLoad s) (allStatesData s) (timeAgentState s) m.

Inductive event : Type :=
| EApi (e : Api.event)
| EExport (e : ExportExcel.event)
| EConsoleLog (msg : string)
| EConsoleError (msg : string)
| EAlert (msg : string)
| ECloseDropdown                             (* [setOpenDropdown(null)] *)
| ELogToggled (message : value)              (* the [message] of the toggle result *)
| EAlertToggleFailed (message : string)      (* 'Failed to toggle automated mode: ...' *)
| EAlertCompleted (agent : string).          (* '... completed successfully!' *)

(** *** [fetchStatuses] *)

Section Api.

Variable VITE_API_URL : option string.
Variable DEV : bool.
Variable window_origin : option string.
Variable network : string -> Api.RequestInit -> outcome Api.Response.

Local Abbreviation getAutomatedModeStatus :=
  (Api.getAutomatedModeStatus VITE_API_URL DEV window_origin network).
Local Abbreviation getAgentStatus :=
  (Api.getAgentStatus VITE_API_URL DEV window_origin network).
Local Abbreviation toggleAutomatedMode :=
  (Api.toggleAutomatedMode VITE_API_URL DEV window_origin network).

Definition agentNames : list string :=
  [ "notification_agent"; "scenario_agent"; "evaluation_agent"; "coa_agent"; "site_agent" ].

(** [error.message?.includes('CORS_ERROR')] *)
Definition is_cors_error (error : js_error) : bool :=
  includes "CORS_ERROR" (err_message error).

(** The body of [for (const agentName of agentNames)]. *)
Definition fetch_status (statuses : gmap string value) (agentName : string)
  : io event (gmap string value) :=
  try_catch
    (status <- lift EApi (getAgentStatus agentName) ;;
     ret (<[agentName := status]> statuses))
    (fun error =>
       emit (EConsoleError ("[App] Error fetching status for " +:+ agentName +:+ ":")) ;;;
       ret statuses).

(** [fetchStatuses] of the polling effect.  In the outer [catch] the
    state is the one left by [setCorsError(false)]: the statements
    after it that set state are the last of their blocks. *)
Definition fetchStatuses (s : state) : io event state :=
  let s := setCorsError false s in
  try_catch
    (s <- try_catch
            (autoStatus <- lift EApi getAutomatedModeStatus ;;
             active <- await (get_prop autoStatus "active") ;;
             ret (setAutomatedMode active s))
            (fun error =>
               emit (EConsoleError "[App] Error fetching automated mode status:") ;;;
               ret (if is_cors_error error then setCorsError true s else s)) ;;
     statuses <- fold_io fetch_status agentNames ∅ ;;
     ret (setAgentStatuses statuses s))
    (fun error =>
       emit (EConsoleError "[App] Error fetching statuses:") ;;;
       ret (if is_cors_error error then setCorsError true s else s)).

(** The request for the status of one agent, and what one round of
    the loop leaves in [statuses]. *)
Definition status_url (agentName : string) : string * Api.RequestInit :=
  (Api.API_BASE_URL VITE_API_URL +:+ "/agents/" +:+ agentName +:+ "/status",
   Api.with_cors None).

Definition polled (statuses : gmap string value) (agentName : string) : gmap string value :=
  match result (getAgentStatus agentName) with
  | Returned status => <[agentName := status]> statuses
  | Threw _ => statuses
  end.

(** The state after the request for the automated-mode status, made in
    the state [s]. *)
Definition after_mode_status (s : state) : state :=
  match result getAutomatedModeStatus with
  | Returned autoStatus =>
      if nullish autoStatus then s else setAutomatedMode (read autoStatus "active") s
  | Threw e => if is_cors_error e then setCorsError true s else s
  end.

(** *** [handleToggleAutomatedMode] *)

(** [result.ok !== false && result.message] *)
Definition toggle_succeeded (result : value) : outcome bool :=
  and_then (App.ok_not_false result) (fun not_false =>
  Returned (not_false && truthy (read result "message"))).

Definition handleToggleAutomatedMode (s : state) : io event state :=
  if togglingAutomatedMode s then
    emit (EConsoleLog "[App] Toggle already in progress, ignoring...") ;;; ret s
  else
    let newState := negb (truthy (automatedMode s)) in
    let initial := isInitialLoad s in
    let s := setAutomatedMode (VBool newState) s in
    let s := setTogglingAutomatedMode true s in
    s <- try_catch
           (emit (EConsoleLog "[App] Toggling automated mode...") ;;;
            result <- lift EApi toggleAutomatedMode ;;
            emit (EConsoleLog "[App] Toggle result:") ;;;
            succeeded <- await (toggle_succeeded result) ;;
            if (succeeded : bool) then
              when (negb initial) (emit (ELogToggled (read result "message"))) ;;;
              ret s
            else
              emit (EConsoleError
                      "[App] Toggle API returned error, reverting optimistic update") ;;;
              ret (setAutomatedMode (VBool (negb newState)) s))
           (fun error =>
              emit (EConsoleError "[App] Error toggling automated mode:") ;;;
              let s := setAutomatedMode (VBool (negb newState)) s in
              when (negb initial)
                (emit (EAlertToggleFailed (or_string (err_message error) "Unknown error"))) ;;;
              ret s) ;;
    (* finally *)
    ret (setTogglingAutomatedMode false s).

(** Whether the toggle request came back with an answer that the
    handler takes as a success. *)
Definition toggled : bool :=
  match result toggleAutomatedMode with
  | Returned answer =>
      match toggle_succeeded answer with
      | Returned b => b
      | Threw _ => false
      end
  | Threw _ => false
  end.

End Api.

(** *** The listener on [agent_states/all_states] *)

Section Agents.

(** The agents of [data/agents.json]. *)
Variable agents : list App.Agent.

(** The entry built for one agent from the fields
    [<apiName>_state] and [<apiName>_last_activity]. *)
Definition agent_entry (data : gmap string value) (apiName : string) : value :=
  let stateValue := field data (apiName +:+ "_state") in
  if negb (nullish stateValue) then
    VObj (<["last_activity" := or_else (field data (apiName +:+ "_last_activity")) VNull]>
            (<["state" := stateValue]> ∅))
  else VNull.

(** [const states = {}; agents.forEach(agent => { ... })], with
    [entry] giving what is stored for an agent; the time-savings
    agent is skipped. *)
Definition collect_states (entry : string -> value) : gmap string value :=
  fold_left
    (fun states agent =>
       if String.eqb (App.apiName agent) "time_savings_agent" then states
       else <[App.apiName agent := entry (App.apiName agent)]> states)
    agents ∅.

(** [data.automated_mode === 'ON' || data.automated_mode === true] *)
Definition isAutomatedModeOn (automated_mode : value) : bool :=
  match automated_mode with
  | VStr m => String.eqb m "ON"
  | VBool b => b
  | _ => false
  end.

(** The snapshot callback: [data] is [null] when the document does not
    exist. *)
Definition on_all_states (data : option (gmap string value)) (s : state) : state :=
  match data with
  | Some data =>
      let s := setAllStatesData (Some data) s in
      let s :=
        match field data "automated_mode" with
        | VUndefined => s
        | automated_mode => setAutomatedMode (VBool (isAutomatedModeOn automated_mode)) s
        end in
      setAgentFirestoreStates (collect_states (agent_entry data)) s
  | None =>
      let s := setAgentFirestoreStates (collect_states (fun _ => VNull)) s in
      setAutomatedMode (VBool false) s
  end.

(** The error callback. *)
Definition on_all_states_error (error : js_error) (s : state) : io event state :=
  emit (EConsoleError "[App] Error listening to all agent states:") ;;;
  ret (setAgentFirestoreStates (collect_states (fun _ => VNull)) s).

(** *** The completion alerts *)

(** [x?.state || x?.status || x?.agent_state], lower-cased when it is
    a string, else [null]. *)
Definition normalized_state (x : value) : option string :=
  match or_else (read x "state") (or_else (read x "status") (read x "agent_state")) with
  | VStr v => Some (toLowerCase v)
  | _ => None
  end.

Definition wasActive (prevNormalized : option string) : bool :=
  match prevNormalized with
  | Some p => String.eqb p "active" || String.eqb p "generating" || String.eqb p "processing"
  | None => false
  end.

Definition isNowIdle (currentNormalized : option string) : bool :=
  match currentNormalized with
  | Some c => String.eqb c "idle" || String.eqb c "completed"
  | None => false
  end.

(** The body of [agents.forEach] in the effect; [prev] is
    [prevAgentStatesRef.current]. *)
Definition detect_completion (current : gmap string value) (initial : bool)
    (prev : gmap string value) (agent : App.Agent) : io event (gmap string value) :=
  if String.eqb (App.apiName agent) "time_savings_agent" then ret prev
  else
    let currentState := field current (App.apiName agent) in
    let prevState := field prev (App.apiName agent) in
    when (truthy currentState && truthy prevState
          && wasActive (normalized_state prevState)
          && isNowIdle (normalized_state currentState)
          && negb initial)
      (emit (EAlertCompleted (App.name agent))) ;;;
    ret (<[App.apiName agent := currentState]> prev).

(** One run of the effect on [agentFirestoreStates] and
    [isInitialLoad]; it returns the new content of the ref. *)
Definition completion_effect (s : state) (prev : gmap string value)
  : io event (gmap string value) :=
  fold_io (detect_completion (agentFirestoreStates s) (isInitialLoad s)) agents prev.

End Agents.

(** *** [getStatusBadge] *)

(** The state found for the agent: its Firestore entry, then (for the
    time-savings agent) the time-agent document, then the polled API
    status, then ['idle']. *)
Definition found_state (s : state) (agentName : string) : value :=
  let state := App.entry_state (agentFirestoreStates s) agentName in
  let state :=
    match timeAgentState s with
    | Some t =>
        if String.eqb agentName "time_savings_agent" && negb (truthy state)
        then or_else (field t "state") (or_else (field t "time_agent_state") (field t "status"))
        else state
    | None => state
    end in
  let state :=
    if negb (truthy state) then
      let apiStatus := field (agentStatuses s) agentName in
      if truthy apiStatus then read apiStatus "state" else state
    else state in
  if negb (truthy state) then VStr "idle" else state.

(** [typeof state === 'string' ? state.toLowerCase() : 'idle'] *)
Definition normalizedState (state : value) : string :=
  match state with
  | VStr x => toLowerCase x
  | _ => "idle"
  end.

Definition stateMapping : gmap string string :=
  list_to_map
    [ ("generating", "active"); ("processing", "active"); ("completed", "idle");
      ("error", "idle"); ("idle", "idle"); ("active", "active");
      ("IDLE", "idle"); ("ACTIVE", "active"); ("GENERATING", "active");
      ("PROCESSING", "active"); ("COMPLETED", "idle"); ("ERROR", "idle") ].

Definition stateColors : gmap string string :=
  list_to_map [ ("idle", "bg-gray-500"); ("active", "bg-blue-500") ].

(** What the badge shows: a state name, or the member of
    [Object.prototype] that [stateMapping[normalizedState]] found. *)
Inductive shown : Type :=
| Shown (displayState : string)
| Member (name : string).

(** [stateMapping[normalizedState] || 'idle'] *)
Definition displayState (normalized : string) : shown :=
  match lookup_literal stateMapping normalized with
  | Own mappedState => Shown (or_string mappedState "idle")
  | Inherited => Member normalized
  | Absent => Shown "idle"
  end.

(** [stateColors[displayState] || 'bg-gray-500']; a member of
    [Object.prototype] used as a key is converted to a string that
    names no property. *)
Definition badge_color (d : shown) : shown :=
  match d with
  | Shown x =>
      match lookup_literal stateColors x with
      | Own c => Shown (or_string c "bg-gray-500")
      | Inherited => Member x
      | Absent => Shown "bg-gray-500"
      end
  | Member _ => Shown "bg-gray-500"
  end.

(** The badge: its colour class and its text. *)
Definition getStatusBadge (s : state) (agentName : string) : shown * shown :=
  let d := displayState (normalizedState (found_state s agentName)) in
  (badge_color d, d).

(** *** The download buttons *)

(** The click event on a button: what its [onClick] does.  A button
    that is not rendered cannot be clicked, and React calls no
    [onClick] of a disabled button: in both cases no handler runs.
    (Pressing the mouse button is another event, [mousedown], on which
    the document closes an open menu.) *)
Definition click (rendered disabled : bool) (onClick : io event unit) : io event unit :=
  if rendered && negb disabled then onClick else ret tt.

(** [isDisabled = automatedMode || isLoading], as the attribute
    [disabled] takes it. *)
Definition isDisabled (s : state) (isLoading : bool) : bool :=
  truthy (automatedMode s) || isLoading.

Section Buttons.

Variable Date_parse : string -> time_value.
Variable Date_of_object : value -> time_value.
Variable toLocaleString : time_value -> string.
Variable ToNumber_other : value -> option Z.
Variable ToString : value -> string.
Variable join_comma : list value -> string.
Variable standardsData : list (string * string).
Variable logoData : bool.
Variable now_iso : string.

Local Abbreviation exportCOAReportsToExcel :=
  (ExportExcel.exportCOAReportsToExcel Date_parse Date_of_object toLocaleString ToNumber_other
     standardsData logoData now_iso).
Local Abbreviation exportSiteReportsToExcel :=
  (ExportExcel.exportSiteReportsToExcel Date_parse toLocaleString ToString join_comma
     logoData now_iso).

(** The [catch] block of the handlers. *)
Definition export_failed (error : js_error) : io event unit :=
  emit (EConsoleError "Export failed:") ;;;
  emit (EAlert "Failed to export file. Please try again.").

(** The [try] statement of the handlers of 'Download Report' of the
    COA agent and of the site agent ([App.tsx]). *)
Definition handleDownloadCOA (coaReportsForDownload : list FirestoreDocument)
  : io event unit :=
  try_catch
    (if Nat.eqb (length coaReportsForDownload) 0 then
       emit (EAlert "No COA reports available to export. Please generate some reports first.")
     else lift EExport (exportCOAReportsToExcel coaReportsForDownload))
    export_failed.

Definition handleDownloadSite (siteReportsForDownload : list FirestoreDocument)
  : io event unit :=
  try_catch
    (if Nat.eqb (length siteReportsForDownload) 0 then
       emit (EAlert "No site reports available to export. Please generate some reports first.")
     else lift EExport (exportSiteReportsToExcel siteReportsForDownload))
    export_failed.

(** 'Download Report' in the menu of the card of the COA agent: the
    menu is rendered when the card is not loading and the menu is
    open; the button is disabled when there are no reports. *)
Definition menuDownloadCOAReport (isLoading isDropdownOpen : bool)
    (coaReportsForDownload : list FirestoreDocument) : io event unit :=
  click (negb isLoading && isDropdownOpen)
    (Nat.eqb (length coaReportsForDownload) 0)
    (emit ECloseDropdown ;;; handleDownloadCOA coaReportsForDownload).

(** 'Download Report' on the cards of the COA agent and of the site
    agent: the card shows the button when it is not loading; the
    button is disabled when [isDisabled], and when there are no
    reports. *)
Definition downloadCOAReport (s : state) (isLoading : bool)
    (coaReportsForDownload : list FirestoreDocument) : io event unit :=
  click (negb isLoading)
    (isDisabled s isLoading || Nat.eqb (length coaReportsForDownload) 0)
    (handleDownloadCOA coaReportsForDownload).

Definition downloadSiteReport (s : state) (isLoading : bool)
    (siteReportsForDownload : list FirestoreDocument) : io event unit :=
  click (negb isLoading)
    (isDisabled s isLoading || Nat.eqb (length siteReportsForDownload) 0)
    (handleDownloadSite siteReportsForDownload).

(** 'Export Excel' of [DocumentViewer]: the viewer renders the button
    when it is not loading, has no error, has documents, and shows the
    collection of the COA reports; the button is never disabled. *)
Definition exportExcelButton (isLoading : bool) (error : option string)
    (collectionName : option string) (documents : list FirestoreDocument) : io event unit :=
  click (negb isLoading
         && negb (truthy (from_option VStr VNull error))
         && negb (Nat.eqb (length documents) 0)
         && bool_decide (collectionName = Some "agent_coa_reports"))
    false
    (try_catch (lift EExport (exportCOAReportsToExcel documents)) export_failed).

End Buttons.

(** *** Vocabulary of the properties *)

(** The requests issued in a run, in order. *)
Definition requests (t : list event) : list (string * Api.RequestInit) :=
  omap (fun e => match e with EApi (Api.EFetch u i) => Some (u, i) | _ => None end) t.

(** The alerts shown in a run: those of the handler and those of the
    export it calls. *)
Definition alerts (t : list event) : list string :=
  omap (fun e => match e with
                 | EAlert m => Some m
                 | EExport (ExportExcel.EAlert m) => Some m
                 | _ => None
                 end) t.

(** The files downloaded in a run. *)
Definition downloaded (t : list event) : list string :=
  omap (fun e => match e with
                 | EExport (ExportExcel.EDownload f _) => Some f
                 | _ => None
                 end) t.

(** What a run of a handler comes to: it returns, and either one file
    is downloaded and no alert shown, or nothing is downloaded and one
    alert is shown. *)
Definition settles (run : io event unit) : Prop :=
  result run = Returned tt
  /\ ((exists f, downloaded (trace run) = [f] /\ alerts (trace run) = [])
      \/ (downloaded (trace run) = [] /\ exists msg, alerts (trace run) = [msg])).

(** What a click on an export button comes to: no handler runs; or one
    file is downloaded and no alert shown; or nothing is downloaded and
    the failure of the export is announced. *)
Inductive click_result (run : io event unit) : Prop :=
| Ignored : run = IO [] (Returned tt) -> click_result run
| Downloaded (f : string) :
    result run = Returned tt -> downloaded (trace run) = [f] -> alerts (trace run) = [] ->
    click_result run
| Failed :
    result run = Returned tt -> downloaded (trace run) = [] ->
    alerts (trace run) = ["Failed to export file. Please try again."] ->
    click_result run.

(** The alerts of a failed toggle shown in a run. *)
Definition toggle_alerts (t : list event) : list string :=
  omap (fun e => match e with EAlertToggleFailed m => Some m | _ => None end) t.

(** The agents whose completion a run of the effect announces. *)
Definition completed (t : list event) : list string :=
  omap (fun e => match e with EAlertCompleted a => Some a | _ => None end) t.

(** The ref [prev] of the completion effect holds the current entry
    of the agent named [n]. *)
Definition remembered (current prev : gmap string value) (n : string) : Prop :=
  field prev n = field current n.

(** The agent went from an active state, in [prev], to an idle one, in
    [current]. *)
Definition finished (current prev : gmap string value) (agent : App.Agent) : bool :=
  let currentState := field current (App.apiName agent) in
  let prevState := field prev (App.apiName agent) in
  negb (String.eqb (App.apiName agent) "time_savings_agent")
  && truthy currentState && truthy prevState
  && wasActive (normalized_state prevState)
  && isNowIdle (normalized_state currentState).

(** The state names shown as active, and the two lower-case names of
    members of [Object.prototype]. *)
Definition active_names : list string := ["active"; "generating"; "processing"].
Definition lower_case_members : list string := ["constructor"; "__proto__"].

(** The badge for a normalized state that is not the name of a member
    of [Object.prototype]. *)
Definition badge_of (normalized : string) : shown * shown :=
  if bool_decide (normalized ∈ active_names)
  then (Shown "bg-blue-500", Shown "active")
  else (Shown "bg-gray-500", Shown "idle").

(** The state that the [all_states] document gives for an agent. *)
Definition reported_state (data : gmap string value) (apiName : string) : value :=
  field data (apiName +:+ "_state").

(** The API names of the agents that the [all_states] listener
    tracks. *)
Definition tracked (agents : list App.Agent) : list string :=
  filter (fun a => a <> "time_savings_agent") (map App.apiName agents).

(** *** Sample data *)

Definition sample_agents : list App.Agent :=
  [ App.mkAgent "Scenario Agent" "scenario_agent";
    App.mkAgent "COA Agent" "coa_agent";
    App.mkAgent "Time Savings Agent" "time_savings_agent" ].

Definition sample_all_states : gmap string value :=
  <["automated_mode" := VStr "OFF"]>
    (<["scenario_agent_state" := VStr "IDLE"]>
       (<["coa_agent_state" := VStr "GENERATING"]> ∅)).

Definition initial_state : state :=
  mkState (VBool false) false ∅ false false None None ∅.

(** The COA agent was generating and is idle now. *)
Definition was_generating : gmap string value :=
  <["coa_agent" := VObj (<["state" := VStr "generating"]> ∅)]> ∅.
Definition now_idle : state :=
  mkState (VBool false) false ∅ false false None None
    (<["coa_agent" := VObj (<["state" := VStr "IDLE"]> ∅)]> ∅).

End Dashboard.

(* ------------------------------------------------------------------ *)
(** ** [src/App.tsx], [handleAgentAction]: further vocabulary *)
(* ------------------------------------------------------------------ *)

Module ActionVocabulary.
Import App.

(** The calls of [agent.action()], the timers set, and the agents for
    which a failure alert is shown, in a run. *)
Definition action_calls (t : list event) : list string :=
  omap (fun e => match e with ECallAction a => Some a | _ => None end) t.
Definition timeouts (t : list event) : list Z :=
  omap (fun e => match e with ESetTimeoutClearLoading ms => Some ms | _ => None end) t.
Definition failure_alerts (t : list event) : list string :=
  omap (fun e => match e with
                 | EAlertFailed a _ => Some a
                 | EAlertError a _ => Some a
                 | _ => None
                 end) t.

(** The action failed: its promise was rejected, or was fulfilled with
    [ok: false], or with [null] or [undefined]. *)
Definition action_failed (settled : outcome value) : bool :=
  match settled with
  | Threw _ => true
  | Returned answer =>
      match ok_not_false answer with
      | Returned true => false
      | _ => true
      end
  end.

End ActionVocabulary.

(* ------------------------------------------------------------------ *)
(** ** [src/components/TimeSavingsDashboard.tsx]: [fetchAnalytics] *)
(* ------------------------------------------------------------------ *)

Module TimeSavings.

Record state : Type := mkState {
  timeframe : string;
  data : value;                     (* [null] until a response arrives *)
  loading : bool;
  error : option string
}.

Section Api.

Variable VITE_API_URL : option string.
Variable DEV : bool.
Variable window_origin : option string.
Variable network : string -> Api.RequestInit -> outcome Api.Response.

Definition fetchAnalytics (s : state) : io Api.event state :=
  let s := mkState (timeframe s) (data s) true (error s) in
  let s := mkState (timeframe s) (data s) (loading s) None in
  s <- try_catch
         (response <- Api.getTimeSavingsAnalytics VITE_API_URL DEV window_origin network
                        (Some (timeframe s)) (Some true) ;;
          ret (mkState (timeframe s) response (loading s) (error s)))
         (fun err =>
            emit (Api.EConsoleError "[TimeSavings] Error fetching analytics:") ;;;
            ret (mkState (timeframe s) (data s) (loading s)
                   (Some (or_string (err_message err)
                            "Failed to load time savings analytics")))) ;;
  (* finally *)
  ret (mkState (timeframe s) (data s) false (error s)).

End Api.

End TimeSavings.
(* ------------------------------------------------------------------ *)
(** ** [src/components/DocumentTable.tsx]: the rows and the date cells *)
(* ------------------------------------------------------------------ *)

Module DocumentTable.
Import Firestore.

Section Cells.

Variable Date_parse : string -> time_value.
Variable Date_of_object : value -> time_value.
Variable toLocaleString : time_value -> string.

Local Abbreviation new_Date := (new_Date Date_parse Date_of_object).

Definition dash : string := "—".

(** [formatDate] (the same function is defined in [App.tsx]).  A map
    with a truthy [toDate] entry makes [date.toDate()] throw, since the
    entry is no function; the [catch] answers the dash. *)
Definition formatDate (date : value) : string :=
  if negb (truthy date) then dash
  else match date with
       | VDate t => toLocaleString t
       | VTimestamp ms => toLocaleString (Some ms)
       | VObj o =>
           if truthy (field o "toDate") then dash
           else toLocaleString (new_Date date)
       | _ => toLocaleString (new_Date date)
       end.

(** One element of [tableData]:
    [{ id: doc.id, createdAt: doc.createdAt,
       created_at: doc.data.created_at || doc.createdAt, ...doc.data }];
    the entries of [doc.data], spread last, replace the three before
    them. *)
Definition table_row (doc : FirestoreDocument) : gmap string value :=
  data doc
  ∪ <["id" := VStr (id doc)]>
      (<["createdAt" := date_value (createdAt doc)]>
         (<["created_at" := or_else (field (data doc) "created_at")
                              (date_value (createdAt doc))]> ∅)).

(** The [Created] cell of the four tables with columns of their own:
    [formatDate(row.original.created_at || row.original.createdAt)]. *)
Definition created_cell (row : gmap string value) : string :=
  formatDate (or_else (field row "created_at") (field row "createdAt")).

(** The [Created] cell of the generic columns, on [row.createdAt]:
    [date ? new Date(date).toLocaleString() : '—']. *)
Definition generic_created_cell (row : gmap string value) : string :=
  let date := field row "createdAt" in
  if truthy date then toLocaleString (new_Date date) else dash.

End Cells.

(** What a [Created] cell is to show for a document. *)
Definition creation_date (toLocaleString : time_value -> string) (d : FirestoreDocument)
  : string :=
  match createdAt d with
  | Some t => toLocaleString t
  | None => dash
  end.

End DocumentTable.

(* ================================================================== *)
(** * Part II: properties *)
(* ================================================================== *)

(** ** Strings *)

Lemma prefix_app (n b : string) : String.prefix n (n +:+ b) = true.
Proof.
  induction n as [|c n IH].
  - change ("" +:+ b) with b. destruct b; reflexivity.
  - change (String c n +:+ b) with (String c (n +:+ b)). cbn [String.prefix].
    destruct (ascii_dec c c) as [_|Hne]; [exact IH | contradiction].
Qed.

Lemma includes_prefix (n s : string) : String.prefix n s = true -> includes n s = true.
Proof. intros H. destruct s; cbn [includes]; rewrite H; reflexivity. Qed.

Lemma includes_app (n a b : string) : includes n (a +:+ n +:+ b) = true.
Proof.
  induction a as [|c a IH].
  - change ("" +:+ n +:+ b) with (n +:+ b). apply includes_prefix, prefix_app.
  - change (String c a +:+ n +:+ b) with (String c (a +:+ n +:+ b)).
    cbn [includes]. rewrite IH. apply orb_true_r.
Qed.

(** ** Computations *)

Lemma result_bind {E A B} (m : io E A) (f : A -> io E B) :
  result (bind m f)
  = match result m with
    | Returned a => result (f a)
    | Threw e => Threw e
    end.
Proof. unfold bind. destruct (result m); reflexivity. Qed.

Lemma result_try_catch {E A} (m : io E A) (h : js_error -> io E A) :
  result (try_catch m h)
  = match result m with
    | Returned a => Returned a
    | Threw e => result (h e)
    end.
Proof. unfold try_catch. destruct (result m) eqn:E1; [exact E1 | reflexivity]. Qed.

Ltac io_result :=
  repeat (rewrite result_bind; cbn [result emit await ret throw when]).

(** ** The REST client *)

Module ApiSpec.
Import Api.

Section Env.
Variable DEV : bool.
Variable window_origin : option string.
Variable network : string -> RequestInit -> outcome Response.

Local Abbreviation run := (fetchWithErrorHandling DEV window_origin network).

(** The settlement of [fetchWithErrorHandling], with the logging
    taken out. *)
Lemma fetchWithErrorHandling_result url options :
  result (run url options) =
  match network url (with_cors options) with
  | Threw e => Threw (rethrown window_origin e)
  | Returned r =>
      if ok r then json r
      else match text r with
           | Threw e => Threw (rethrown window_origin e)
           | Returned body =>
               Threw (rethrown window_origin (Error (http_error_message (status r) body)))
           end
  end.
Proof.
  unfold fetchWithErrorHandling, fetch, DEBUG.
  destruct DEV; cbn;
    (destruct (network url (with_cors options)) as [r|e]; cbn;
     [ destruct (ok r); cbn;
       [ destruct (json r); reflexivity
       | destruct (text r) as [body|e]; reflexivity ]
     | reflexivity ]).
Qed.

(** The requests issued by one call: the given URL, once. *)
Lemma fetchWithErrorHandling_fetches url options :
  fetches (trace (run url options)) = [(url, with_cors options)].
Proof.
  unfold fetchWithErrorHandling, fetch, DEBUG.
  destruct DEV; cbn;
    (destruct (network url (with_cors options)) as [r|e]; cbn;
     [ destruct (ok r); cbn;
       [ destruct (json r); reflexivity
       | destruct (text r) as [body|e]; reflexivity ]
     | reflexivity ]).
Qed.

Lemma one_fetch_get url :
  one_fetch (run url None) "GET" url.
Proof. eexists; split; [apply fetchWithErrorHandling_fetches | reflexivity]. Qed.

Lemma one_fetch_post url :
  one_fetch (run url post_json) "POST" url.
Proof. eexists; split; [apply fetchWithErrorHandling_fetches | reflexivity]. Qed.

End Env.

Lemma http_error_message_status (st : Z) (body : string) :
  includes (pretty st) (http_error_message st body) = true.
Proof. unfold http_error_message. apply (includes_app _ "HTTP error! status: "). Qed.

(** C2, as amended.  One call of [fetchWithErrorHandling] issues the
    underlying fetch exactly once, for the given URL.  When the response
    is ok it settles as the response's [json()] does.  When the response
    is not ok, or the fetch itself fails, it throws.  For a non-ok
    response whose body text can be read, the thrown error is the HTTP
    error, whose message contains the status, unless that message (the
    status followed by the first 100 characters of the body) contains
    one of the markers the [catch] block looks for; then the CORS error
    is thrown in its place. *)
Theorem fetchWithErrorHandling_once_and_settles
    (DEV : bool) (window_origin : option string)
    (network : string -> RequestInit -> outcome Response)
    (url : string) (options : option RequestInit) :
  let run := fetchWithErrorHandling DEV window_origin network url options in
  fetches (trace run) = [(url, with_cors options)]
  /\ (forall r, network url (with_cors options) = Returned r -> ok r = true ->
        result run = json r)
  /\ (forall r, network url (with_cors options) = Returned r -> ok r = false ->
        exists e, result run = Threw e)
  /\ (forall e0, network url (with_cors options) = Threw e0 ->
        exists e, result run = Threw e)
  /\ (forall r body,
        network url (with_cors options) = Returned r -> ok r = false ->
        text r = Returned body ->
        looks_like_cors (Error (http_error_message (status r) body)) = false ->
        result run = Threw (Error (http_error_message (status r) body))
        /\ includes (pretty (status r)) (http_error_message (status r) body) = true)
  /\ (forall r body,
        network url (with_cors options) = Returned r -> ok r = false ->
        text r = Returned body ->
        looks_like_cors (Error (http_error_message (status r) body)) = true ->
        result run = Threw (cors_error window_origin)).
Proof.
  intros run. subst run.
  split; [apply fetchWithErrorHandling_fetches|].
  rewrite fetchWithErrorHandling_result.
  repeat split.
  - intros r -> ->. reflexivity.
  - intros r -> ->. destruct (text r); eexists; reflexivity.
  - intros e0 ->. eexists; reflexivity.
  - rewrite H, H0, H1. unfold rethrown. rewrite H2. reflexivity.
  - apply http_error_message_status.
  - intros r body -> -> -> Hc. unfold rethrown. rewrite Hc. reflexivity.
Qed.

Lemma fetchWithErrorHandling_once_and_settles_witness :
  result (fetchWithErrorHandling false None (fun _ _ => Returned sample_response)
            "https://api.example/health" None)
  = Threw (Error "HTTP error! status: 500, body: internal error").
Proof.
  destruct (fetchWithErrorHandling_once_and_settles false None
              (fun _ _ => Returned sample_response) "https://api.example/health" None)
    as (_ & _ & _ & _ & H & _).
  exact (proj1 (H sample_response "internal error" eq_refl eq_refl eq_refl eq_refl)).
Defined.

Example fetchWithErrorHandling_ok_example :
  result (fetchWithErrorHandling true None
            (fun _ _ => Returned (mkResponse 200 (Returned "{}") (Returned (VObj ∅))))
            "https://api.example/health" None)
  = Returned (VObj ∅).
Proof. vm_compute. reflexivity. Qed.

(** C2 as first stated does not hold: not every non-ok response makes
    the call throw an error carrying the HTTP status; a 403 whose body
    mentions CORS is rethrown as the CORS error, which has no status. *)
Lemma http_status_not_always_carried :
  ~ (forall DEV window_origin network url options r,
       network url (with_cors options) = Returned r -> ok r = false ->
       exists e,
         result (fetchWithErrorHandling DEV window_origin network url options) = Threw e
         /\ includes (pretty (status r)) (err_message e) = true).
Proof.
  intros H.
  pose (r := mkResponse 403 (Returned "CORS origin denied") (Returned VNull)).
  destruct (H false (Some "http://localhost:5173") (fun _ _ => Returned r)
              "https://api.example/health" None r eq_refl eq_refl) as (e & He & Hs).
  vm_compute in He. injection He as <-. vm_compute in Hs. discriminate Hs.
Qed.


End ApiSpec.

(** ** Optimistic update and rollback in the dashboard *)

Module AppSpec.
Import App.

(** Writing an agent's entry leaves the entries of the other agents
    as they were. *)
Lemma set_entry_other (x a b : string) (states : gmap string value) :
  a <> b -> set_entry x a states !! b = states !! b.
Proof. intros Hab. unfold set_entry. apply lookup_insert_ne. exact Hab. Qed.

(** A literal built over an entry that already has the three state
    properties is that entry again, whatever value the literal lists. *)
Lemma state_literal_absorbed (x y : string) (prev : value) :
  state_literal y (VObj (state_literal x prev)) = state_literal x prev.
Proof.
  unfold state_literal at 1. cbn [spread].
  apply map_eq. intros i. rewrite lookup_union. unfold state_literal.
  rewrite lookup_union.
  destruct (decide (i = "agent_state")) as [->|H1];
    [rewrite !lookup_insert_eq; destruct (spread prev !! "agent_state"); reflexivity|].
  rewrite !(lookup_insert_ne _ "agent_state") by congruence.
  destruct (decide (i = "status")) as [->|H2];
    [rewrite !lookup_insert_eq; destruct (spread prev !! "status"); reflexivity|].
  rewrite !(lookup_insert_ne _ "status") by congruence.
  destruct (decide (i = "state")) as [->|H3];
    [rewrite !lookup_insert_eq; destruct (spread prev !! "state"); reflexivity|].
  rewrite !(lookup_insert_ne _ "state") by congruence.
  rewrite lookup_empty. destruct (spread prev !! i); reflexivity.
Qed.

(** The revert written in [handleAgentAction] undoes nothing: applied
    to the states left by the optimistic update it returns them as
    they are. *)
Lemma revert_after_optimistic (a : string) (states : gmap string value) :
  revert_update a (optimistic_update a states) = optimistic_update a states.
Proof.
  unfold revert_update, optimistic_update, set_entry at 1.
  unfold field. unfold set_entry at 1 2. rewrite lookup_insert_eq. cbn [default id].
  rewrite state_literal_absorbed. unfold set_entry. apply insert_insert_eq.
Qed.

(** An entry that already has a [state] keeps it under the optimistic
    update. *)
Lemma optimistic_keeps_state (a : string) (states o : gmap string value) (v : value) :
  states !! a = Some (VObj o) -> o !! "state" = Some v ->
  exists o', optimistic_update a states !! a = Some (VObj o') /\ o' !! "state" = Some v.
Proof.
  intros Ha Hs. unfold optimistic_update, set_entry, field. rewrite Ha. cbn [default].
  eexists. split; [apply lookup_insert_eq|].
  unfold state_literal. cbn [spread]. apply lookup_union_Some_l. exact Hs.
Qed.

(** With nothing arriving in between, a run of [handleAgentAction]
    leaves the entries of the other agents as they were. *)
Lemma handleAgentAction_other_agents (s s' : state) (agent : Agent)
    (settled : outcome value) (b : string) :
  result (handleAgentAction s agent id settled) = Returned s' ->
  apiName agent <> b ->
  agentFirestoreStates s' !! b = agentFirestoreStates s !! b.
Proof.
  unfold handleAgentAction. intros H Hb.
  destruct (automatedMode s) eqn:Ea.
  { revert H. io_result. intros [= <-]. reflexivity. }
  revert H. io_result. rewrite result_try_catch. io_result.
  destruct settled as [r|e]; cbn [and_then].
  - io_result. destruct (ok_not_false r) as [[|]|e]; cbn [and_then].
    + io_result. intros [= <-]. cbn. apply set_entry_other. exact Hb.
    + io_result. cbn [isInitialLoad update_states setLoading].
      destruct (isInitialLoad s); io_result; intros [= <-]; cbn;
        unfold revert_update; rewrite set_entry_other by exact Hb;
        apply set_entry_other; exact Hb.
    + io_result. cbn [isInitialLoad update_states setLoading].
      destruct (isInitialLoad s); io_result; intros [= <-]; cbn;
        unfold revert_update; rewrite set_entry_other by exact Hb;
        apply set_entry_other; exact Hb.
  - io_result. cbn [isInitialLoad update_states setLoading].
    destruct (isInitialLoad s); io_result; intros [= <-]; cbn;
      unfold revert_update; rewrite set_entry_other by exact Hb;
      apply set_entry_other; exact Hb.
Qed.

(** C1, where the code departs from it.  With automated mode off and no
    entry yet for the agent, an action that is rejected, or that
    resolves with [ok: false], leaves the agent's entry with [state],
    [status] and [agent_state] all ['active']: the revert does not
    bring it back to idle.  And over an entry whose [state] is
    ['idle'], the optimistic update leaves the state shown for the
    agent at ['idle']. *)
Theorem handleAgentAction_revert_is_lost :
  let s0 := mkState false false None ∅ in
  let rejected := handleAgentAction s0 scenario_agent id (Threw (Error "Failed to fetch")) in
  let refused := handleAgentAction s0 scenario_agent id
                   (Returned (VObj (<["ok" := VBool false]> ∅))) in
  (exists s, result rejected = Returned s
     /\ field (agentFirestoreStates s) "scenario_agent" = active_entry
     /\ entry_state (agentFirestoreStates s) "scenario_agent" = VStr "active")
  /\ (exists s, result refused = Returned s
     /\ field (agentFirestoreStates s) "scenario_agent" = active_entry
     /\ entry_state (agentFirestoreStates s) "scenario_agent" = VStr "active")
  /\ entry_state (optimistic_update "scenario_agent" (<["scenario_agent" := idle_entry]> ∅))
        "scenario_agent" = VStr "idle".
Proof.
  cbv zeta. split; [|split].
  - eexists. split; [vm_compute; reflexivity|]. split; vm_compute; reflexivity.
  - eexists. split; [vm_compute; reflexivity|]. split; vm_compute; reflexivity.
  - vm_compute. reflexivity.
Qed.

End AppSpec.

(** ** Sorting *)

Module SortFacts.

Section Pure.
Context {A : Type} (cmp : A -> A -> option Z).

Lemma insert_sorted_perm (x : A) (l : list A) : insert_sorted cmp x l ≡ₚ x :: l.
Proof.
  induction l as [|y l IH]; cbn [insert_sorted]; [reflexivity|].
  destruct (sorts_after (cmp x y)); [|reflexivity].
  rewrite IH. apply Permutation_swap.
Qed.

Lemma js_sort_perm (l : list A) : js_sort cmp l ≡ₚ l.
Proof.
  induction l as [|x l IH]; cbn [js_sort]; [reflexivity|].
  rewrite insert_sorted_perm, IH. reflexivity.
Qed.

Variable key : A -> Z.

Local Abbreviation by_key_desc := (by_key_desc cmp key).

Lemma insert_sorted_sorted (x : A) (l : list A) :
  by_key_desc (x :: l) ->
  StronglySorted (fun a b => key b <= key a) l ->
  StronglySorted (fun a b => key b <= key a) (insert_sorted cmp x l).
Proof.
  intros Hc Hs. induction l as [|y l IH]; cbn [insert_sorted].
  - repeat constructor.
  - assert (Hxy : cmp x y = Some (key y - key x)) by (apply Hc; set_solver).
    rewrite Hxy. cbn [sorts_after].
    apply StronglySorted_cons in Hs as [Hy Hl].
    destruct (Z.ltb_spec 0 (key y - key x)) as [Hlt|Hge].
    + apply StronglySorted_cons. split.
      * rewrite insert_sorted_perm. constructor; [lia | exact Hy].
      * apply IH; [|exact Hl]. intros a b Ha Hb. apply Hc; set_solver.
    + apply StronglySorted_cons. split.
      * constructor; [lia|]. eapply Forall_impl; [exact Hy|]. cbn. intros z Hz. lia.
      * apply StronglySorted_cons. split; assumption.
Qed.

Lemma js_sort_sorted (l : list A) :
  by_key_desc l -> StronglySorted (fun a b => key b <= key a) (js_sort cmp l).
Proof.
  induction l as [|x l IH]; intros Hc; cbn [js_sort]; [constructor|].
  apply insert_sorted_sorted.
  - intros a b Ha Hb. apply Hc.
    + rewrite js_sort_perm in Ha. exact Ha.
    + rewrite js_sort_perm in Hb. exact Hb.
  - apply IH. intros a b Ha Hb. apply Hc; set_solver.
Qed.

End Pure.

Section Throwing.
Context {A : Type} (cmp : A -> A -> outcome (option Z)) (cmp' : A -> A -> option Z).

Local Abbreviation agrees_on := (agrees_on cmp cmp').

Lemma insert_sorted_m_pure (x : A) (l : list A) :
  agrees_on (x :: l) -> insert_sorted_m cmp x l = Returned (insert_sorted cmp' x l).
Proof.
  intros Hc. induction l as [|y l IH]; cbn [insert_sorted_m insert_sorted]; [reflexivity|].
  rewrite (Hc x y) by set_solver. cbn [and_then].
  destruct (sorts_after (cmp' x y)); [|reflexivity].
  rewrite IH; [reflexivity|]. intros a b Ha Hb. apply Hc; set_solver.
Qed.

Lemma js_sort_m_pure (l : list A) :
  agrees_on l -> js_sort_m cmp l = Returned (js_sort cmp' l).
Proof.
  induction l as [|x l IH]; intros Hc; cbn [js_sort_m js_sort]; [reflexivity|].
  rewrite IH by (intros a b Ha Hb; apply Hc; set_solver). cbn [and_then].
  apply insert_sorted_m_pure. intros a b Ha Hb.
  apply Hc.
  - rewrite js_sort_perm in Ha. exact Ha.
  - rewrite js_sort_perm in Hb. exact Hb.
Qed.

End Throwing.

Lemma StronglySorted_weaken {A} (R R' : A -> A -> Prop) (l : list A) :
  (forall a b, a ∈ l -> b ∈ l -> R a b -> R' a b) ->
  StronglySorted R l -> StronglySorted R' l.
Proof.
  induction l as [|x l IH]; intros HR Hs; [constructor|].
  apply StronglySorted_cons in Hs as [Hx Hl]. apply StronglySorted_cons. split.
  - rewrite Forall_forall in *. intros y Hy. apply HR; [set_solver | set_solver | auto].
  - apply IH; [|exact Hl]. intros a b Ha Hb. apply HR; set_solver.
Qed.

Lemma map_outcome_length {A B} (f : A -> outcome B) (l : list A) (r : list B) :
  map_outcome f l = Returned r -> length r = length l.
Proof.
  revert r. induction l as [|x l IH]; cbn [map_outcome]; intros r H.
  - injection H as <-. reflexivity.
  - destruct (f x) as [y|e]; cbn [and_then] in H; [|discriminate].
    destruct (map_outcome f l) as [ys|e]; cbn [and_then] in H; [|discriminate].
    injection H as <-. cbn. f_equal. apply IH. reflexivity.
Qed.

Lemma map_outcome_Forall2 {A B} (f : A -> outcome B) (l : list A) (r : list B) :
  map_outcome f l = Returned r -> Forall2 (fun x y => f x = Returned y) l r.
Proof.
  revert r. induction l as [|x l IH]; cbn [map_outcome]; intros r H.
  - injection H as <-. constructor.
  - destruct (f x) as [y|e] eqn:Hx; cbn [and_then] in H; [|discriminate].
    destruct (map_outcome f l) as [ys|e]; cbn [and_then] in H; [|discriminate].
    injection H as <-. constructor; [exact Hx | apply IH; reflexivity].
Qed.

Lemma map_outcome_total {A B} (f : A -> outcome B) (l : list A) :
  Forall (fun x => exists y, f x = Returned y) l -> exists r, map_outcome f l = Returned r.
Proof.
  induction 1 as [|x l [y Hy] _ [r Hr]]; cbn [map_outcome].
  - eexists; reflexivity.
  - rewrite Hy, Hr. eexists; reflexivity.
Qed.

End SortFacts.

(** ** The document-store client *)

Module FirestoreSpec.
Import Firestore SortFacts.

(** *** Resolving the timestamps *)

Lemma toDate_opt_callable (v : value) :
  toDate_callable v -> toDate_opt v = Returned (timestamp_date v).
Proof.
  destruct v; cbn; try reflexivity. intros ->. reflexivity.
Qed.

Lemma timestamp_date_truthy (v : value) :
  truthy (timestamp_date v) = true -> truthy v = true.
Proof. destruct v; cbn; congruence. Qed.

Lemma createdAtTimestamp_chain (data : gmap string value) :
  well_formed_timestamps data ->
  createdAtTimestamp data =
  Returned (first_truthy [ timestamp_date (field data "created_at");
                           timestamp_date (field data "createdAt");
                           field data "created_at";
                           field data "createdAt" ]).
Proof.
  unfold well_formed_timestamps. rewrite !Forall_cons.
  intros (H1 & H2 & _). unfold createdAtTimestamp, or_else_lazy, or_else.
  rewrite (toDate_opt_callable _ H1), (toDate_opt_callable _ H2).
  cbn [and_then first_truthy].
  destruct (truthy (timestamp_date (field data "created_at"))); [reflexivity|].
  cbn [and_then].
  destruct (truthy (timestamp_date (field data "createdAt"))); reflexivity.
Qed.

Lemma updatedAtTimestamp_chain (data : gmap string value) :
  well_formed_timestamps data ->
  updatedAtTimestamp data =
  Returned (first_truthy [ timestamp_date (field data "modified_at");
                           timestamp_date (field data "updated_at");
                           timestamp_date (field data "updatedAt");
                           field data "modified_at";
                           field data "updated_at";
                           field data "updatedAt" ]).
Proof.
  unfold well_formed_timestamps. rewrite !Forall_cons.
  intros (_ & _ & H1 & H2 & H3 & _). unfold updatedAtTimestamp, or_else_lazy, or_else.
  rewrite (toDate_opt_callable _ H1), (toDate_opt_callable _ H2), (toDate_opt_callable _ H3).
  cbn [and_then first_truthy].
  destruct (truthy (timestamp_date (field data "modified_at"))); [reflexivity|].
  cbn [and_then].
  destruct (truthy (timestamp_date (field data "updated_at"))); [reflexivity|].
  cbn [and_then].
  destruct (truthy (timestamp_date (field data "updatedAt"))); [reflexivity|].
  cbn [and_then].
  destruct (truthy (field data "modified_at")); reflexivity.
Qed.

(** A resolved creation timestamp is truthy exactly when one of the two
    fields holds a truthy value. *)
Lemma createdAtTimestamp_truthy (data : gmap string value) (ts : value) :
  createdAtTimestamp data = Returned ts ->
  truthy ts = true <->
  truthy (field data "created_at") = true \/ truthy (field data "createdAt") = true.
Proof.
  unfold createdAtTimestamp, or_else_lazy, or_else.
  destruct (field data "created_at") as [| |b|n|s|ms|t|l|o] eqn:E1;
    cbn [toDate_opt and_then truthy];
    try (destruct (nullish (field o "toDate")); cbn [and_then truthy]; [|discriminate]);
    destruct (field data "createdAt") as [| |b'|n'|s'|ms'|t'|l'|o'] eqn:E2;
    cbn [toDate_opt and_then truthy];
    try (destruct (nullish (field o' "toDate")); cbn [and_then truthy]; [|discriminate]);
    repeat match goal with
           | |- context [if ?c then _ else _] => destruct c eqn:?; cbn [and_then truthy]
           end;
    intros [= <-]; cbn [truthy]; intuition congruence.
Qed.

Lemma or_else_lazy_inv (a b : outcome value) (ts : value) :
  or_else_lazy a b = Returned ts ->
  (a = Returned ts /\ truthy ts = true)
  \/ (exists x, a = Returned x /\ truthy x = false /\ b = Returned ts).
Proof.
  unfold or_else_lazy. destruct a as [x|e]; cbn [and_then]; [|discriminate].
  destruct (truthy x) eqn:Hx.
  - intros [= <-]. left. split; [reflexivity | exact Hx].
  - intros Hb. right. exists x. repeat split; assumption.
Qed.

Lemma toDate_opt_truthy (v d : value) :
  toDate_opt v = Returned d -> truthy d = true -> truthy v = true.
Proof.
  destruct v; cbn; try (intros [= <-]; cbn; congruence).
  destruct (nullish _); [|discriminate]. intros [= <-]. cbn. congruence.
Qed.

Lemma toDate_opt_falsy (v d : value) :
  toDate_opt v = Returned d -> truthy v = false -> truthy d = false.
Proof.
  intros H Hv. destruct (truthy d) eqn:Hd; [|reflexivity].
  rewrite (toDate_opt_truthy _ _ H Hd) in Hv. discriminate.
Qed.

Lemma updatedAtTimestamp_truthy (data : gmap string value) (ts : value) :
  updatedAtTimestamp data = Returned ts ->
  truthy ts = true <-> holds_truthy data update_fields.
Proof.
  unfold holds_truthy, update_fields. rewrite !Exists_cons, Exists_nil.
  unfold updatedAtTimestamp. intros H.
  apply or_else_lazy_inv in H as [[H1 T1]|(x1 & H1 & F1 & H)].
  { pose proof (toDate_opt_truthy _ _ H1 T1). tauto. }
  apply or_else_lazy_inv in H as [[H2 T2]|(x2 & H2 & F2 & H)].
  { pose proof (toDate_opt_truthy _ _ H2 T2). tauto. }
  apply or_else_lazy_inv in H as [[H3 T3]|(x3 & H3 & F3 & H)].
  { pose proof (toDate_opt_truthy _ _ H3 T3). tauto. }
  injection H as <-. unfold or_else.
  destruct (truthy (field data "modified_at")) eqn:E1; [tauto|].
  destruct (truthy (field data "updated_at")) eqn:E2; [tauto|].
  destruct (truthy (field data "updatedAt")) eqn:E3; [tauto|].
  intuition congruence.
Qed.

Lemma createdAtTimestamp_holds (data : gmap string value) (ts : value) :
  createdAtTimestamp data = Returned ts ->
  truthy ts = true <-> holds_truthy data creation_fields.
Proof.
  intros H. rewrite (createdAtTimestamp_truthy _ _ H).
  unfold holds_truthy, creation_fields. rewrite !Exists_cons, Exists_nil. tauto.
Qed.

Section Dates.
Variable Date_parse : string -> time_value.
Variable Date_of_object : value -> time_value.

Local Abbreviation to_document := (to_document Date_parse Date_of_object).
Local Abbreviation snapshotToDocuments := (snapshotToDocuments Date_parse Date_of_object).
Local Abbreviation date_if_truthy := (date_if_truthy Date_parse Date_of_object).

Lemma date_if_truthy_Some (ts : value) :
  is_Some (date_if_truthy ts) <-> truthy ts = true.
Proof.
  unfold Firestore.date_if_truthy. destruct (truthy ts); split; intros H;
    try reflexivity; try (eexists; reflexivity); try discriminate.
  destruct H as [? [=]].
Qed.

(** What the object pushed for a document holds. *)
Lemma to_document_inv (raw : QueryDocumentSnapshot) (d : FirestoreDocument) :
  to_document raw = Returned d ->
  exists cts uts,
    createdAtTimestamp (doc_data raw) = Returned cts
    /\ updatedAtTimestamp (doc_data raw) = Returned uts
    /\ id d = doc_id raw
    /\ createdAt d = date_if_truthy cts
    /\ updatedAt d = date_if_truthy uts
    /\ (forall k, k ∉ written_keys -> data d !! k = doc_data raw !! k).
Proof.
  unfold Firestore.to_document.
  destruct (createdAtTimestamp (doc_data raw)) as [cts|e]; cbn [and_then]; [|discriminate].
  destruct (updatedAtTimestamp (doc_data raw)) as [uts|e]; cbn [and_then]; [|discriminate].
  intros [= <-]. exists cts, uts. cbn. repeat split; try reflexivity.
  intros k Hk. unfold written_keys in Hk.
  rewrite !not_elem_of_cons in Hk. destruct Hk as (K1 & K2 & K3 & K4 & _).
  rewrite !lookup_insert_ne by congruence. reflexivity.
Qed.

Lemma to_document_total (raw : QueryDocumentSnapshot) :
  well_formed_timestamps (doc_data raw) -> exists d, to_document raw = Returned d.
Proof.
  intros H. unfold Firestore.to_document.
  rewrite (createdAtTimestamp_chain _ H), (updatedAtTimestamp_chain _ H).
  cbn [and_then]. eexists; reflexivity.
Qed.

Lemma sort_if_dated_perm (l : list FirestoreDocument) : sort_if_dated l ≡ₚ l.
Proof.
  unfold sort_if_dated. destruct (every_createdAt l); [apply js_sort_perm | reflexivity].
Qed.

Lemma snapshotToDocuments_inv (snap : list QueryDocumentSnapshot)
    (out : list FirestoreDocument) :
  snapshotToDocuments snap = Returned out ->
  exists docs, map_outcome to_document snap = Returned docs
               /\ out = sort_if_dated docs
               /\ Forall2 (fun raw d => to_document raw = Returned d) snap docs.
Proof.
  unfold Firestore.snapshotToDocuments.
  destruct (map_outcome to_document snap) as [docs|e] eqn:E; cbn [and_then]; [|discriminate].
  intros [= <-]. exists docs. repeat split. apply map_outcome_Forall2. exact E.
Qed.

Lemma snapshotToDocuments_sources (snap : list QueryDocumentSnapshot)
    (out : list FirestoreDocument) :
  snapshotToDocuments snap = Returned out ->
  (forall d, d ∈ out -> exists raw, raw ∈ snap /\ to_document raw = Returned d)
  /\ (forall raw, raw ∈ snap -> exists d, d ∈ out /\ to_document raw = Returned d).
Proof.
  intros H. apply snapshotToDocuments_inv in H as (docs & _ & -> & HF).
  split.
  - intros d Hd. rewrite sort_if_dated_perm in Hd.
    apply list_elem_of_lookup in Hd as [i Hi].
    destruct (Forall2_lookup_r _ _ _ _ _ HF Hi) as (raw & Hraw & Hconv).
    exists raw. split; [eapply list_elem_of_lookup_2; exact Hraw | exact Hconv].
  - intros raw Hraw. apply list_elem_of_lookup in Hraw as [i Hi].
    destruct (Forall2_lookup_l _ _ _ _ _ HF Hi) as (d & Hd & Hconv).
    exists d. split; [|exact Hconv].
    rewrite sort_if_dated_perm. eapply list_elem_of_lookup_2; exact Hd.
Qed.

Lemma snapshotToDocuments_total (snap : list QueryDocumentSnapshot) :
  Forall (fun raw => well_formed_timestamps (doc_data raw)) snap ->
  exists out, snapshotToDocuments snap = Returned out.
Proof.
  intros H. unfold Firestore.snapshotToDocuments.
  destruct (map_outcome_total to_document snap) as [docs ->].
  - eapply Forall_impl; [exact H|]. intros raw. apply to_document_total.
  - cbn [and_then]. eexists; reflexivity.
Qed.

End Dates.

Lemma lacking_is_well_formed (data : gmap string value) :
  ~ contains_field data (creation_fields ++ update_fields) -> well_formed_timestamps data.
Proof.
  unfold contains_field, creation_fields, update_fields, well_formed_timestamps. cbn [app].
  rewrite !Exists_cons, Exists_nil. intros H.
  assert (Hk : forall k, ~ is_Some (data !! k) -> toDate_callable (field data k)).
  { intros k Hn. unfold field. destruct (data !! k) eqn:E; [|exact I].
    exfalso. apply Hn. eexists; reflexivity. }
  repeat constructor; apply Hk; tauto.
Qed.

Lemma lacking_is_falsy (data : gmap string value) (keys : list string) :
  ~ contains_field data keys -> ~ holds_truthy data keys.
Proof.
  unfold contains_field, holds_truthy. rewrite <- !Forall_Exists_neg.
  intros H. eapply Forall_impl; [exact H|]. intros k Hk Ht. apply Hk. unfold field in Ht.
  destruct (data !! k); [eexists; reflexivity | discriminate].
Qed.

(** C8, as amended.  Every [FirestoreDocument] that [snapshotToDocuments]
    produces comes from a document of the snapshot: it has that
    document's id, and its data on every key other than the four the
    service writes ([created_at], [modified_at], [createdAt],
    [updatedAt]).  Its [createdAt] is defined exactly when [created_at]
    or [createdAt] of the raw document holds a truthy value, and its
    [updatedAt] exactly when [modified_at], [updated_at] or [updatedAt]
    does.  A raw document without any of the five fields is returned
    too, with both undefined; and a snapshot of such documents is always
    converted. *)
Theorem produced_documents
    (Date_parse : string -> time_value) (Date_of_object : value -> time_value)
    (snap : list QueryDocumentSnapshot) :
  (forall out, snapshotToDocuments Date_parse Date_of_object snap = Returned out ->
     (forall d, d ∈ out ->
        exists raw, raw ∈ snap
          /\ id d = doc_id raw
          /\ (forall k, k ∉ written_keys -> data d !! k = doc_data raw !! k)
          /\ (is_Some (createdAt d) <-> holds_truthy (doc_data raw) creation_fields)
          /\ (is_Some (updatedAt d) <-> holds_truthy (doc_data raw) update_fields))
     /\ (forall raw, raw ∈ snap ->
           ~ contains_field (doc_data raw) (creation_fields ++ update_fields) ->
           exists d, d ∈ out /\ id d = doc_id raw
                     /\ createdAt d = None /\ updatedAt d = None))
  /\ (Forall (fun raw => ~ contains_field (doc_data raw) (creation_fields ++ update_fields))
        snap ->
      exists out, snapshotToDocuments Date_parse Date_of_object snap = Returned out).
Proof.
  split.
  - intros out Hout.
    destruct (snapshotToDocuments_sources _ _ _ _ Hout) as [Hfrom Hto]. split.
    + intros d Hd. destruct (Hfrom d Hd) as (raw & Hraw & Hconv).
      apply to_document_inv in Hconv as (cts & uts & Hc & Hu & Hid & Hca & Hua & Hdata).
      exists raw. repeat split; try assumption.
      * rewrite Hca. intros H. apply date_if_truthy_Some in H.
        apply (createdAtTimestamp_holds _ _ Hc). exact H.
      * rewrite Hca. intros H. apply date_if_truthy_Some.
        apply (createdAtTimestamp_holds _ _ Hc). exact H.
      * rewrite Hua. intros H. apply date_if_truthy_Some in H.
        apply (updatedAtTimestamp_truthy _ _ Hu). exact H.
      * rewrite Hua. intros H. apply date_if_truthy_Some.
        apply (updatedAtTimestamp_truthy _ _ Hu). exact H.
    + intros raw Hraw Hlack. destruct (Hto raw Hraw) as (d & Hd & Hconv).
      exists d. split; [exact Hd|].
      apply to_document_inv in Hconv as (cts & uts & Hc & Hu & Hid & Hca & Hua & _).
      split; [exact Hid|].
      assert (Hnc : ~ holds_truthy (doc_data raw) creation_fields).
      { apply lacking_is_falsy. intros H. apply Hlack. unfold contains_field in *.
        apply Exists_app. left. exact H. }
      assert (Hnu : ~ holds_truthy (doc_data raw) update_fields).
      { apply lacking_is_falsy. intros H. apply Hlack. unfold contains_field in *.
        apply Exists_app. right. exact H. }
      rewrite Hca, Hua. unfold date_if_truthy. split.
      * destruct (truthy cts) eqn:E; [|reflexivity].
        exfalso. apply Hnc. apply (createdAtTimestamp_holds _ _ Hc). exact E.
      * destruct (truthy uts) eqn:E; [|reflexivity].
        exfalso. apply Hnu. apply (updatedAtTimestamp_truthy _ _ Hu). exact E.
  - intros H. apply snapshotToDocuments_total.
    eapply Forall_impl; [exact H|]. intros raw. apply lacking_is_well_formed.
Qed.

End FirestoreSpec.

Module FirestoreOrder.
Import Firestore SortFacts FirestoreSpec.

Section Dates.
Variable Date_parse : string -> time_value.
Variable Date_of_object : value -> time_value.

Local Abbreviation to_document := (to_document Date_parse Date_of_object).
Local Abbreviation snapshotToDocuments := (snapshotToDocuments Date_parse Date_of_object).
Local Abbreviation getCollection := (getCollection Date_parse Date_of_object).

Lemma every_createdAt_true (docs : list FirestoreDocument) :
  every_createdAt docs = true <-> Forall (fun d => is_Some (createdAt d)) docs.
Proof.
  unfold every_createdAt. rewrite forallb_forall, Forall_forall.
  split; intros H d Hd.
  - apply list_elem_of_In in Hd. specialize (H d Hd).
    destruct (createdAt d); [eexists; reflexivity | discriminate].
  - apply list_elem_of_In in Hd. destruct (H d Hd) as [t ->]. reflexivity.
Qed.

Lemma compare_createdAt_valid (a b : FirestoreDocument) :
  valid_createdAt a -> valid_createdAt b ->
  compare_createdAt a b = Some (createdAt_time b - createdAt_time a).
Proof.
  intros [x Ha] [y Hb]. unfold compare_createdAt, createdAt_time.
  rewrite Ha, Hb. reflexivity.
Qed.

Lemma sort_if_dated_sorted (docs : list FirestoreDocument) :
  Forall valid_createdAt docs -> StronglySorted newest_first (sort_if_dated docs).
Proof.
  intros Hv. unfold sort_if_dated.
  assert (Hall : every_createdAt docs = true).
  { apply every_createdAt_true. eapply Forall_impl; [exact Hv|].
    intros d [t ->]. eexists; reflexivity. }
  rewrite Hall.
  apply (StronglySorted_weaken (fun a b => createdAt_time b <= createdAt_time a)).
  - intros a b Ha Hb Hab. rewrite js_sort_perm in Ha, Hb.
    rewrite Forall_forall in Hv.
    destruct (Hv a Ha) as [x Hx], (Hv b Hb) as [y Hy].
    unfold newest_first, newer_or_equal. unfold createdAt_time in Hab.
    rewrite Hx, Hy in *. exact Hab.
  - apply js_sort_sorted. intros a b Ha Hb. rewrite Forall_forall in Hv.
    apply compare_createdAt_valid; auto.
Qed.

Lemma sort_if_dated_undated (docs : list FirestoreDocument) :
  Exists (fun d => createdAt d = None) docs -> sort_if_dated docs = docs.
Proof.
  intros He. unfold sort_if_dated.
  destruct (every_createdAt docs) eqn:E; [|reflexivity].
  apply every_createdAt_true in E. apply Exists_exists in He as (d & Hd & Hn).
  rewrite Forall_forall in E. destruct (E d Hd) as [t Ht]. congruence.
Qed.

Lemma converted_ids (snap : list QueryDocumentSnapshot) (docs : list FirestoreDocument) :
  map_outcome to_document snap = Returned docs -> map id docs = map doc_id snap.
Proof.
  intros H. apply map_outcome_Forall2 in H.
  induction H as [|raw d snap docs Hd _ IH]; [reflexivity|].
  cbn [map]. f_equal; [|exact IH].
  apply to_document_inv in Hd as (? & ? & _ & _ & Hid & _). exact Hid.
Qed.

Lemma map_io_logged_result (snap : list QueryDocumentSnapshot) :
  result (map_io (fun doc =>
                    emit (EConsoleLog ("[Firestore] Processing document " +:+ doc_id doc)) ;;;
                    await (to_document doc)) snap)
  = map_outcome to_document snap.
Proof.
  induction snap as [|doc snap IH]; cbn [map_io map_outcome]; [reflexivity|].
  io_result. destruct (to_document doc) as [d|e]; cbn [and_then]; [|reflexivity].
  io_result. rewrite IH. destruct (map_outcome to_document snap); reflexivity.
Qed.

(** [getCollection] returns what [snapshotToDocuments] returns on the
    snapshot that [getDocs] delivers for the query built. *)
Lemma getCollection_result sdk_query getDocs (collectionName : string)
    (limitCount : option Z)
    (snap : list QueryDocumentSnapshot) (out : list FirestoreDocument) :
  sdk_query collectionName (default 50 limitCount) = Returned tt ->
  getDocs collectionName (default 50 limitCount) = Returned snap ->
  snapshotToDocuments snap = Returned out ->
  result (getCollection sdk_query getDocs collectionName limitCount) = Returned out.
Proof.
  intros Hq Hg Hs. apply snapshotToDocuments_inv in Hs as (docs & Hd & -> & _).
  pose proof (map_io_logged_result snap) as Hm. rewrite Hd in Hm.
  unfold Firestore.getCollection. rewrite result_try_catch.
  io_result. rewrite Hq. io_result. rewrite Hg. io_result. rewrite Hm. io_result.
  reflexivity.
Qed.

End Dates.



Example snapshot_order_example :
  and_then (snapshotToDocuments sample_Date_parse sample_Date_of_object three_stamped)
    (fun out => Returned (map id out))
  = Returned ["b"; "c"; "a"].
Proof. vm_compute. reflexivity. Qed.


End FirestoreOrder.

(** ** Listener registration *)

Module ListenerSpec.
Import Firestore.

Section Listener.
Variable Date_parse : string -> time_value.
Variable Date_of_object : value -> time_value.
Variable sdk_query : string -> Z -> outcome unit.
Variable sdk_onSnapshot :
  string -> Z ->
  (list QueryDocumentSnapshot -> io event unit) -> (js_error -> io event unit) ->
  outcome nat.
Variable callback : list FirestoreDocument -> io event unit.
Variable onError : option (js_error -> io event unit).

Local Abbreviation listen :=
  (listenToCollection Date_parse Date_of_object sdk_query sdk_onSnapshot callback onError).
Local Abbreviation registered name n :=
  (sdk_onSnapshot name n
     (on_snapshot Date_parse Date_of_object callback name)
     (on_listen_error onError name)).

Lemma listen_registered (name : string) (limitCount : option Z) (h : nat) :
  sdk_query name (default 50 limitCount) = Returned tt ->
  registered name (default 50 limitCount) = Returned h ->
  listen name limitCount
  = IO [ setup_log name; EQuery name (default 50 limitCount);
         EOnSnapshot name (default 50 limitCount) ]
       (Returned (SdkUnsubscribe h)).
Proof.
  intros Hq Hs. unfold listenToCollection. cbn. rewrite Hq. cbn. rewrite Hs. reflexivity.
Qed.

Lemma listen_query_fails (name : string) (limitCount : option Z) (e : js_error) :
  sdk_query name (default 50 limitCount) = Threw e ->
  listen name limitCount
  = IO ([ setup_log name; EQuery name (default 50 limitCount); setup_error_log name ]
        ++ trace (report onError e))
       (match result (report onError e) with
        | Returned _ => Returned NoOp
        | Threw e' => Threw e'
        end).
Proof.
  intros Hq. unfold listenToCollection. cbn. rewrite Hq. cbn.
  destruct (report onError e) as [t [[]|e']]; cbn; rewrite ?app_nil_r; reflexivity.
Qed.

Lemma listen_register_fails (name : string) (limitCount : option Z) (e : js_error) :
  sdk_query name (default 50 limitCount) = Returned tt ->
  registered name (default 50 limitCount) = Threw e ->
  listen name limitCount
  = IO ([ setup_log name; EQuery name (default 50 limitCount);
          EOnSnapshot name (default 50 limitCount); setup_error_log name ]
        ++ trace (report onError e))
       (match result (report onError e) with
        | Returned _ => Returned NoOp
        | Threw e' => Threw e'
        end).
Proof.
  intros Hq Hs. unfold listenToCollection. cbn. rewrite Hq. cbn. rewrite Hs. cbn.
  destruct (report onError e) as [t [[]|e']]; cbn; rewrite ?app_nil_r; reflexivity.
Qed.

Lemma on_listen_error_reports (name : string) (error : js_error) :
  on_listen_error onError name error
  = IO (EConsoleError ("[Firestore] ERROR in listener for " +:+ name)
        :: trace (report onError (reported_error name error)))
       (result (report onError (reported_error name error))).
Proof.
  unfold on_listen_error, reported_error.
  destruct (bool_decide (err_code error = Some "permission-denied")); cbn;
    destruct (report onError _) as [t [[]|e']]; reflexivity.
Qed.

End Listener.

Lemma permission_denied_message_names (name : string) :
  includes name (permission_denied_message name) = true.
Proof.
  unfold permission_denied_message.
  apply (includes_app _ "Permission denied: Check Firestore security rules for collection '").
Qed.

Lemma report_returns (onError : option (js_error -> io event unit)) (e : js_error) :
  returns_normally onError -> result (report onError e) = Returned tt.
Proof. destruct onError as [f|]; cbn; intros H; [apply H | reflexivity]. Qed.

Lemma listen_returns Date_parse Date_of_object sdk_query sdk_onSnapshot callback onError
    (name : string) (limitCount : option Z) :
  returns_normally onError ->
  exists u,
    result (listenToCollection Date_parse Date_of_object sdk_query sdk_onSnapshot
              callback onError name limitCount) = Returned u.
Proof.
  intros Hn.
  destruct (sdk_query name (default 50 limitCount)) as [[]|e] eqn:Hq.
  - destruct (sdk_onSnapshot name (default 50 limitCount)
                (on_snapshot Date_parse Date_of_object callback name)
                (on_listen_error onError name)) as [h|e] eqn:Hs.
    + rewrite (listen_registered _ _ _ _ _ _ _ _ h Hq Hs). eexists; reflexivity.
    + rewrite (listen_register_fails _ _ _ _ _ _ _ _ e Hq Hs). cbn [result].
      rewrite (report_returns _ _ Hn). eexists; reflexivity.
  - rewrite (listen_query_fails _ _ _ _ _ _ _ _ e Hq). cbn [result].
    rewrite (report_returns _ _ Hn). eexists; reflexivity.
Qed.

(** C9, as amended.  Provided the caller's [onError], when one is
    given, itself returns normally, [listenToCollection] and its
    per-collection wrappers never throw.  When building the query or
    registering the listener fails, the failure is logged, reported to
    [onError], and the no-op unsubscribe function is returned; when
    both succeed the SDK's unsubscribe function is returned.  A
    subscription error is logged and reported to [onError], a
    permission-denied error as a new error whose message names the
    collection. *)
Theorem listeners_contain_failures
    (Date_parse : string -> time_value) (Date_of_object : value -> time_value)
    (sdk_query : string -> Z -> outcome unit)
    (sdk_onSnapshot :
       string -> Z ->
       (list QueryDocumentSnapshot -> io event unit) -> (js_error -> io event unit) ->
       outcome nat)
    (callback : list FirestoreDocument -> io event unit)
    (onError : option (js_error -> io event unit))
    (name : string) (limitCount : option Z) :
  let listen :=
    listenToCollection Date_parse Date_of_object sdk_query sdk_onSnapshot callback onError in
  let n := default 50 limitCount in
  let registered :=
    sdk_onSnapshot name n (on_snapshot Date_parse Date_of_object callback name)
      (on_listen_error onError name) in
  (returns_normally onError ->
     (exists u, result (listen name limitCount) = Returned u)
     /\ Forall (fun w => exists u, result w = Returned u)
          [ listenToEvaluations Date_parse Date_of_object sdk_query sdk_onSnapshot
              callback onError limitCount;
            listenToNotifications Date_parse Date_of_object sdk_query sdk_onSnapshot
              callback onError limitCount;
            listenToCOAReports Date_parse Date_of_object sdk_query sdk_onSnapshot
              callback onError limitCount;
            listenToSiteReports Date_parse Date_of_object sdk_query sdk_onSnapshot
              callback onError limitCount ])
  /\ (forall e,
        sdk_query name n = Threw e
        \/ (sdk_query name n = Returned tt /\ registered = Threw e) ->
        (exists before,
           trace (listen name limitCount)
           = (before ++ setup_error_log name :: trace (report onError e))%list)
        /\ (returns_normally onError -> result (listen name limitCount) = Returned NoOp))
  /\ (forall h,
        sdk_query name n = Returned tt -> registered = Returned h ->
        result (listen name limitCount) = Returned (SdkUnsubscribe h))
  /\ (forall error,
        on_listen_error onError name error
        = IO (EConsoleError ("[Firestore] ERROR in listener for " +:+ name)
              :: trace (report onError (reported_error name error)))
             (result (report onError (reported_error name error))))
  /\ (forall error,
        err_code error = Some "permission-denied" ->
        reported_error name error = Error (permission_denied_message name)
        /\ includes name (permission_denied_message name) = true)
  /\ (forall error,
        err_code error <> Some "permission-denied" -> reported_error name error = error).
Proof.
  intros listen n registered. subst listen n registered.
  split; [|split; [|split; [|split; [|split]]]].
  - intros Hn. split; [apply listen_returns; exact Hn|].
    repeat constructor; apply listen_returns; exact Hn.
  - intros e [Hq|[Hq Hs]].
    + rewrite (listen_query_fails _ _ _ _ _ _ _ _ e Hq). cbn [trace result]. split.
      * exists [setup_log name; EQuery name (default 50 limitCount)]. reflexivity.
      * intros Hn. rewrite (report_returns _ _ Hn). reflexivity.
    + rewrite (listen_register_fails _ _ _ _ _ _ _ _ e Hq Hs). cbn [trace result]. split.
      * exists [setup_log name; EQuery name (default 50 limitCount);
                EOnSnapshot name (default 50 limitCount)]. reflexivity.
      * intros Hn. rewrite (report_returns _ _ Hn). reflexivity.
  - intros h Hq Hs. rewrite (listen_registered _ _ _ _ _ _ _ _ h Hq Hs). reflexivity.
  - apply on_listen_error_reports.
  - intros error Hc. unfold reported_error. rewrite bool_decide_eq_true_2 by exact Hc.
    split; [reflexivity | apply permission_denied_message_names].
  - intros error Hc. unfold reported_error. rewrite bool_decide_eq_false_2 by exact Hc.
    reflexivity.
Qed.

Lemma listeners_contain_failures_witness :
  result (listenToCollection sample_Date_parse sample_Date_of_object
            (fun _ _ => Threw (Error "Invalid collection reference"))
            (fun _ _ _ _ => Returned 0%nat)
            (fun _ => ret tt) None "agent_coa_reports" None)
  = Returned NoOp.
Proof.
  destruct (listeners_contain_failures sample_Date_parse sample_Date_of_object
              (fun _ _ => Threw (Error "Invalid collection reference"))
              (fun _ _ _ _ => Returned 0%nat)
              (fun _ => ret tt) None "agent_coa_reports" None) as (_ & H & _).
  exact (proj2 (H (Error "Invalid collection reference") (or_introl eq_refl)) I).
Defined.

(** C9 as first stated does not hold when the caller's [onError] throws:
    called inside the [catch] block, its exception leaves
    [listenToCollection]. *)
Lemma throwing_onError_escapes :
  result (listenToCollection sample_Date_parse sample_Date_of_object
            (fun _ _ => Threw (Error "Invalid collection reference"))
            (fun _ _ _ _ => Returned 0%nat)
            (fun _ => ret tt)
            (Some (fun e => throw e)) "agent_coa_reports" None)
  = Threw (Error "Invalid collection reference").
Proof. vm_compute. reflexivity. Qed.

End ListenerSpec.

Module FirestoreExamples.
Import Firestore FirestoreSpec.

Lemma untimed_lacks_fields :
  Forall (fun raw => ~ contains_field (doc_data raw) (creation_fields ++ update_fields))
    untimed.
Proof.
  unfold untimed. rewrite Forall_cons, Forall_nil. split; [|exact I].
  unfold contains_field. rewrite <- Forall_Exists_neg.
  unfold creation_fields, update_fields. cbn [app]. rewrite !Forall_cons, Forall_nil.
  repeat split; intros [v Hv]; vm_compute in Hv; discriminate Hv.
Defined.

Lemma produced_documents_witness :
  exists out, snapshotToDocuments sample_Date_parse sample_Date_of_object untimed = Returned out.
Proof.
  exact (proj2 (produced_documents sample_Date_parse sample_Date_of_object untimed)
               untimed_lacks_fields).
Defined.

(** C8 as first stated does not hold on documents that do contain
    [created_at], holding [null] or the number [0]: their [createdAt]
    is undefined. *)
Lemma createdAt_undefined_despite_field :
  Forall (fun raw => contains_field (doc_data raw) creation_fields) falsy_stamps
  /\ and_then (snapshotToDocuments sample_Date_parse sample_Date_of_object falsy_stamps)
       (fun out => Returned (map (fun d => (id d, createdAt d)) out))
     = Returned [("a", None); ("b", None)].
Proof.
  split.
  - unfold falsy_stamps. rewrite !Forall_cons, Forall_nil.
    repeat split; apply Exists_cons_hd; eexists; vm_compute; reflexivity.
  - vm_compute. reflexivity.
Qed.

End FirestoreExamples.

(** ** Field lookups *)

Module LookupSpec.
Import Firestore FirestoreSpec ExportExcel.

Lemma standardId_chain (o : gmap string value) :
  standardId (VObj o)
  = Returned (first_truthy [ field o "id"; field o "standard_id"; field o "standardId";
                             VStr "N/A" ]).
Proof.
  unfold standardId, or_else, read. cbn [get_prop and_then first_truthy].
  destruct (truthy (field o "id")); [reflexivity|].
  destruct (truthy (field o "standard_id")); [reflexivity|].
  destruct (truthy (field o "standardId")); reflexivity.
Qed.

Lemma scoreValue_chain (o : gmap string value) :
  scoreValue (VObj o)
  = first_defined [ field o "score"; field o "value"; field o "scores" ] (VNum 0).
Proof.
  unfold scoreValue, read. cbn [get_prop first_defined].
  destruct (nullish (field o "score")); [|reflexivity]. cbn [negb].
  destruct (nullish (field o "value")); [|reflexivity]. cbn [negb].
  destruct (nullish (field o "scores")); reflexivity.
Qed.

(** C4, as amended.  For a standard-score record of a student report,
    an object, the export formatter takes as identifier the first
    truthy of [id], [standard_id], [standardId], else ['N/A'], and as
    value the first of [score], [value], [scores] that is neither
    [undefined] nor [null], else [0].  For a top-level standard-score record (a row of the
    'Aggregate Standards' sheet) it tries one field each: the
    identifier is [id] when truthy, else ['N/A'], and the value is
    [score] when truthy, else [0].  For a raw document none of whose
    timestamp fields is a map with a [toDate] entry other than [null],
    the Firestore service resolves the creation timestamp as the first
    truthy of: [created_at] and [createdAt] converted with [toDate()],
    which only Firestore Timestamps have, and then the raw values of
    [created_at] and [createdAt]; and the update timestamp likewise from
    [modified_at], [updated_at], [updatedAt].  On a document whose
    [created_at] (or [modified_at]) is a map with a [toDate] entry other
    than [null] the resolution throws: the entry is no function. *)
Theorem field_lookups (standardsData : list (string * string)) (doc : FirestoreDocument)
    (o data : gmap string value) :
  standardId (VObj o)
  = Returned (first_truthy [ field o "id"; field o "standard_id"; field o "standardId";
                             VStr "N/A" ])
  /\ scoreValue (VObj o)
     = first_defined [ field o "score"; field o "value"; field o "scores" ] (VNum 0)
  /\ (let sid := first_truthy [field o "id"; VStr "N/A"] in
      aggregate_row standardsData doc (VObj o)
      = Returned (AddRow [ reportId doc; sid;
                           first_truthy [standardsMap_get standardsData sid; sid];
                           first_truthy [field o "score"; VNum 0] ]))
  /\ (well_formed_timestamps data ->
      createdAtTimestamp data
      = Returned (first_truthy [ timestamp_date (field data "created_at");
                                 timestamp_date (field data "createdAt");
                                 field data "created_at";
                                 field data "createdAt" ])
      /\ updatedAtTimestamp data
         = Returned (first_truthy [ timestamp_date (field data "modified_at");
                                    timestamp_date (field data "updated_at");
                                    timestamp_date (field data "updatedAt");
                                    field data "modified_at";
                                    field data "updated_at";
                                    field data "updatedAt" ]))
  /\ (forall m, field data "created_at" = VObj m -> nullish (field m "toDate") = false ->
        exists e, createdAtTimestamp data = Threw e)
  /\ (forall m, field data "modified_at" = VObj m -> nullish (field m "toDate") = false ->
        exists e, updatedAtTimestamp data = Threw e).
Proof.
  split; [apply standardId_chain|]. split; [apply scoreValue_chain|].
  split; [reflexivity|]. split; [|split].
  - intros H. split; [apply createdAtTimestamp_chain | apply updatedAtTimestamp_chain]; exact H.
  - intros m Hm Hd. unfold createdAtTimestamp. rewrite Hm. cbn [toDate_opt]. rewrite Hd.
    eexists. reflexivity.
  - intros m Hm Hd. unfold updatedAtTimestamp. rewrite Hm. cbn [toDate_opt]. rewrite Hd.
    eexists. reflexivity.
Qed.

Lemma string_then_timestamp_well_formed : well_formed_timestamps string_then_timestamp.
Proof. repeat constructor. Defined.

Lemma field_lookups_witness :
  createdAtTimestamp string_then_timestamp
  = Returned (first_truthy [ timestamp_date (field string_then_timestamp "created_at");
                             timestamp_date (field string_then_timestamp "createdAt");
                             field string_then_timestamp "created_at";
                             field string_then_timestamp "createdAt" ]).
Proof.
  exact (proj1 (proj1 (proj2 (proj2 (proj2
                 (field_lookups sample_standards scored_report ∅ string_then_timestamp))))
                 string_then_timestamp_well_formed)).
Defined.

(** C4 as first stated - [created_at] is tried, then [createdAt] -
    does not hold on a document whose [created_at] is a string
    and whose [createdAt] is a Timestamp: the Timestamp is taken. *)
Lemma createdAt_taken_before_created_at :
  truthy (converted (field string_then_timestamp "created_at")) = true
  /\ createdAtTimestamp string_then_timestamp = Returned (VDate (Some 1700000000000))
  /\ createdAtTimestamp string_then_timestamp
     <> Returned (first_truthy [ converted (field string_then_timestamp "created_at");
                                 converted (field string_then_timestamp "createdAt") ]).
Proof.
  split; [vm_compute; reflexivity|]. split; [vm_compute; reflexivity|].
  vm_compute. discriminate.
Qed.

End LookupSpec.

(** ** The spreadsheet export *)

Module ExportSpec.
Import Firestore ExportExcel SortFacts.

Lemma get_prop_defined (v : value) (k : string) :
  nullish v = false -> get_prop v k = Returned (read v k).
Proof. unfold read. destruct v; cbn; intros H; try discriminate; reflexivity. Qed.

Lemma has_scores_defined (sr : value) :
  nullish sr = false -> has_scores sr = Returned (has_scores_b sr).
Proof.
  intros H. unfold has_scores, has_scores_b. rewrite (get_prop_defined _ _ H). reflexivity.
Qed.

Lemma some_m_defined (l : list value) :
  Forall (fun sr => nullish sr = false) l ->
  some_m has_scores l = Returned (existsb has_scores_b l).
Proof.
  induction 1 as [|sr l Hsr _ IH]; cbn [some_m existsb]; [reflexivity|].
  rewrite (has_scores_defined _ Hsr). cbn [and_then].
  destruct (has_scores_b sr); [reflexivity | exact IH].
Qed.

Lemma find_with_scores_defined (docs : list FirestoreDocument) :
  Forall entries_defined docs ->
  find_with_scores docs = Returned (List.find with_scores docs).
Proof.
  induction 1 as [|doc docs Hdoc _ IH]; cbn [find_with_scores List.find]; [reflexivity|].
  unfold with_scores at 1. fold (student_reports doc).
  destruct (isArray (student_reports doc)); cbn [andb]; [|exact IH].
  rewrite (some_m_defined _ Hdoc). cbn [and_then].
  destruct (existsb has_scores_b (elements (student_reports doc))); [reflexivity | exact IH].
Qed.

Lemma documentToUse_defined (latest : FirestoreDocument) (sorted : list FirestoreDocument) :
  entries_defined latest -> Forall entries_defined sorted ->
  documentToUse latest sorted
  = Returned (if lacks_scores latest
              then default latest (List.find with_scores sorted)
              else latest).
Proof.
  intros Hl Hs. unfold documentToUse, lacks_scores. fold (student_reports latest).
  destruct (isArray (student_reports latest) && nonempty (elements (student_reports latest)));
    cbn [andb]; [|reflexivity].
  rewrite (some_m_defined _ Hl). cbn [and_then].
  destruct (existsb has_scores_b (elements (student_reports latest))); cbn [negb];
    [reflexivity|].
  rewrite (find_with_scores_defined _ Hs). reflexivity.
Qed.

(** The first element with a property, in a list sorted by decreasing
    key, has the largest key among the elements with the property. *)
Lemma find_sorted_max {A} (key : A -> Z) (P : A -> bool) (l : list A) (c : A) :
  StronglySorted (fun a b => key b <= key a) l ->
  List.find P l = Some c ->
  c ∈ l /\ P c = true /\ forall d, d ∈ l -> P d = true -> key d <= key c.
Proof.
  induction l as [|x l IH]; cbn [List.find]; [discriminate|].
  intros Hs Hf. apply StronglySorted_cons in Hs as [Hx Hl].
  destruct (P x) eqn:Px.
  - injection Hf as <-. split; [apply list_elem_of_here|]. split; [exact Px|].
    intros d Hd _. apply elem_of_cons in Hd as [->|Hd]; [lia|].
    rewrite Forall_forall in Hx. apply Hx. exact Hd.
  - destruct (IH Hl Hf) as (Hc & Pc & Hmax).
    split; [apply list_elem_of_further; exact Hc|]. split; [exact Pc|].
    intros d Hd Pd. apply elem_of_cons in Hd as [->|Hd]; [congruence|].
    apply Hmax; assumption.
Qed.

Lemma find_none {A} (P : A -> bool) (l : list A) :
  List.find P l = None -> forall d, d ∈ l -> P d = false.
Proof.
  induction l as [|x l IH]; cbn [List.find]; intros Hf d Hd.
  - apply elem_of_nil in Hd. contradiction.
  - destruct (P x) eqn:Px; [discriminate|].
    apply elem_of_cons in Hd as [->|Hd]; [exact Px | apply IH; assumption].
Qed.

Section Dates.
Variable Date_parse : string -> time_value.
Variable Date_of_object : value -> time_value.
Variable date : FirestoreDocument -> Z.

Local Abbreviation getDate := (getDate Date_parse Date_of_object).
Local Abbreviation compare_dates := (compare_dates Date_parse Date_of_object).
Local Abbreviation dated := (dated Date_parse Date_of_object date).
Local Abbreviation by_date := (by_date date).

Lemma sorted_by_date (docs : list FirestoreDocument) :
  dated docs ->
  js_sort_m compare_dates docs = Returned (js_sort by_date docs)
  /\ js_sort by_date docs ≡ₚ docs
  /\ StronglySorted (fun a b => date b <= date a) (js_sort by_date docs).
Proof.
  intros Hd. split; [|split].
  - apply js_sort_m_pure. intros a b Ha Hb.
    unfold ExportExcel.compare_dates. rewrite (Hd a Ha), (Hd b Hb). reflexivity.
  - apply js_sort_perm.
  - apply js_sort_sorted. intros a b _ _. reflexivity.
Qed.

End Dates.

End ExportSpec.

Module SelectionSpec.
Import Firestore ExportExcel SortFacts ExportSpec.

(** C5, as amended.  When every document has a valid date and no entry of
    a [student_reports] array is [null], [exportCOAReportsToExcel] sorts
    the documents, takes the newest as the latest report, and chooses the
    document to export as follows.  When [student_reports] of the latest
    report is a non-empty array none of whose entries has a non-empty
    [standard_scores] array, it chooses the newest document whose
    [student_reports] has an entry with a non-empty [standard_scores]
    array, and keeps the latest report if there is no such document.
    Otherwise - also when [student_reports] is an empty array, or no
    array - it keeps the latest report. *)
Theorem selected_report
    (Date_parse : string -> time_value) (Date_of_object : value -> time_value)
    (date : FirestoreDocument -> Z) (docs : list FirestoreDocument) :
  docs <> [] ->
  dated Date_parse Date_of_object date docs ->
  Forall entries_defined docs ->
  exists sortedDocs latest chosen,
    js_sort_m (compare_dates Date_parse Date_of_object) docs = Returned sortedDocs
    /\ first_document sortedDocs = Returned latest
    /\ documentToUse latest sortedDocs = Returned chosen
    /\ latest ∈ docs
    /\ (forall d, d ∈ docs -> date d <= date latest)
    /\ chosen ∈ docs
    /\ (lacks_scores latest = true ->
        (exists d, d ∈ docs /\ with_scores d = true) ->
        with_scores chosen = true
        /\ forall d, d ∈ docs -> with_scores d = true -> date d <= date chosen)
    /\ (lacks_scores latest = true ->
        (forall d, d ∈ docs -> with_scores d = false) -> chosen = latest)
    /\ (lacks_scores latest = false -> chosen = latest).
Proof.
  intros Hne Hdated Hdef.
  destruct (sorted_by_date Date_parse Date_of_object date docs Hdated)
    as (Hsort & Hperm & Hsorted).
  destruct (js_sort (by_date date) docs) as [|latest rest] eqn:Es.
  { symmetry in Hperm. apply Permutation_nil_r in Hperm. contradiction. }
  assert (Hin : forall d, d ∈ docs <-> d ∈ latest :: rest).
  { intros d. rewrite Hperm. reflexivity. }
  assert (Hdef' : Forall entries_defined (latest :: rest)).
  { rewrite Hperm. exact Hdef. }
  assert (Hlatest : entries_defined latest).
  { apply Forall_cons in Hdef' as [H _]. exact H. }
  exists (latest :: rest), latest.
  eexists. split; [exact Hsort|]. split; [reflexivity|].
  split; [apply documentToUse_defined; assumption|].
  split; [apply Hin, list_elem_of_here|].
  split.
  { intros d Hd. apply Hin in Hd. apply StronglySorted_cons in Hsorted as [Hx _].
    apply elem_of_cons in Hd as [->|Hd]; [lia|].
    rewrite Forall_forall in Hx. apply Hx. exact Hd. }
  destruct (lacks_scores latest) eqn:El.
  - destruct (List.find with_scores (latest :: rest)) as [c|] eqn:Ef; cbn [default].
    + destruct (find_sorted_max date with_scores _ c Hsorted Ef) as (Hc & Pc & Hmax).
      split; [apply Hin; exact Hc|]. split; [|split].
      * intros _ _. split; [exact Pc|]. intros d Hd Pd. apply Hmax; [apply Hin|]; assumption.
      * intros _ Hnone. rewrite (Hnone c) in Pc by (apply Hin; exact Hc). discriminate.
      * discriminate.
    + pose proof (find_none _ _ Ef) as Hnone.
      split; [apply Hin, list_elem_of_here|]. split; [|split].
      * intros _ (d & Hd & Pd). rewrite (Hnone d) in Pd by (apply Hin; exact Hd). discriminate.
      * reflexivity.
      * discriminate.
  - split; [apply Hin, list_elem_of_here|]. split; [|split].
    + discriminate.
    + discriminate.
    + reflexivity.
Qed.

Lemma selected_report_witness :
  exists sortedDocs latest chosen,
    js_sort_m (compare_dates sample_Date_parse sample_Date_of_object)
      [scored_report; unscored_report] = Returned sortedDocs
    /\ first_document sortedDocs = Returned latest
    /\ documentToUse latest sortedDocs = Returned chosen
    /\ latest ∈ [scored_report; unscored_report]
    /\ (forall d, d ∈ [scored_report; unscored_report] ->
        createdAt_time d <= createdAt_time latest)
    /\ chosen ∈ [scored_report; unscored_report]
    /\ (lacks_scores latest = true ->
        (exists d, d ∈ [scored_report; unscored_report] /\ with_scores d = true) ->
        with_scores chosen = true
        /\ forall d, d ∈ [scored_report; unscored_report] -> with_scores d = true ->
           createdAt_time d <= createdAt_time chosen)
    /\ (lacks_scores latest = true ->
        (forall d, d ∈ [scored_report; unscored_report] -> with_scores d = false) ->
        chosen = latest)
    /\ (lacks_scores latest = false -> chosen = latest).
Proof.
  apply (selected_report sample_Date_parse sample_Date_of_object createdAt_time).
  - discriminate.
  - intros d Hd. apply elem_of_cons in Hd as [->|Hd]; [reflexivity|].
    apply elem_of_cons in Hd as [->|Hd]; [reflexivity|].
    apply elem_of_nil in Hd. contradiction.
  - repeat (apply Forall_cons_2 || apply Forall_nil_2); reflexivity.
Defined.

Example selected_report_example :
  and_then (selected_document sample_Date_parse sample_Date_of_object
              [scored_report; unscored_report])
    (fun doc => Returned (id doc))
  = Returned "report-old".
Proof. vm_compute. reflexivity. Qed.

(** C5 as first stated does not hold when [student_reports] of the newest
    report is an empty array: every entry of that array (there is none)
    lacks scores and an older document has scores, yet the newest report
    is exported. *)
Lemma empty_student_reports_keep_latest :
  isArray (student_reports studentless_report) = true
  /\ Forall (fun sr => has_scores_b sr = false) (elements (student_reports studentless_report))
  /\ with_scores scored_report = true
  /\ with_scores studentless_report = false
  /\ and_then (selected_document sample_Date_parse sample_Date_of_object
                 [scored_report; studentless_report])
       (fun doc => Returned (id doc, with_scores doc))
     = Returned ("report-new", false).
Proof.
  split; [vm_compute; reflexivity|]. split; [apply Forall_nil_2|].
  split; [vm_compute; reflexivity|]. split; vm_compute; reflexivity.
Qed.

End SelectionSpec.

Module WorkbookSpec.
Import Firestore ExportExcel SortFacts ExportSpec.

Lemma map_outcome_related {A B} (f : A -> outcome B) (Q : A -> B -> Prop) (l : list A) :
  Forall (fun x => exists y, f x = Returned y /\ Q x y) l ->
  exists r, map_outcome f l = Returned r /\ Forall2 Q l r.
Proof.
  induction 1 as [|x l (y & Hy & Qy) _ (r & Hr & Qr)]; cbn [map_outcome].
  - exists []. split; [reflexivity | constructor].
  - rewrite Hy, Hr. cbn [and_then]. exists (y :: r). split; [reflexivity|].
    constructor; assumption.
Qed.

Lemma nonempty_length {A B} (l : list A) (r : list B) :
  length r = length l -> nonempty r = nonempty l.
Proof. destruct l, r; cbn; intros H; try discriminate; reflexivity. Qed.

Section Env.
Variable Date_parse : string -> time_value.
Variable Date_of_object : value -> time_value.
Variable toLocaleString : time_value -> string.
Variable ToNumber_other : value -> option Z.
Variable standardsData : list (string * string).
Variable logoData : bool.
Variable now_iso : string.

Local Abbreviation export :=
  (exportCOAReportsToExcel Date_parse Date_of_object toLocaleString ToNumber_other
     standardsData logoData now_iso).
Local Abbreviation selected_document := (selected_document Date_parse Date_of_object).
Local Abbreviation student_sheet := (student_sheet ToNumber_other standardsData logoData).
Local Abbreviation student_sheets := (student_sheets ToNumber_other standardsData logoData).
Local Abbreviation aggregate_sheets := (aggregate_sheets standardsData logoData).
Local Abbreviation summary_sheet := (summary_sheet toLocaleString logoData).
Local Abbreviation sheet_of_student := (sheet_of_student logoData).

Lemma sheetName_string (s : string) :
  sheetName ToNumber_other (VStr s) = Returned (VStr (truncated s)).
Proof.
  unfold sheetName, truncated, read, greater_than. cbn.
  destruct (Z.ltb 31 (Z.of_nat (String.length s))); reflexivity.
Qed.

Lemma standard_row_defined (score : value) :
  nullish score = false -> exists row, standard_row standardsData score = Returned row.
Proof.
  intros H. unfold standard_row, standardId. rewrite (get_prop_defined _ _ H).
  cbn [and_then]. eexists; reflexivity.
Qed.

Lemma standard_rows_defined (sr : value) :
  Forall (fun score => nullish score = false) (elements (standardScores sr)) ->
  exists rows, standard_rows standardsData sr = Returned rows.
Proof.
  intros H. unfold standard_rows.
  destruct (isArray (standardScores sr) && nonempty (elements (standardScores sr)));
    [|eexists; reflexivity].
  apply map_outcome_total. eapply Forall_impl; [exact H|].
  intros score. apply standard_row_defined.
Qed.

Lemma sheet_names_app (a b : list Worksheet) :
  sheet_names (a ++ b) = (sheet_names a ++ sheet_names b)%list.
Proof. apply omap_app. Qed.

(** The workbook takes a plain name that none of its sheets has. *)
Lemma addWorksheet_plain (workbook : list Worksheet) (s : string) :
  plain_name s = true ->
  toLowerCase s ∉ map toLowerCase (sheet_names workbook) ->
  addWorksheet workbook (VStr s) = Returned s.
Proof.
  unfold plain_name, addWorksheet, name_taken. intros Hp Hfree.
  rewrite !andb_true_iff, !negb_true_iff in Hp.
  destruct Hp as ((((H1 & H2) & H3) & H4) & H5).
  rewrite H1, H2, H3, H4. apply Nat.leb_le in H5.
  destruct (Nat.ltb_spec 31 (String.length s)) as [Hlt|_]; [lia|].
  rewrite bool_decide_eq_false_2 by exact Hfree. reflexivity.
Qed.

(** What a workbook has taken was a name fit to be taken, and is new
    in the workbook. *)
Lemma addWorksheet_inv (workbook : list Worksheet) (s name : string) :
  addWorksheet workbook (VStr s) = Returned name ->
  accepted_name s = true
  /\ name = (if Nat.ltb 31 (String.length s) then substring0 31 s else s)
  /\ toLowerCase name ∉ map toLowerCase (sheet_names workbook).
Proof.
  unfold addWorksheet, accepted_name, name_taken. cbv beta iota zeta.
  destruct (String.eqb s ""); [discriminate|].
  destruct (String.eqb s "History"); [discriminate|].
  destruct (has_forbidden s); [discriminate|].
  destruct (quote_at_end s); [discriminate|].
  match goal with
  | |- context [bool_decide ?P] => destruct (bool_decide_reflect P) as [|Hfree]
  end; [discriminate|].
  intros [= <-]. split; [reflexivity|]. split; [reflexivity | exact Hfree].
Qed.

Lemma addWorksheet_fresh (workbook : list Worksheet) (v : value) (name : string) :
  addWorksheet workbook v = Returned name ->
  toLowerCase name ∉ map toLowerCase (sheet_names workbook).
Proof.
  unfold addWorksheet, name_taken. destruct v; cbv beta iota zeta; try discriminate.
  all: repeat match goal with
       | |- context [bool_decide ?P] => destruct (bool_decide_reflect P) as [|Hfree]
       | |- (if ?b then _ else _) = _ -> _ => destruct b
       end; try discriminate.
  all: intros [= <-]; exact Hfree.
Qed.

(** Adding a sheet under a name that the workbook has taken keeps the
    names of the workbook distinct. *)
Lemma names_stay_distinct (workbook : list Worksheet) (v : value) (name : string)
    (ops : list op) :
  addWorksheet workbook v = Returned name ->
  NoDup (map toLowerCase (sheet_names workbook)) ->
  NoDup (map toLowerCase (sheet_names (workbook ++ [mkSheet (VStr name) ops]))).
Proof.
  intros Ha Hnd. apply addWorksheet_fresh in Ha.
  rewrite sheet_names_app, map_app. apply NoDup_app. split; [exact Hnd|]. split.
  - intros x Hx Hin. cbn in Hin. apply list_elem_of_singleton in Hin as ->. contradiction.
  - cbn. apply NoDup_singleton.
Qed.

Lemma plain_name_nonempty (s : string) : plain_name (truncated s) = true -> s <> "".
Proof. intros H ->. vm_compute in H. discriminate. Qed.

Lemma student_sheet_ready (workbook : list Worksheet) (doc : FirestoreDocument) (sr : value) :
  sheet_ready sr ->
  plain_name (sheet_label sr) = true ->
  read sr "student_name" = VStr (student_name_string sr) ->
  toLowerCase (sheet_label sr) ∉ map toLowerCase (sheet_names workbook) ->
  exists sheet,
    student_sheet workbook doc sr = Returned sheet
    /\ sheet_of_student doc sr sheet
    /\ sheet_name sheet = VStr (sheet_label sr).
Proof.
  intros (Hsr & _ & Hscores) Hplain Hname Hfree.
  destruct (standard_rows_defined sr Hscores) as [rows Hrows].
  pose proof (plain_name_nonempty _ Hplain) as Hne.
  assert (Hs : studentName sr = VStr (student_name_string sr)).
  { unfold studentName, or_else. rewrite Hname. cbn [truthy].
    destruct (String.eqb_spec (student_name_string sr) ""); [contradiction | reflexivity]. }
  unfold ExportExcel.student_sheet. rewrite (get_prop_defined _ _ Hsr). cbn [and_then].
  unfold studentName in Hs. rewrite Hs, sheetName_string. cbn [and_then].
  fold (sheet_label sr). rewrite (addWorksheet_plain _ _ Hplain Hfree). cbn [and_then].
  rewrite Hrows. cbn [and_then]. eexists. split; [reflexivity|]. split; [|reflexivity].
  exists (student_name_string sr), rows. repeat split. exact Hs.
Qed.

Lemma add_student_sheets_ready (doc : FirestoreDocument) (reports : list value)
    (workbook : list Worksheet) :
  Forall sheet_ready reports ->
  Forall (fun sr => plain_name (sheet_label sr) = true
                    /\ read sr "student_name" = VStr (student_name_string sr)) reports ->
  NoDup (map toLowerCase (sheet_names workbook ++ map sheet_label reports)%list) ->
  exists students,
    add_student_sheets ToNumber_other standardsData logoData doc reports workbook
    = Returned (workbook ++ students)%list
    /\ Forall2 (sheet_of_student doc) reports students
    /\ sheet_names students = map sheet_label reports.
Proof.
  revert workbook. induction reports as [|sr reports IH]; intros workbook Hready Hnamed Hnd.
  - exists []. rewrite app_nil_r. split; [reflexivity|]. split; [constructor | reflexivity].
  - apply Forall_cons in Hready as [Hsr Hready].
    apply Forall_cons in Hnamed as [[Hplain Hname] Hnamed].
    cbn [map] in Hnd.
    assert (Hfree : toLowerCase (sheet_label sr) ∉ map toLowerCase (sheet_names workbook)).
    { rewrite map_app in Hnd. apply NoDup_app in Hnd as (_ & Hdis & _).
      intros Hin. apply (Hdis _ Hin). cbn [map]. apply list_elem_of_here. }
    destruct (student_sheet_ready workbook doc sr Hsr Hplain Hname Hfree)
      as (sheet & Hsheet & Hof & Hlabel).
    destruct (IH (workbook ++ [sheet])%list Hready Hnamed) as (students & Hst & Hall & Hnames).
    { rewrite sheet_names_app. unfold sheet_names at 2. cbn [omap list_omap]. rewrite Hlabel.
      cbn. rewrite <- app_assoc. exact Hnd. }
    exists (sheet :: students). cbn [add_student_sheets]. rewrite Hsheet. cbn [and_then].
    rewrite Hst, <- app_assoc. split; [reflexivity|]. split; [constructor; assumption|].
    unfold sheet_names. cbn [omap list_omap]. rewrite Hlabel. cbn.
    fold (sheet_names students). rewrite Hnames. reflexivity.
Qed.

Lemma aggregate_rows_defined (doc : FirestoreDocument) :
  let standard_scores := field (data doc) "standard_scores" in
  Forall (fun score => nullish score = false) (elements standard_scores) ->
  exists rows,
    (if isArray standard_scores
     then map_outcome (aggregate_row standardsData doc) (elements standard_scores)
     else Returned []) = Returned rows
    /\ nonempty rows = aggregate_expected doc.
Proof.
  intros standard_scores H. unfold aggregate_expected. fold standard_scores.
  destruct (isArray standard_scores) eqn:Ea; cbn [andb].
  - destruct (map_outcome_total (aggregate_row standardsData doc) (elements standard_scores))
      as [rows Hrows].
    { eapply Forall_impl; [exact H|]. intros score Hs. unfold aggregate_row.
      rewrite (get_prop_defined _ _ Hs). cbn [and_then]. eexists; reflexivity. }
    exists rows. split; [exact Hrows|].
    apply nonempty_length. apply (map_outcome_length _ _ _ Hrows).
  - exists []. split; reflexivity.
Qed.

Lemma aggregate_sheets_defined (doc : FirestoreDocument) (workbook : list Worksheet) :
  let standard_scores := field (data doc) "standard_scores" in
  Forall (fun score => nullish score = false) (elements standard_scores) ->
  (aggregate_expected doc = true ->
   toLowerCase "Aggregate Standards" ∉ map toLowerCase (sheet_names workbook)) ->
  exists aggregate,
    aggregate_sheets doc workbook = Returned (workbook ++ aggregate)%list
    /\ if isArray standard_scores && nonempty (elements standard_scores)
       then exists ops, aggregate = [mkSheet (VStr "Aggregate Standards") ops]
       else aggregate = [].
Proof.
  intros standard_scores H Hfree. subst standard_scores.
  destruct (aggregate_rows_defined doc H) as (rows & Hrows & Hne).
  unfold ExportExcel.aggregate_sheets. cbv zeta. rewrite Hrows. cbn [and_then].
  rewrite Hne. unfold aggregate_expected in *.
  destruct (isArray (field (data doc) "standard_scores")
            && nonempty (elements (field (data doc) "standard_scores"))).
  - rewrite (addWorksheet_plain workbook "Aggregate Standards" eq_refl (Hfree eq_refl)).
    cbn [and_then]. eexists. split; [reflexivity|]. eexists; reflexivity.
  - exists []. rewrite app_nil_r. split; reflexivity.
Qed.

Lemma student_sheets_elements (doc : FirestoreDocument) (workbook : list Worksheet) :
  student_sheets doc workbook
  = add_student_sheets ToNumber_other standardsData logoData doc
      (elements (student_reports doc)) workbook.
Proof.
  unfold ExportExcel.student_sheets. fold (student_reports doc).
  destruct (student_reports doc); reflexivity.
Qed.

(** The sheets of a report whose names the workbook takes. *)
Lemma workbook_built (doc : FirestoreDocument) :
  let standard_scores := field (data doc) "standard_scores" in
  Forall sheet_ready (elements (student_reports doc)) ->
  names_accepted doc ->
  Forall (fun score => nullish score = false) (elements standard_scores) ->
  exists students aggregate,
    student_sheets doc [summary_sheet doc] = Returned (summary_sheet doc :: students)
    /\ aggregate_sheets doc (summary_sheet doc :: students)
       = Returned (summary_sheet doc :: students ++ aggregate)
    /\ Forall2 (sheet_of_student doc) (elements (student_reports doc)) students
    /\ if isArray standard_scores && nonempty (elements standard_scores)
       then exists ops, aggregate = [mkSheet (VStr "Aggregate Standards") ops]
       else aggregate = [].
Proof.
  intros standard_scores Hready [Hnamed Hnd] Hscores. subst standard_scores.
  unfold expected_names in Hnd. fold (student_reports doc) in Hnd, Hnamed.
  change ("Summary" :: map sheet_label (elements (student_reports doc))
          ++ (if aggregate_expected doc then ["Aggregate Standards"] else []))%list
    with ((["Summary"] ++ map sheet_label (elements (student_reports doc)))
          ++ (if aggregate_expected doc then ["Aggregate Standards"] else []))%list in Hnd.
  rewrite map_app in Hnd. apply NoDup_app in Hnd as (Hnd & Hdis & _).
  destruct (add_student_sheets_ready doc (elements (student_reports doc)) [summary_sheet doc]
              Hready Hnamed Hnd) as (students & Hst & Hall & Hnames).
  destruct (aggregate_sheets_defined doc (summary_sheet doc :: students) Hscores)
    as (aggregate & Hag & Hshape).
  { intros He Hin. apply (Hdis (toLowerCase "Aggregate Standards")).
    - change (summary_sheet doc :: students) with ([summary_sheet doc] ++ students)%list in Hin.
      rewrite sheet_names_app, Hnames in Hin. exact Hin.
    - rewrite He. apply list_elem_of_here. }
  exists students, aggregate. rewrite student_sheets_elements.
  split; [exact Hst|]. split; [exact Hag|]. split; assumption.
Qed.

Lemma selected_document_inv (docs : list FirestoreDocument) (doc : FirestoreDocument) :
  selected_document docs = Returned doc ->
  exists sortedDocs latestDoc,
    js_sort_m (compare_dates Date_parse Date_of_object) docs = Returned sortedDocs
    /\ first_document sortedDocs = Returned latestDoc
    /\ log_first_report_keys (data latestDoc) = Returned tt
    /\ documentToUse latestDoc sortedDocs = Returned doc.
Proof.
  unfold ExportExcel.selected_document.
  destruct (js_sort_m _ docs) as [sortedDocs|e]; cbn [and_then]; [|discriminate].
  destruct (first_document sortedDocs) as [latestDoc|e] eqn:E2; cbn [and_then];
    [|discriminate].
  destruct (log_first_report_keys (data latestDoc)) as [[]|e] eqn:E3; cbn [and_then];
    [|discriminate].
  intros H. exists sortedDocs, latestDoc.
  split; [reflexivity|]. split; [exact E2|]. split; [exact E3 | exact H].
Qed.

End Env.

Lemma log_first_report_keys_defined (doc : FirestoreDocument) :
  entries_defined doc -> log_first_report_keys (data doc) = Returned tt.
Proof.
  unfold entries_defined, student_reports, log_first_report_keys.
  destruct (field (data doc) "student_reports") as [| | | | | | |[|x l]|]; try reflexivity.
  cbn [elements]. intros H. apply Forall_cons in H as [-> _]. reflexivity.
Qed.

(** With valid dates and no [null] among the student reports, a
    document of the array is selected. *)
Lemma selected_document_returns
    (Date_parse : string -> time_value) (Date_of_object : value -> time_value)
    (date : FirestoreDocument -> Z) (docs : list FirestoreDocument) :
  docs <> [] ->
  dated Date_parse Date_of_object date docs ->
  Forall entries_defined docs ->
  exists doc, doc ∈ docs /\ selected_document Date_parse Date_of_object docs = Returned doc.
Proof.
  intros Hne Hdated Hdef.
  destruct (sorted_by_date Date_parse Date_of_object date docs Hdated) as (Hsort & Hperm & _).
  destruct (js_sort (by_date date) docs) as [|latest rest] eqn:Es.
  { symmetry in Hperm. apply Permutation_nil_r in Hperm. contradiction. }
  assert (Hdef' : Forall entries_defined (latest :: rest)) by (rewrite Hperm; exact Hdef).
  assert (Hlatest : entries_defined latest) by (apply Forall_cons in Hdef' as [H _]; exact H).
  unfold selected_document. rewrite Hsort. cbn [and_then first_document].
  rewrite (log_first_report_keys_defined _ Hlatest). cbn [and_then].
  rewrite (documentToUse_defined _ _ Hlatest Hdef').
  eexists. split; [|reflexivity].
  rewrite <- Hperm.
  destruct (lacks_scores latest); [|apply list_elem_of_here].
  destruct (List.find with_scores (latest :: rest)) as [c|] eqn:Ef; cbn [default];
    [|apply list_elem_of_here].
  apply find_some in Ef as [Hin _]. apply list_elem_of_In. exact Hin.
Qed.


Lemma scored_report_dated :
  dated sample_Date_parse sample_Date_of_object createdAt_time [scored_report].
Proof.
  intros d Hd. apply list_elem_of_singleton in Hd as ->. reflexivity.
Defined.

Lemma scored_report_names : names_accepted scored_report.
Proof.
  split.
  - apply Forall_cons_2; [split; vm_compute; reflexivity | apply Forall_nil_2].
  - apply (bool_decide_unpack _). vm_compute. exact I.
Defined.


Example coa_workbook_example :
  map (fun dl => (fst dl, map sheet_name (snd dl)))
    (downloads (trace (exportCOAReportsToExcel sample_Date_parse sample_Date_of_object sample_toLocaleString sample_ToNumber sample_standards false
                         sample_now [scored_report])))
  = [ ("COA_Reports_2026-01-01T10-20-30.xlsx", [VStr "Summary"; VStr "Ann"]) ].
Proof. vm_compute. reflexivity. Qed.

(** The workbook refuses the sheet of a student without a name, whose
    sheet would be called 'N/A', and the sheet of a second student of
    the same name: the export throws and downloads nothing. *)
Example refused_sheet_names :
  let export :=
    exportCOAReportsToExcel sample_Date_parse sample_Date_of_object sample_toLocaleString
      sample_ToNumber sample_standards false sample_now in
  (exists e, result (export [unnamed_report]) = Threw e)
  /\ downloads (trace (export [unnamed_report])) = []
  /\ (exists e, result (export [namesakes_report]) = Threw e)
  /\ downloads (trace (export [namesakes_report])) = [].
Proof.
  cbv zeta. split; [eexists; vm_compute; reflexivity|]. split; [vm_compute; reflexivity|].
  split; [eexists; vm_compute; reflexivity | vm_compute; reflexivity].
Qed.

Example truncated_example :
  truncated "Maximiliana Wolfeschlegelstein-Hausen"
  = "Maximiliana Wolfeschlegelste..."
  /\ truncated "A name of exactly 31 characters" = "A name of exactly 31 characters".
Proof. split; vm_compute; reflexivity. Qed.


End WorkbookSpec.

Module EmptyExportSpec.
Import Firestore ExportExcel.

(** C10.  Each export function, called with an empty documents array,
    shows an alert and returns: it creates no workbook and triggers no
    download.  So a run that triggers a download was given a non-empty
    array. *)
Theorem empty_export_only_alerts
    (Date_parse : string -> time_value) (Date_of_object : value -> time_value)
    (toLocaleString : time_value -> string) (ToNumber_other : value -> option Z)
    (ToString JSON_stringify : value -> string) (join_comma : list value -> string)
    (Object_keys : gmap string value -> list string)
    (standardsData : list (string * string)) (logoData : bool) (now_iso : string)
    (collectionName : string) :
  let coa :=
    exportCOAReportsToExcel Date_parse Date_of_object toLocaleString ToNumber_other
      standardsData logoData now_iso in
  let site :=
    exportSiteReportsToExcel Date_parse toLocaleString ToString join_comma logoData now_iso in
  let generic :=
    fun docs =>
      exportToExcel toLocaleString JSON_stringify Object_keys logoData now_iso docs
        collectionName in
  coa [] = IO [EAlert "No COA reports to export"] (Returned tt)
  /\ site []
     = IO [EAlert "No site reports available to export. Please generate some reports first."]
          (Returned tt)
  /\ generic [] = IO [EAlert ("No " +:+ collectionName +:+ " documents to export")] (Returned tt)
  /\ Forall (fun run => creates_workbook (trace run) = false /\ downloads (trace run) = [])
       [coa []; site []; generic []]
  /\ (forall docs, downloads (trace (coa docs)) <> [] -> docs <> [])
  /\ (forall docs, downloads (trace (site docs)) <> [] -> docs <> [])
  /\ (forall docs, downloads (trace (generic docs)) <> [] -> docs <> []).
Proof.
  intros coa site generic. subst coa site generic.
  split; [reflexivity|]. split; [reflexivity|]. split; [reflexivity|].
  split; [repeat (apply Forall_cons_2 || apply Forall_nil_2); split; reflexivity|].
  split; [|split]; intros docs Hd ->; apply Hd; reflexivity.
Qed.

Lemma empty_export_only_alerts_witness : [scored_report] <> [].
Proof.
  refine (proj1 (proj2 (proj2 (proj2 (proj2
            (empty_export_only_alerts sample_Date_parse sample_Date_of_object sample_toLocaleString
               sample_ToNumber sample_ToString sample_JSON_stringify sample_join
               sample_Object_keys sample_standards false sample_now
               "agent_coa_reports")))))
            [scored_report] _).
  vm_compute. discriminate.
Defined.

Example generic_export_example :
  map (fun dl => (fst dl, map sheet_name (snd dl)))
    (downloads (trace (exportToExcel sample_toLocaleString sample_JSON_stringify
                         sample_Object_keys false sample_now [scored_report]
                         "agent_coa_reports")))
  = [ ("agent_coa_reports_2026-01-01T10-20-30.xlsx", [VStr "coa_reports"]) ].
Proof. vm_compute. reflexivity. Qed.

Example site_export_example :
  map (fun dl => (fst dl, map sheet_name (snd dl)))
    (downloads (trace (exportSiteReportsToExcel sample_Date_parse sample_toLocaleString
                         sample_ToString sample_join false
                         sample_now [scored_report])))
  = [ ("Site_Report_2026-01-01T10-20-30.xlsx",
       [VStr "Summary"; VStr "Sites"; VStr "Preceptors"]) ].
Proof. vm_compute. reflexivity. Qed.

End EmptyExportSpec.

(** ** Traces *)

Lemma trace_bind {E A B} (m : io E A) (f : A -> io E B) :
  trace (bind m f)
  = (trace m ++ match result m with
                | Returned a => trace (f a)
                | Threw _ => []
                end)%list.
Proof. unfold bind. destruct (result m); cbn [trace]; rewrite ?app_nil_r; reflexivity. Qed.

Lemma trace_try_catch {E A} (m : io E A) (h : js_error -> io E A) :
  trace (try_catch m h)
  = (trace m ++ match result m with
                | Returned _ => []
                | Threw e => trace (h e)
                end)%list.
Proof. unfold try_catch. destruct (result m); cbn [trace]; rewrite ?app_nil_r; reflexivity. Qed.

Lemma result_lift {E F A} (f : E -> F) (m : io E A) : result (lift f m) = result m.
Proof. reflexivity. Qed.

Lemma trace_lift {E F A} (f : E -> F) (m : io E A) : trace (lift f m) = map f (trace m).
Proof. reflexivity. Qed.

Ltac io_trace :=
  repeat (rewrite trace_bind; cbn [trace result emit await ret throw when]).

(** What a projection [omap f] of the events keeps of a sequence. *)
Lemma omap_trace_bind {E X A B} (f : E -> option X) (m : io E A) (k : A -> io E B) :
  omap f (trace (bind m k))
  = (omap f (trace m) ++ match result m with
                         | Returned a => omap f (trace (k a))
                         | Threw _ => []
                         end)%list.
Proof. rewrite trace_bind, omap_app. destruct (result m); reflexivity. Qed.

Lemma omap_trace_try_catch {E X A} (f : E -> option X) (m : io E A) (h : js_error -> io E A) :
  omap f (trace (try_catch m h))
  = (omap f (trace m) ++ match result m with
                         | Returned _ => []
                         | Threw e => omap f (trace (h e))
                         end)%list.
Proof. rewrite trace_try_catch, omap_app. destruct (result m); reflexivity. Qed.

Lemma omap_trace_emit {E X} (f : E -> option X) (e : E) :
  omap f (trace (emit e)) = match f e with Some x => [x] | None => [] end.
Proof. cbn. destruct (f e); reflexivity. Qed.

Lemma omap_trace_await {E X A} (f : E -> option X) (p : outcome A) :
  omap f (trace (await (E:=E) p)) = [].
Proof. reflexivity. Qed.

Lemma omap_trace_ret {E X A} (f : E -> option X) (a : A) :
  omap f (trace (ret (E:=E) a)) = [].
Proof. reflexivity. Qed.

Lemma omap_trace_throw {E X A} (f : E -> option X) (e : js_error) :
  omap f (trace (throw (E:=E) (A:=A) e)) = [].
Proof. reflexivity. Qed.

Lemma omap_trace_when {E X} (f : E -> option X) (b : bool) (m : io E unit) :
  omap f (trace (when b m)) = if b then omap f (trace m) else [].
Proof. destruct b; reflexivity. Qed.

Lemma result_when {E} (b : bool) (e : E) : result (when b (emit e)) = Returned tt.
Proof. destruct b; reflexivity. Qed.

(** Rewriting a projection of a trace along the structure of the
    computation. *)
Ltac io_project :=
  repeat first
    [ rewrite omap_trace_bind
    | rewrite omap_trace_try_catch
    | rewrite omap_trace_emit
    | rewrite omap_trace_await
    | rewrite omap_trace_ret
    | rewrite omap_trace_throw
    | rewrite omap_trace_when
    | rewrite result_when
    | rewrite result_bind
    | rewrite result_try_catch
    | progress cbn [result emit await ret throw app] ].

(** ** Failures of the REST client *)

Module ApiFailures.
Import Api ApiSpec.

Lemma cors_error_message (window_origin : option string) :
  exists msg,
    cors_error window_origin = Error msg
    /\ String.prefix "CORS_ERROR" msg = true
    /\ includes "CORS_ERROR" msg = true
    /\ includes (default "unknown" window_origin) msg = true.
Proof.
  unfold cors_error, frontendOrigin. eexists. split; [reflexivity|]. split; [|split].
  - apply (prefix_app "CORS_ERROR").
  - apply includes_prefix. apply (prefix_app "CORS_ERROR").
  - apply (includes_app _
             "CORS_ERROR: Backend server is not configured to allow requests from origin: ").
Qed.

(** X1.  When the request itself fails (the promise of [fetch] is
    rejected), [fetchWithErrorHandling] throws.  A rejection whose
    message mentions 'Failed to fetch' (what browsers report for a
    blocked or unreachable request), 'CORS' or 'ERR_CONNECTION_RESET'
    is replaced by an [Error] whose message starts with 'CORS_ERROR' and
    names the origin of the page ('unknown' when there is no window);
    every other rejection is rethrown as it is. *)
Theorem network_failure_classified
    (DEV : bool) (window_origin : option string)
    (network : string -> RequestInit -> outcome Response)
    (url : string) (options : option RequestInit) (e : js_error) :
  network url (with_cors options) = Threw e ->
  let run := fetchWithErrorHandling DEV window_origin network url options in
  (includes "Failed to fetch" (err_message e) = true
   \/ includes "CORS" (err_message e) = true
   \/ includes "ERR_CONNECTION_RESET" (err_message e) = true ->
   exists msg,
     result run = Threw (Error msg)
     /\ String.prefix "CORS_ERROR" msg = true
     /\ includes (default "unknown" window_origin) msg = true)
  /\ (includes "Failed to fetch" (err_message e) = false ->
      includes "CORS" (err_message e) = false ->
      includes "ERR_CONNECTION_RESET" (err_message e) = false ->
      result run = Threw e).
Proof.
  intros Hn run. subst run. rewrite fetchWithErrorHandling_result, Hn. unfold rethrown.
  split.
  - intros H. assert (Hc : looks_like_cors e = true).
    { unfold looks_like_cors. destruct H as [H|[H|H]]; rewrite H;
        rewrite ?orb_true_r; reflexivity. }
    rewrite Hc. destruct (cors_error_message window_origin) as (msg & -> & Hp & _ & Ho).
    exists msg. repeat split; assumption.
  - intros H1 H2 H3. unfold looks_like_cors. rewrite H1, H2, H3.
    rewrite andb_false_r. reflexivity.
Qed.

Lemma network_failure_classified_witness :
  exists msg,
    result (fetchWithErrorHandling false (Some "http://localhost:5173")
              (fun _ _ => Threw (TypeError "Failed to fetch"))
              "https://api.example/health" None)
    = Threw (Error msg)
    /\ String.prefix "CORS_ERROR" msg = true
    /\ includes "http://localhost:5173" msg = true.
Proof.
  apply (proj1 (network_failure_classified false (Some "http://localhost:5173")
                  (fun _ _ => Threw (TypeError "Failed to fetch"))
                  "https://api.example/health" None (TypeError "Failed to fetch") eq_refl)).
  left. reflexivity.
Defined.

(** X2.  In a production build ([import.meta.env.DEV] is false) a call
    of [fetchWithErrorHandling] writes nothing to the console, whatever
    the network answers: its only effect is the one request, which asks
    for CORS mode, sends no credentials, and has the method and headers
    of the caller's options. *)
Theorem production_call_is_silent
    (window_origin : option string)
    (network : string -> RequestInit -> outcome Response)
    (url : string) (options : option RequestInit) :
  let init := with_cors options in
  trace (fetchWithErrorHandling false window_origin network url options) = [EFetch url init]
  /\ init_mode init = Some "cors"
  /\ init_credentials init = Some "omit"
  /\ init_method init = options ≫= init_method
  /\ init_headers init = default [] (init_headers <$> options).
Proof.
  cbv zeta. split.
  - unfold fetchWithErrorHandling, fetch, DEBUG. cbn.
    destruct (network url (with_cors options)) as [r|e]; cbn; [|reflexivity].
    destruct (ok r); cbn; [destruct (json r); reflexivity|].
    destruct (text r); reflexivity.
  - destruct options; repeat split.
Qed.

End ApiFailures.

(** ** One-shot queries *)

Module QuerySpec.
Import Firestore FirestoreQueries FirestoreSpec FirestoreOrder.

Section Queries.
Variable Date_parse : string -> time_value.
Variable Date_of_object : value -> time_value.
Variable sdk_query : string -> Z -> outcome unit.
Variable getDocs : string -> Z -> outcome (list QueryDocumentSnapshot).

Local Abbreviation to_document := (to_document Date_parse Date_of_object).
Local Abbreviation snapshotToDocuments := (snapshotToDocuments Date_parse Date_of_object).
Local Abbreviation getCollection :=
  (getCollection Date_parse Date_of_object sdk_query getDocs).

Lemma conversion_asks_nothing (snap : list QueryDocumentSnapshot) :
  getDocs_calls
    (trace (map_io (fun doc =>
                      emit (EConsoleLog ("[Firestore] Processing document " +:+ doc_id doc)) ;;;
                      await (to_document doc)) snap))
  = [].
Proof.
  unfold getDocs_calls.
  induction snap as [|doc snap IH]; cbn [map_io]; [reflexivity|].
  io_project. destruct (to_document doc) as [d|e]; [|reflexivity].
  io_project. rewrite IH. destruct (result (map_io _ snap)); reflexivity.
Qed.

Lemma conversion_builds_nothing (snap : list QueryDocumentSnapshot) :
  queries_built
    (trace (map_io (fun doc =>
                      emit (EConsoleLog ("[Firestore] Processing document " +:+ doc_id doc)) ;;;
                      await (to_document doc)) snap))
  = [].
Proof.
  unfold queries_built.
  induction snap as [|doc snap IH]; cbn [map_io]; [reflexivity|].
  io_project. destruct (to_document doc) as [d|e]; [|reflexivity].
  io_project. rewrite IH. destruct (result (map_io _ snap)); reflexivity.
Qed.

Local Abbreviation asked := (asked sdk_query).

Lemma getCollection_calls (collectionName : string) (limitCount : option Z) :
  getDocs_calls (trace (getCollection collectionName limitCount))
  = asked collectionName (default 50 limitCount).
Proof.
  pose proof conversion_asks_nothing as Hc.
  unfold asked, getDocs_calls in *. unfold Firestore.getCollection.
  io_project.
  destruct (sdk_query collectionName (default 50 limitCount)) as [[]|e].
  - io_project.
    destruct (getDocs collectionName (default 50 limitCount)) as [snap|e].
    + io_project. rewrite Hc, map_io_logged_result.
      destruct (map_outcome to_document snap) as [docs|e].
      * io_project. reflexivity.
      * io_project.
        destruct (bool_decide (err_code e = Some "permission-denied")); reflexivity.
    + io_project.
      destruct (bool_decide (err_code e = Some "permission-denied")); reflexivity.
  - io_project.
    destruct (bool_decide (err_code e = Some "permission-denied")); reflexivity.
Qed.

Lemma getCollection_queries (collectionName : string) (limitCount : option Z) :
  queries_built (trace (getCollection collectionName limitCount))
  = [(collectionName, default 50 limitCount)].
Proof.
  pose proof conversion_builds_nothing as Hc.
  unfold queries_built in *. unfold Firestore.getCollection.
  io_project.
  destruct (sdk_query collectionName (default 50 limitCount)) as [[]|e].
  - io_project.
    destruct (getDocs collectionName (default 50 limitCount)) as [snap|e].
    + io_project. rewrite Hc, map_io_logged_result.
      destruct (map_outcome to_document snap) as [docs|e].
      * io_project. reflexivity.
      * io_project.
        destruct (bool_decide (err_code e = Some "permission-denied")); reflexivity.
    + io_project.
      destruct (bool_decide (err_code e = Some "permission-denied")); reflexivity.
  - io_project.
    destruct (bool_decide (err_code e = Some "permission-denied")); reflexivity.
Qed.

Lemma getCollection_settles (collectionName : string) (limitCount : option Z) :
  result (getCollection collectionName limitCount)
  = match sdk_query collectionName (default 50 limitCount) with
    | Threw e => Threw (reported_error collectionName e)
    | Returned _ =>
        match getDocs collectionName (default 50 limitCount) with
        | Threw e => Threw (reported_error collectionName e)
        | Returned snap =>
            match snapshotToDocuments snap with
            | Returned out => Returned out
            | Threw e => Threw (reported_error collectionName e)
            end
        end
    end.
Proof.
  unfold Firestore.getCollection, reported_error. rewrite result_try_catch. io_result.
  destruct (sdk_query collectionName (default 50 limitCount)) as [[]|e].
  - io_result.
    destruct (getDocs collectionName (default 50 limitCount)) as [snap|e].
    + io_result. rewrite map_io_logged_result. unfold Firestore.snapshotToDocuments.
      destruct (map_outcome to_document snap) as [docs|e]; cbn [and_then].
      * io_result. reflexivity.
      * io_result. destruct (bool_decide (err_code e = Some "permission-denied")); reflexivity.
    + io_result. destruct (bool_decide (err_code e = Some "permission-denied")); reflexivity.
  - io_result. destruct (bool_decide (err_code e = Some "permission-denied")); reflexivity.
Qed.

End Queries.

(** X3.  [getCollection] builds one query, on the given collection with
    the given limit (50 when absent), and asks the document store at
    most once: exactly once, with that query, when the SDK builds the
    query, and not at all when building the query throws.  It returns
    what [snapshotToDocuments] makes of the snapshot, and it throws
    when building the query throws, when the store's answer is an
    error, or when the conversion of a document throws: a
    permission-denied error as a new error that names the collection,
    any other error as it is.  The four [getRecent...] helpers are that
    one call on their collection, with limit 20 when absent. *)
Theorem getCollection_asks_once
    (Date_parse : string -> time_value) (Date_of_object : value -> time_value)
    (sdk_query : string -> Z -> outcome unit)
    (getDocs : string -> Z -> outcome (list QueryDocumentSnapshot))
    (collectionName : string) (limitCount : option Z) :
  let run :=
    getCollection Date_parse Date_of_object sdk_query getDocs collectionName limitCount in
  let n := default 50 limitCount in
  let recent := default 20 limitCount in
  let queried (m : io event (list FirestoreDocument)) c :=
    queries_built (trace m) = [(c, recent)]
    /\ getDocs_calls (trace m) = asked sdk_query c recent in
  queries_built (trace run) = [(collectionName, n)]
  /\ getDocs_calls (trace run) = asked sdk_query collectionName n
  /\ result run
     = match sdk_query collectionName n with
       | Threw e => Threw (reported_error collectionName e)
       | Returned _ =>
           match getDocs collectionName n with
           | Threw e => Threw (reported_error collectionName e)
           | Returned snap =>
               match snapshotToDocuments Date_parse Date_of_object snap with
               | Returned out => Returned out
               | Threw e => Threw (reported_error collectionName e)
               end
           end
       end
  /\ (forall e, err_code e = Some "permission-denied" ->
        reported_error collectionName e = Error (permission_denied_message collectionName)
        /\ includes collectionName (permission_denied_message collectionName) = true)
  /\ (forall e, err_code e <> Some "permission-denied" -> reported_error collectionName e = e)
  /\ queried (getRecentEvaluations Date_parse Date_of_object sdk_query getDocs limitCount)
       "agent_evaluations"
  /\ queried (getRecentScenarios Date_parse Date_of_object sdk_query getDocs limitCount)
       "agent_scenarios"
  /\ queried (getRecentNotifications Date_parse Date_of_object sdk_query getDocs limitCount)
       "agent_notifications"
  /\ queried (getRecentCOAReports Date_parse Date_of_object sdk_query getDocs limitCount)
       "agent_coa_reports".
Proof.
  cbv zeta. split; [apply getCollection_queries|]. split; [apply getCollection_calls|].
  split; [apply getCollection_settles|]. split; [|split].
  - intros e He. unfold reported_error. rewrite bool_decide_eq_true_2 by exact He.
    split; [reflexivity | apply ListenerSpec.permission_denied_message_names].
  - intros e He. unfold reported_error. rewrite bool_decide_eq_false_2 by exact He. reflexivity.
  - repeat split; first [apply getCollection_queries | apply getCollection_calls].
Qed.

End QuerySpec.

(** ** More on sorting *)

Module SortMore.
Import SortFacts.

Section Pure.
Context {A : Type} (cmp : A -> A -> option Z) (key : A -> Z).

(** Sorting a list that is already in order leaves it as it is. *)
Lemma js_sort_sorted_id (l : list A) :
  by_key_desc cmp key l ->
  StronglySorted (fun a b => key b <= key a) l ->
  js_sort cmp l = l.
Proof.
  induction l as [|x l IH]; intros Hc Hs; cbn [js_sort]; [reflexivity|].
  apply StronglySorted_cons in Hs as [Hx Hl].
  rewrite IH; [|intros a b Ha Hb; apply Hc; set_solver | exact Hl].
  destruct l as [|y l]; cbn [insert_sorted]; [reflexivity|].
  rewrite (Hc x y) by set_solver. cbn [sorts_after].
  apply Forall_cons in Hx as [Hxy _].
  destruct (Z.ltb_spec 0 (key y - key x)); [lia | reflexivity].
Qed.

(** The sort is stable: the elements of a given key keep their
    order. *)
Lemma insert_sorted_filter (t : Z) (x : A) (l : list A) :
  by_key_desc cmp key (x :: l) ->
  filter (fun a => key a = t) (insert_sorted cmp x l) = filter (fun a => key a = t) (x :: l).
Proof.
  induction l as [|y l IH]; intros Hc; cbn [insert_sorted]; [reflexivity|].
  rewrite (Hc x y) by set_solver. cbn [sorts_after].
  destruct (Z.ltb_spec 0 (key y - key x)) as [Hlt|Hge]; [|reflexivity].
  rewrite filter_cons, IH by (intros a b Ha Hb; apply Hc; set_solver).
  rewrite !filter_cons.
  destruct (decide (key y = t)) as [Hy|Hy], (decide (key x = t)) as [Hx|Hx];
    try reflexivity.
  lia.
Qed.

Lemma js_sort_filter (t : Z) (l : list A) :
  by_key_desc cmp key l ->
  filter (fun a => key a = t) (js_sort cmp l) = filter (fun a => key a = t) l.
Proof.
  induction l as [|x l IH]; intros Hc; cbn [js_sort]; [reflexivity|].
  rewrite insert_sorted_filter.
  - rewrite !filter_cons, IH by (intros a b Ha Hb; apply Hc; set_solver). reflexivity.
  - intros a b Ha Hb. apply Hc.
    + apply elem_of_cons in Ha as [->|Ha]; [set_solver|].
      rewrite js_sort_perm in Ha. set_solver.
    + apply elem_of_cons in Hb as [->|Hb]; [set_solver|].
      rewrite js_sort_perm in Hb. set_solver.
Qed.

End Pure.

Section Throwing.
Context {A : Type} (cmp : A -> A -> outcome (option Z)).

(** A sort that returns, returns a permutation. *)
Lemma insert_sorted_m_perm (x : A) (l r : list A) :
  insert_sorted_m cmp x l = Returned r -> r ≡ₚ x :: l.
Proof.
  revert r. induction l as [|y l IH]; cbn [insert_sorted_m]; intros r H.
  - injection H as <-. reflexivity.
  - destruct (cmp x y) as [c|e]; cbn [and_then] in H; [|discriminate].
    destruct (sorts_after c).
    + destruct (insert_sorted_m cmp x l) as [r'|e]; cbn [and_then] in H; [|discriminate].
      injection H as <-. rewrite (IH r' eq_refl). apply Permutation_swap.
    + injection H as <-. reflexivity.
Qed.

Lemma js_sort_m_perm (l r : list A) : js_sort_m cmp l = Returned r -> r ≡ₚ l.
Proof.
  revert r. induction l as [|x l IH]; cbn [js_sort_m]; intros r H.
  - injection H as <-. reflexivity.
  - destruct (js_sort_m cmp l) as [r'|e]; cbn [and_then] in H; [|discriminate].
    rewrite (insert_sorted_m_perm _ _ _ H), (IH r' eq_refl). reflexivity.
Qed.

End Throwing.

End SortMore.

(** ** What the conversion stores, and what the exports make of it *)

Module ConversionSpec.
Import Firestore FirestoreQueries FirestoreSpec FirestoreOrder SortFacts SortMore.

Lemma toDate_opt_free (v d : value) : toDate_opt v = Returned d -> toDate_free d.
Proof.
  destruct v; cbn; try (intros [= <-]; exact I).
  destruct (nullish _); [|discriminate]. intros [= <-]. exact I.
Qed.

Lemma toDate_opt_raw_free (v x : value) :
  toDate_opt v = Returned x -> truthy x = false -> toDate_free v.
Proof.
  destruct v; cbn; try (intros _ _; exact I).
  - intros [= <-]. discriminate.
  - destruct (nullish _) eqn:E; [|discriminate]. intros _ _. reflexivity.
Qed.

Lemma or_else_free (a b : value) : toDate_free a -> toDate_free b -> toDate_free (or_else a b).
Proof. unfold or_else. destruct (truthy a); auto. Qed.

Lemma createdAtTimestamp_free (data : gmap string value) (ts : value) :
  createdAtTimestamp data = Returned ts -> toDate_free ts.
Proof.
  unfold createdAtTimestamp. intros H.
  apply or_else_lazy_inv in H as [[H1 _]|(x1 & H1 & F1 & H)].
  { exact (toDate_opt_free _ _ H1). }
  apply or_else_lazy_inv in H as [[H2 _]|(x2 & H2 & F2 & H)].
  { exact (toDate_opt_free _ _ H2). }
  injection H as <-.
  apply or_else_free; eapply toDate_opt_raw_free; eassumption.
Qed.

Lemma updatedAtTimestamp_free (data : gmap string value) (ts : value) :
  updatedAtTimestamp data = Returned ts -> toDate_free ts.
Proof.
  unfold updatedAtTimestamp. intros H.
  apply or_else_lazy_inv in H as [[H1 _]|(x1 & H1 & F1 & H)].
  { exact (toDate_opt_free _ _ H1). }
  apply or_else_lazy_inv in H as [[H2 _]|(x2 & H2 & F2 & H)].
  { exact (toDate_opt_free _ _ H2). }
  apply or_else_lazy_inv in H as [[H3 _]|(x3 & H3 & F3 & H)].
  { exact (toDate_opt_free _ _ H3). }
  injection H as <-.
  repeat apply or_else_free; eapply toDate_opt_raw_free; eassumption.
Qed.

Section Dates.
Variable Date_parse : string -> time_value.
Variable Date_of_object : value -> time_value.

Local Abbreviation to_document := (to_document Date_parse Date_of_object).
Local Abbreviation snapshotToDocuments := (snapshotToDocuments Date_parse Date_of_object).
Local Abbreviation date_if_truthy := (date_if_truthy Date_parse Date_of_object).

Local Abbreviation dates_stored := (dates_stored Date_parse Date_of_object).

Lemma to_document_dates (raw : QueryDocumentSnapshot) (d : FirestoreDocument) :
  to_document raw = Returned d -> dates_stored d.
Proof.
  unfold Firestore.to_document, FirestoreQueries.dates_stored.
  destruct (createdAtTimestamp (doc_data raw)) as [cts|e] eqn:Ec; cbn [and_then];
    [|discriminate].
  destruct (updatedAtTimestamp (doc_data raw)) as [uts|e] eqn:Eu; cbn [and_then];
    [|discriminate].
  intros [= <-]. cbn [data createdAt updatedAt]. unfold field.
  rewrite lookup_insert_eq.
  rewrite !(lookup_insert_ne _ "updatedAt") by congruence.
  rewrite lookup_insert_eq.
  rewrite !(lookup_insert_ne _ "createdAt") by congruence.
  rewrite lookup_insert_eq.
  rewrite !(lookup_insert_ne _ "modified_at") by congruence.
  rewrite lookup_insert_eq. cbn [default].
  repeat split.
  - exact (createdAtTimestamp_free _ _ Ec).
  - exact (updatedAtTimestamp_free _ _ Eu).
Qed.

Lemma produced_dates (snap : list QueryDocumentSnapshot) (out : list FirestoreDocument) :
  snapshotToDocuments snap = Returned out -> Forall dates_stored out.
Proof.
  intros H. apply Forall_forall. intros d Hd.
  destruct (snapshotToDocuments_sources _ _ _ _ H) as [Hfrom _].
  destruct (Hfrom d Hd) as (raw & _ & Hconv).
  exact (to_document_dates _ _ Hconv).
Qed.

End Dates.

(** X4.  Every document that [snapshotToDocuments] produces carries its
    dates twice, and consistently: [data.createdAt] and
    [data.updatedAt] are the [Date]s of the top-level [createdAt] and
    [updatedAt] ([undefined] when those are); [data.created_at] and
    [data.modified_at] hold the timestamps the dates were made of, so
    [createdAt] is defined exactly when [data.created_at] is truthy;
    and neither of the two is a Firestore [Timestamp] any more (none
    has a [toDate]): Timestamps have been replaced by [Date]s. *)
Theorem conversion_stores_dates
    (Date_parse : string -> time_value) (Date_of_object : value -> time_value)
    (snap : list QueryDocumentSnapshot) (out : list FirestoreDocument) :
  snapshotToDocuments Date_parse Date_of_object snap = Returned out ->
  Forall (fun d =>
            field (data d) "createdAt" = date_value (createdAt d)
            /\ field (data d) "updatedAt" = date_value (updatedAt d)
            /\ createdAt d
               = date_if_truthy Date_parse Date_of_object (field (data d) "created_at")
            /\ updatedAt d
               = date_if_truthy Date_parse Date_of_object (field (data d) "modified_at")
            /\ (is_Some (createdAt d) <-> truthy (field (data d) "created_at") = true)
            /\ toDate_free (field (data d) "created_at")
            /\ toDate_free (field (data d) "modified_at"))
         out.
Proof.
  intros H. eapply Forall_impl; [exact (produced_dates _ _ _ _ H)|].
  intros d (H1 & H2 & H3 & H4 & H5 & H6). repeat split; try assumption.
  - rewrite H3. apply date_if_truthy_Some.
  - rewrite H3. apply date_if_truthy_Some.
Qed.

Lemma conversion_stores_dates_witness :
  exists out,
    snapshotToDocuments sample_Date_parse sample_Date_of_object three_stamped = Returned out
    /\ Forall (fun d => toDate_free (field (data d) "created_at")) out.
Proof.
  eexists. split; [vm_compute; reflexivity|].
  eapply Forall_impl;
    [exact (conversion_stores_dates sample_Date_parse sample_Date_of_object three_stamped
              _ eq_refl)|].
  intros d H. exact (proj1 (proj2 (proj2 (proj2 (proj2 (proj2 H)))))).
Defined.

Section Order.
Variable Date_parse : string -> time_value.
Variable Date_of_object : value -> time_value.

Local Abbreviation dates_stored := (dates_stored Date_parse Date_of_object).
Local Abbreviation getDate := (ExportExcel.getDate Date_parse Date_of_object).
Local Abbreviation compare_dates := (ExportExcel.compare_dates Date_parse Date_of_object).

(** On a converted document the two date readers of the exports do
    not throw, and give its [createdAt], or the epoch. *)
Lemma getDate_stored (d : FirestoreDocument) :
  dates_stored d -> getDate d = Returned (createdAt_or_epoch d).
Proof.
  intros (_ & _ & Hc & _). unfold ExportExcel.getDate, createdAt_or_epoch.
  destruct (createdAt d) as [t|] eqn:E; [reflexivity|].
  unfold date_if_truthy in Hc.
  destruct (truthy (field (data d) "created_at")); [discriminate | reflexivity].
Qed.

Lemma site_date_stored (d : FirestoreDocument) :
  dates_stored d -> ExportExcel.site_date d = Returned (createdAt_or_epoch d).
Proof.
  intros (_ & _ & _ & _ & Hf & _). unfold ExportExcel.site_date, createdAt_or_epoch.
  destruct (field (data d) "created_at") as [| | | | | | | |o]; try reflexivity.
  - contradiction.
  - cbn in Hf. destruct (field o "toDate"); try discriminate; reflexivity.
Qed.

Lemma compare_dates_stored (docs : list FirestoreDocument) :
  Forall dates_stored docs -> agrees_on compare_dates by_createdAt docs.
Proof.
  rewrite Forall_forall. intros H a b Ha Hb. unfold ExportExcel.compare_dates.
  rewrite (getDate_stored a (H a Ha)), (getDate_stored b (H b Hb)). reflexivity.
Qed.

Lemma compare_site_dates_stored (docs : list FirestoreDocument) :
  Forall dates_stored docs -> agrees_on ExportExcel.compare_site_dates by_createdAt docs.
Proof.
  rewrite Forall_forall. intros H a b Ha Hb. unfold ExportExcel.compare_site_dates.
  rewrite (site_date_stored a (H a Ha)), (site_date_stored b (H b Hb)). reflexivity.
Qed.

Lemma by_createdAt_valid (docs : list FirestoreDocument) :
  Forall valid_createdAt docs -> by_key_desc by_createdAt createdAt_time docs.
Proof.
  rewrite Forall_forall. intros H a b Ha Hb.
  destruct (H a Ha) as [x Hx], (H b Hb) as [y Hy].
  unfold by_createdAt, createdAt_or_epoch, createdAt_time. rewrite Hx, Hy. reflexivity.
Qed.

Lemma sort_if_dated_by_time (docs : list FirestoreDocument) :
  Forall valid_createdAt docs ->
  sort_if_dated docs = js_sort compare_createdAt docs
  /\ by_key_desc compare_createdAt createdAt_time docs.
Proof.
  intros Hv. split.
  - unfold sort_if_dated.
    assert (Hall : every_createdAt docs = true).
    { apply every_createdAt_true. eapply Forall_impl; [exact Hv|].
      intros d [t ->]. eexists; reflexivity. }
    rewrite Hall. reflexivity.
  - rewrite Forall_forall in Hv. intros a b Ha Hb. apply compare_createdAt_valid; auto.
Qed.

End Order.

(** X5.  The exports accept what the service produces.  On the
    documents of a converted snapshot, the date comparators of
    [exportCOAReportsToExcel] and of [exportSiteReportsToExcel] never
    throw: each reads a document's date as its [createdAt], or as the
    epoch when it has none, so both sorts return a permutation of the
    list.  When every [createdAt] is a valid date the list is already
    in the exports' order: their sort returns it unchanged, and the
    latest report of the export is the first document of the list. *)
Theorem exports_sort_converted_documents
    (Date_parse : string -> time_value) (Date_of_object : value -> time_value)
    (snap : list QueryDocumentSnapshot) (out : list FirestoreDocument) :
  snapshotToDocuments Date_parse Date_of_object snap = Returned out ->
  let compare_dates := ExportExcel.compare_dates Date_parse Date_of_object in
  Forall (fun d =>
            ExportExcel.getDate Date_parse Date_of_object d = Returned (createdAt_or_epoch d)
            /\ ExportExcel.site_date d = Returned (createdAt_or_epoch d)) out
  /\ (exists sorted, js_sort_m compare_dates out = Returned sorted /\ sorted ≡ₚ out)
  /\ (exists sorted,
        js_sort_m ExportExcel.compare_site_dates out = Returned sorted /\ sorted ≡ₚ out)
  /\ (Forall valid_createdAt out ->
      js_sort_m compare_dates out = Returned out
      /\ js_sort_m ExportExcel.compare_site_dates out = Returned out
      /\ forall latest rest, out = latest :: rest ->
           ExportExcel.first_document out = Returned latest
           /\ Forall (fun d => createdAt_time d <= createdAt_time latest) rest).
Proof.
  intros H compare_dates. subst compare_dates.
  pose proof (produced_dates _ _ _ _ H) as Hst.
  split; [|split; [|split]].
  - eapply Forall_impl; [exact Hst|]. intros d Hd.
    split; [eapply getDate_stored | eapply site_date_stored]; exact Hd.
  - rewrite (js_sort_m_pure _ _ _ (compare_dates_stored _ _ _ Hst)).
    eexists. split; [reflexivity | apply js_sort_perm].
  - rewrite (js_sort_m_pure _ _ _ (compare_site_dates_stored _ _ _ Hst)).
    eexists. split; [reflexivity | apply js_sort_perm].
  - intros Hv.
    apply snapshotToDocuments_inv in H as (docs & _ & -> & _).
    assert (Hvd : Forall valid_createdAt docs).
    { rewrite <- (sort_if_dated_perm docs). exact Hv. }
    destruct (sort_if_dated_by_time docs Hvd) as [Heq Hkey].
    assert (Hsorted : StronglySorted (fun a b => createdAt_time b <= createdAt_time a)
                        (sort_if_dated docs)).
    { rewrite Heq. apply js_sort_sorted. exact Hkey. }
    assert (Hid : js_sort by_createdAt (sort_if_dated docs) = sort_if_dated docs).
    { apply (js_sort_sorted_id _ createdAt_time); [|exact Hsorted].
      apply by_createdAt_valid. exact Hv. }
    rewrite (js_sort_m_pure _ _ _ (compare_dates_stored _ _ _ Hst)).
    rewrite (js_sort_m_pure _ _ _ (compare_site_dates_stored _ _ _ Hst)).
    rewrite Hid. split; [reflexivity|]. split; [reflexivity|].
    intros latest rest Hout. rewrite Hout in Hsorted |- *. split; [reflexivity|].
    apply StronglySorted_cons in Hsorted as [Hl _]. exact Hl.
Qed.

Lemma exports_sort_converted_documents_witness :
  exists out,
    snapshotToDocuments sample_Date_parse sample_Date_of_object three_stamped = Returned out
    /\ js_sort_m (ExportExcel.compare_dates sample_Date_parse sample_Date_of_object) out
       = Returned out.
Proof.
  eexists. split; [vm_compute; reflexivity|].
  refine (proj1 (proj2 (proj2 (proj2
            (exports_sort_converted_documents sample_Date_parse sample_Date_of_object
               three_stamped _ eq_refl))) _)).
  repeat (apply Forall_cons_2 || apply Forall_nil_2); eexists; reflexivity.
Defined.

(** X6.  The sort of [snapshotToDocuments] is stable: when every
    converted document has a valid [createdAt], the documents created
    at one and the same time stay in the order in which the snapshot
    delivered them. *)
Theorem equal_dates_keep_snapshot_order
    (Date_parse : string -> time_value) (Date_of_object : value -> time_value)
    (snap : list QueryDocumentSnapshot) (docs out : list FirestoreDocument) (t : Z) :
  map_outcome (to_document Date_parse Date_of_object) snap = Returned docs ->
  snapshotToDocuments Date_parse Date_of_object snap = Returned out ->
  Forall valid_createdAt docs ->
  filter (fun d => createdAt_time d = t) out = filter (fun d => createdAt_time d = t) docs.
Proof.
  intros Hd Ho Hv. unfold snapshotToDocuments in Ho. rewrite Hd in Ho.
  cbn [and_then] in Ho. injection Ho as <-.
  destruct (sort_if_dated_by_time docs Hv) as [-> Hkey].
  apply (js_sort_filter _ createdAt_time). exact Hkey.
Qed.

Lemma equal_dates_keep_snapshot_order_witness :
  exists docs out,
    snapshotToDocuments sample_Date_parse sample_Date_of_object two_at_once = Returned out
    /\ map id out = ["newer"; "first"; "second"]
    /\ filter (fun d => createdAt_time d = 1000) out
       = filter (fun d => createdAt_time d = 1000) docs.
Proof.
  eexists. eexists. split; [vm_compute; reflexivity|]. split; [vm_compute; reflexivity|].
  apply (equal_dates_keep_snapshot_order sample_Date_parse sample_Date_of_object two_at_once).
  - vm_compute. reflexivity.
  - vm_compute. reflexivity.
  - repeat (apply Forall_cons_2 || apply Forall_nil_2); eexists; reflexivity.
Defined.

End ConversionSpec.

(** ** The listeners written out on their own *)

Module ListenerMore.
Import Firestore FirestoreQueries.

Section Listeners.
Variable Date_parse : string -> time_value.
Variable Date_of_object : value -> time_value.
Variable toISOString : Z -> string.
Variable sdk_build : target -> outcome unit.
Variable sdk_onSnapshot :
  target ->
  (list QueryDocumentSnapshot -> io listen_event unit) -> (js_error -> io listen_event unit) ->
  outcome nat.
Variable sdk_onSnapshot_doc :
  target ->
  (option (gmap string value) -> io listen_event unit) -> (js_error -> io listen_event unit) ->
  outcome nat.
Variable onError : option (js_error -> io listen_event unit).
Hypothesis onError_returns : handler_returns onError.

Lemma report_result (e : js_error) : result (report onError e) = Returned tt.
Proof.
  unfold report. destruct onError as [f|]; [apply onError_returns | reflexivity].
Qed.

Lemma setup_failed_result (what : string) (e : js_error) :
  result (setup_failed onError what e) = Returned NoOp.
Proof. unfold setup_failed. io_result. rewrite report_result. reflexivity. Qed.

Lemma listenToScenarios_result callback (limitCount : option Z) :
  let q := Latest "agent_scenarios" "created_at" (default 10 limitCount) in
  result (listenToScenarios Date_parse Date_of_object sdk_build sdk_onSnapshot onError
            callback limitCount)
  = Returned
      (registration (sdk_build q)
         (sdk_onSnapshot q
            (on_query_snapshot Date_parse Date_of_object callback "scenarios")
            (on_subscription_error onError "scenarios" "agent_scenarios"))).
Proof.
  cbv zeta. unfold listenToScenarios. rewrite result_try_catch. io_result.
  destruct (sdk_build _) as [[]|e]; cbn [registration].
  - io_result. destruct (sdk_onSnapshot _ _ _) as [h|e]; [reflexivity|].
    apply setup_failed_result.
  - apply setup_failed_result.
Qed.

Lemma listenToEvaluationsSince_result (t : Z) callback :
  let q := Since "agent_evaluations" "created_at" t in
  result (listenToEvaluationsSince Date_parse Date_of_object toISOString sdk_build
            sdk_onSnapshot onError (Some t) callback)
  = Returned
      (registration (sdk_build q)
         (sdk_onSnapshot q
            (on_query_snapshot Date_parse Date_of_object callback
               ("evaluations since " +:+ toISOString t))
            (on_subscription_error onError "evaluations since" "agent_evaluations"))).
Proof.
  cbv zeta. unfold listenToEvaluationsSince. rewrite result_try_catch.
  cbn [valid_time]. io_result.
  destruct (sdk_build _) as [[]|e]; cbn [registration].
  - io_result. destruct (sdk_onSnapshot _ _ _) as [h|e]; [reflexivity|].
    apply setup_failed_result.
  - apply setup_failed_result.
Qed.

Lemma listenToNotificationsSince_result (t : Z) callback :
  let q := Since "agent_notifications" "created_at" t in
  result (listenToNotificationsSince Date_parse Date_of_object toISOString sdk_build
            sdk_onSnapshot onError (Some t) callback)
  = Returned
      (registration (sdk_build q)
         (sdk_onSnapshot q
            (on_query_snapshot Date_parse Date_of_object callback
               ("notifications since " +:+ toISOString t))
            (on_subscription_error onError "notifications since" "agent_notifications"))).
Proof.
  cbv zeta. unfold listenToNotificationsSince. rewrite result_try_catch.
  cbn [valid_time]. io_result.
  destruct (sdk_build _) as [[]|e]; cbn [registration].
  - io_result. destruct (sdk_onSnapshot _ _ _) as [h|e]; [reflexivity|].
    apply setup_failed_result.
  - apply setup_failed_result.
Qed.

Lemma listenToAgentState_result (documentId : string) callback :
  let q := Document "agent_states" documentId in
  result (listenToAgentState sdk_build sdk_onSnapshot_doc onError documentId callback)
  = Returned
      (registration (sdk_build q)
         (sdk_onSnapshot_doc q
            (on_document_snapshot callback documentId)
            (on_document_error onError documentId))).
Proof.
  cbv zeta. unfold listenToAgentState. rewrite result_try_catch. io_result.
  destruct (sdk_build _) as [[]|e]; cbn [registration].
  - io_result. destruct (sdk_onSnapshot_doc _ _ _) as [h|e]; [reflexivity|].
    apply setup_failed_result.
  - apply setup_failed_result.
Qed.

Lemma subscription_error_result (what collectionName : string) (error : js_error) :
  result (on_subscription_error onError what collectionName error) = Returned tt.
Proof.
  unfold on_subscription_error. io_result.
  destruct (bool_decide _); apply report_result.
Qed.

Lemma document_error_result (documentId : string) (error : js_error) :
  result (on_document_error onError documentId error) = Returned tt.
Proof.
  unfold on_document_error. io_result.
  destruct (bool_decide _); apply report_result.
Qed.

End Listeners.

(** X7.  The listeners that [firestore.ts] writes out on their own -
    [listenToScenarios], [listenToEvaluationsSince],
    [listenToNotificationsSince] (given a valid date) and
    [listenToAgentState] - never throw, provided the caller's [onError],
    when one is given, returns normally.  Each returns the SDK's
    unsubscribe function when building the query (or document
    reference) and registering the listener both succeed, and the no-op
    function otherwise; and the error handlers they register return
    normally too. *)
Theorem written_out_listeners_contain_failures
    (Date_parse : string -> time_value) (Date_of_object : value -> time_value)
    (toISOString : Z -> string)
    (sdk_build : target -> outcome unit)
    (sdk_onSnapshot :
       target ->
       (list QueryDocumentSnapshot -> io listen_event unit) ->
       (js_error -> io listen_event unit) -> outcome nat)
    (sdk_onSnapshot_doc :
       target ->
       (option (gmap string value) -> io listen_event unit) ->
       (js_error -> io listen_event unit) -> outcome nat)
    (onError : option (js_error -> io listen_event unit))
    (callback : list FirestoreDocument -> io listen_event unit)
    (on_state : option (gmap string value) -> io listen_event unit)
    (limitCount : option Z) (t : Z) (documentId : string) :
  handler_returns onError ->
  let scenarios := Latest "agent_scenarios" "created_at" (default 10 limitCount) in
  let evaluations := Since "agent_evaluations" "created_at" t in
  let notifications := Since "agent_notifications" "created_at" t in
  let agent_state := Document "agent_states" documentId in
  result (listenToScenarios Date_parse Date_of_object sdk_build sdk_onSnapshot onError
            callback limitCount)
  = Returned
      (registration (sdk_build scenarios)
         (sdk_onSnapshot scenarios
            (on_query_snapshot Date_parse Date_of_object callback "scenarios")
            (on_subscription_error onError "scenarios" "agent_scenarios")))
  /\ result (listenToEvaluationsSince Date_parse Date_of_object toISOString sdk_build
               sdk_onSnapshot onError (Some t) callback)
     = Returned
         (registration (sdk_build evaluations)
            (sdk_onSnapshot evaluations
               (on_query_snapshot Date_parse Date_of_object callback
                  ("evaluations since " +:+ toISOString t))
               (on_subscription_error onError "evaluations since" "agent_evaluations")))
  /\ result (listenToNotificationsSince Date_parse Date_of_object toISOString sdk_build
               sdk_onSnapshot onError (Some t) callback)
     = Returned
         (registration (sdk_build notifications)
            (sdk_onSnapshot notifications
               (on_query_snapshot Date_parse Date_of_object callback
                  ("notifications since " +:+ toISOString t))
               (on_subscription_error onError "notifications since" "agent_notifications")))
  /\ result (listenToAgentState sdk_build sdk_onSnapshot_doc onError documentId on_state)
     = Returned
         (registration (sdk_build agent_state)
            (sdk_onSnapshot_doc agent_state
               (on_document_snapshot on_state documentId)
               (on_document_error onError documentId)))
  /\ (forall what collectionName error,
        result (on_subscription_error onError what collectionName error) = Returned tt)
  /\ (forall error, result (on_document_error onError documentId error) = Returned tt).
Proof.
  intros Hn. cbv zeta.
  split; [apply listenToScenarios_result; exact Hn|].
  split; [apply listenToEvaluationsSince_result; exact Hn|].
  split; [apply listenToNotificationsSince_result; exact Hn|].
  split; [apply listenToAgentState_result; exact Hn|].
  split; intros; [apply subscription_error_result | apply document_error_result]; exact Hn.
Qed.

Lemma written_out_listeners_contain_failures_witness :
  result (listenToAgentState
            (fun _ => Threw (Error "Invalid document reference"))
            (fun _ _ _ => Returned 0%nat) None "" (fun _ => ret tt))
  = Returned NoOp.
Proof.
  exact (proj1 (proj2 (proj2 (proj2
           (written_out_listeners_contain_failures
              sample_Date_parse sample_Date_of_object sample_toISOString
              (fun _ => Threw (Error "Invalid document reference"))
              (fun _ _ _ => Returned 0%nat) (fun _ _ _ => Returned 0%nat)
              None (fun _ => ret tt) (fun _ => ret tt) None 0 "" I))))).
Defined.

(** X8.  Called with an invalid date, [listenToEvaluationsSince] and
    [listenToNotificationsSince] build no query and register no
    listener: [sinceDate.toISOString()] throws a [RangeError] in the
    first statement of the [try] block.  The failure is logged and
    handed to [onError], and the no-op unsubscribe function is returned
    (when [onError] returns normally). *)
Theorem invalid_since_date_registers_nothing
    (Date_parse : string -> time_value) (Date_of_object : value -> time_value)
    (toISOString : Z -> string)
    (sdk_build : target -> outcome unit)
    (sdk_onSnapshot :
       target ->
       (list QueryDocumentSnapshot -> io listen_event unit) ->
       (js_error -> io listen_event unit) -> outcome nat)
    (onError : option (js_error -> io listen_event unit))
    (callback : list FirestoreDocument -> io listen_event unit) :
  let invalid := mkError "RangeError" "Invalid time value" None in
  let settled :=
    match result (report onError invalid) with
    | Returned _ => Returned NoOp
    | Threw e => Threw e
    end in
  listenToEvaluationsSince Date_parse Date_of_object toISOString sdk_build sdk_onSnapshot
    onError None callback
  = IO (EError "[Firestore] ERROR setting up listener for evaluations since"
        :: trace (report onError invalid)) settled
  /\ listenToNotificationsSince Date_parse Date_of_object toISOString sdk_build sdk_onSnapshot
       onError None callback
     = IO (EError "[Firestore] ERROR setting up listener for notifications since"
           :: trace (report onError invalid)) settled
  /\ (onError = None ->
      built (trace (listenToEvaluationsSince Date_parse Date_of_object toISOString sdk_build
                      sdk_onSnapshot onError None callback)) = []
      /\ subscribed (trace (listenToEvaluationsSince Date_parse Date_of_object toISOString
                              sdk_build sdk_onSnapshot onError None callback)) = []).
Proof.
  cbv zeta. split; [|split].
  - unfold listenToEvaluationsSince, setup_failed. cbn.
    destruct (report onError _) as [tr [[]|e]]; cbn; rewrite ?app_nil_r; reflexivity.
  - unfold listenToNotificationsSince, setup_failed. cbn.
    destruct (report onError _) as [tr [[]|e]]; cbn; rewrite ?app_nil_r; reflexivity.
  - intros ->. split; reflexivity.
Qed.

End ListenerMore.

(** ** Lengths and characters of strings *)

Module StringFacts.
Import ExportVocabulary.

Lemma length_append (a b : string) :
  String.length (a +:+ b) = (String.length a + String.length b)%nat.
Proof.
  induction a as [|c a IH]; [reflexivity|].
  change (String c a +:+ b) with (String c (a +:+ b)). cbn [String.length]. rewrite IH.
  reflexivity.
Qed.

Lemma length_substring0 (n : nat) (s : string) :
  String.length (substring0 n s) = Nat.min n (String.length s).
Proof.
  unfold substring0. revert s.
  induction n as [|n IH]; intros [|c s]; cbn [String.substring String.length]; try reflexivity.
  rewrite IH. reflexivity.
Qed.

Lemma substring0_short (n : nat) (s : string) :
  (String.length s <= n)%nat -> substring0 n s = s.
Proof.
  unfold substring0. revert s.
  induction n as [|n IH]; intros [|c s]; cbn [String.substring String.length]; intros H;
    try reflexivity; [lia|].
  rewrite IH by lia. reflexivity.
Qed.

Lemma chars_substring0 (P : ascii -> Prop) (n : nat) (s : string) :
  Forall P (chars s) -> Forall P (chars (substring0 n s)).
Proof.
  unfold substring0, chars. revert s.
  induction n as [|n IH]; intros [|c s];
    cbn [String.substring list_ascii_of_string]; intros H; try apply Forall_nil_2.
  apply Forall_cons in H as [Hc Hs]. apply Forall_cons_2; [exact Hc | apply IH; exact Hs].
Qed.

Lemma length_replace_chars (in_class : ascii -> bool) (by_ : ascii) (s : string) :
  String.length (replace_chars in_class by_ s) = String.length s.
Proof. induction s as [|c s IH]; cbn; [reflexivity | rewrite IH; reflexivity]. Qed.

Lemma chars_replace_chars (in_class : ascii -> bool) (by_ : ascii) (s : string) :
  in_class by_ = false ->
  Forall (fun c => in_class c = false) (chars (replace_chars in_class by_ s)).
Proof.
  intros Hb. unfold chars.
  induction s as [|c s IH]; cbn [replace_chars list_ascii_of_string]; [apply Forall_nil_2|].
  apply Forall_cons_2; [|exact IH]. destruct (in_class c) eqn:E; assumption.
Qed.

End StringFacts.

(** ** Names: of the file, of the student sheets *)

Module NameSpec.
Import Firestore ExportExcel ExportVocabulary StringFacts ExportSpec WorkbookSpec.

(** X9.  The stamp that the three exports put into the name of the
    downloaded file has at most 19 characters - exactly 19 when
    [toISOString()] gives at least that many, as it always does - and
    contains neither ':' nor '.', whatever the clock says. *)
Theorem timestamp_is_file_name_safe (now_iso : string) :
  (String.length (timestamp now_iso) <= 19)%nat
  /\ ((19 <= String.length now_iso)%nat -> String.length (timestamp now_iso) = 19%nat)
  /\ Forall (fun c => c <> ":"%char /\ c <> "."%char) (chars (timestamp now_iso)).
Proof.
  unfold timestamp. rewrite length_substring0, length_replace_chars.
  split; [lia|]. split; [lia|].
  apply chars_substring0.
  eapply Forall_impl; [apply chars_replace_chars; reflexivity|].
  intros c Hc. cbn beta in Hc. apply orb_false_iff in Hc as [H1 H2].
  apply Ascii.eqb_neq in H1, H2. split; assumption.
Qed.

Lemma truncated_length (s : string) : (String.length (truncated s) <= 31)%nat.
Proof.
  unfold truncated. destruct (Z.ltb_spec 31 (Z.of_nat (String.length s))) as [H|H]; [|lia].
  rewrite length_append, length_substring0. cbn [String.length]. lia.
Qed.

(** X10.  The worksheet that [exportCOAReportsToExcel] adds for a
    student whose name is a string is named by at most 31 characters,
    the limit of a spreadsheet: the name itself when it has at most 31
    characters, and otherwise its first 28 characters followed by
    ['...']; and no sheet that the workbook held before has that name,
    letter case ignored. *)
Theorem student_sheet_name_fits
    (ToNumber_other : value -> option Z) (standardsData : list (string * string))
    (logoData : bool) (workbook : list Worksheet) (doc : FirestoreDocument)
    (studentReport : value) (sheet : Worksheet) (s : string) :
  student_sheet ToNumber_other standardsData logoData workbook doc studentReport
  = Returned sheet ->
  studentName studentReport = VStr s ->
  exists name,
    sheet_name sheet = VStr name
    /\ (String.length name <= 31)%nat
    /\ ((String.length s <= 31)%nat -> name = s)
    /\ ((31 < String.length s)%nat -> name = substring0 28 s +:+ "...")
    /\ toLowerCase name ∉ map toLowerCase (sheet_names workbook).
Proof.
  unfold student_sheet, studentName. intros H Hs.
  destruct (get_prop studentReport "student_name") as [student_name|e] eqn:Eg;
    cbn [and_then] in H; [|discriminate].
  assert (Hr : read studentReport "student_name" = student_name).
  { unfold read. rewrite Eg. reflexivity. }
  rewrite Hr in Hs. rewrite Hs, sheetName_string in H. cbn [and_then] in H.
  destruct (addWorksheet workbook (VStr (truncated s))) as [name|e] eqn:Ea;
    cbn [and_then] in H; [|discriminate].
  destruct (standard_rows standardsData studentReport) as [rows|e]; cbn [and_then] in H;
    [|discriminate].
  injection H as <-. apply addWorksheet_inv in Ea as (_ & Hname & Hfree).
  pose proof (truncated_length s) as Hlen.
  destruct (Nat.ltb_spec 31 (String.length (truncated s))) as [Hlt|_]; [lia|]. subst name.
  exists (truncated s). cbn [sheet_name].
  split; [reflexivity|]. split; [exact Hlen|].
  unfold truncated in *.
  destruct (Z.ltb_spec 31 (Z.of_nat (String.length s)));
    repeat split; intros; try reflexivity; try lia; assumption.
Qed.

Lemma student_sheet_name_fits_witness :
  exists name,
    sheet_name
      (mkSheet (VStr (truncated "Maximiliana Wolfeschlegelstein-Hausen"))
         (student_summary_section scored_report long_named_report
            (VStr "Maximiliana Wolfeschlegelstein-Hausen")
          ++ standard_scores_section [AddRow [VStr "No standards found"; VStr ""]]))
    = VStr name
    /\ (String.length name <= 31)%nat
    /\ ((String.length "Maximiliana Wolfeschlegelstein-Hausen" <= 31)%nat ->
        name = "Maximiliana Wolfeschlegelstein-Hausen")
    /\ ((31 < String.length "Maximiliana Wolfeschlegelstein-Hausen")%nat ->
        name = substring0 28 "Maximiliana Wolfeschlegelstein-Hausen" +:+ "...")
    /\ toLowerCase name
       ∉ map toLowerCase (sheet_names [summary_sheet sample_toLocaleString false scored_report]).
Proof.
  apply (student_sheet_name_fits sample_ToNumber sample_standards false
           [summary_sheet sample_toLocaleString false scored_report] scored_report
           long_named_report).
  - vm_compute. reflexivity.
  - vm_compute. reflexivity.
Defined.

End NameSpec.

(** ** The runs of the exports *)

Module ExportRuns.
Import Firestore ExportExcel ExportVocabulary SortFacts SortMore ExportSpec WorkbookSpec.

Lemma find_with_scores_elem (docs : list FirestoreDocument) (d : FirestoreDocument) :
  find_with_scores docs = Returned (Some d) -> d ∈ docs.
Proof.
  induction docs as [|doc docs IH]; cbn [find_with_scores]; [discriminate|].
  destruct (isArray (field (data doc) "student_reports")).
  - destruct (some_m has_scores _) as [[|]|e]; cbn [and_then]; try discriminate.
    + intros [= <-]. apply list_elem_of_here.
    + intros H. apply list_elem_of_further, IH, H.
  - intros H. apply list_elem_of_further, IH, H.
Qed.

Lemma documentToUse_elem (latest doc : FirestoreDocument) (sorted : list FirestoreDocument) :
  documentToUse latest sorted = Returned doc -> doc = latest \/ doc ∈ sorted.
Proof.
  unfold documentToUse.
  destruct (isArray _ && nonempty _); [|intros [= <-]; left; reflexivity].
  destruct (some_m has_scores _) as [[|]|e]; cbn [and_then]; try discriminate.
  - intros [= <-]. left. reflexivity.
  - destruct (find_with_scores sorted) as [[found|]|e] eqn:Ef; cbn [and_then default];
      try discriminate.
    + intros [= <-]. right. apply find_with_scores_elem. exact Ef.
    + intros [= <-]. left. reflexivity.
Qed.

(** Running a sequence of steps whose outcomes are known. *)
Ltac run_steps :=
  cbn;
  repeat match goal with
         | H : ?x = Returned _ |- context [?x] => rewrite H; cbn
         | H : ?x = Threw _ |- context [?x] => rewrite H; cbn
         end.

Section Env.
Variable Date_parse : string -> time_value.
Variable Date_of_object : value -> time_value.
Variable toLocaleString : time_value -> string.
Variable ToNumber_other : value -> option Z.
Variable ToString : value -> string.
Variable JSON_stringify : value -> string.
Variable join_comma : list value -> string.
Variable standardsData : list (string * string).
Variable logoData : bool.
Variable now_iso : string.

Local Abbreviation exportCOA :=
  (exportCOAReportsToExcel Date_parse Date_of_object toLocaleString ToNumber_other
     standardsData logoData now_iso).
Local Abbreviation exportSite :=
  (exportSiteReportsToExcel Date_parse toLocaleString ToString join_comma logoData now_iso).
Local Abbreviation selected_document := (selected_document Date_parse Date_of_object).
Local Abbreviation student_sheet := (student_sheet ToNumber_other standardsData logoData).
Local Abbreviation student_sheets := (student_sheets ToNumber_other standardsData logoData).
Local Abbreviation aggregate_sheets := (aggregate_sheets standardsData logoData).
Local Abbreviation summary_sheet := (summary_sheet toLocaleString logoData).

Lemma selected_document_elem (docs : list FirestoreDocument) (doc : FirestoreDocument) :
  selected_document docs = Returned doc -> doc ∈ docs.
Proof.
  intros H. apply selected_document_inv in H as (sorted & latest & Hs & Hf & _ & Hd).
  apply js_sort_m_perm in Hs. rewrite <- Hs.
  destruct sorted as [|x sorted]; cbn [first_document] in Hf; [discriminate|].
  injection Hf as ->.
  apply documentToUse_elem in Hd as [->|Hd]; [apply list_elem_of_here | exact Hd].
Qed.

(** The four ways a run of [exportCOAReportsToExcel] can go. *)
Lemma coa_cases (docs : list FirestoreDocument) :
  (docs = [] /\ exportCOA docs = IO [EAlert "No COA reports to export"] (Returned tt))
  \/ (exists e, exportCOA docs = IO [] (Threw e))
  \/ (exists e, exportCOA docs = IO [ENewWorkbook; EFetchLogo] (Threw e))
  \/ (exists doc with_students workbook,
        selected_document docs = Returned doc
        /\ student_sheets doc [summary_sheet doc] = Returned with_students
        /\ aggregate_sheets doc with_students = Returned workbook
        /\ exportCOA docs
           = IO [ ENewWorkbook; EFetchLogo;
                  EDownload ("COA_Reports_" +:+ timestamp now_iso +:+ ".xlsx") workbook ]
                (Returned tt)).
Proof.
  unfold exportCOAReportsToExcel, ExportExcel.selected_document.
  destruct docs as [|d0 docs]; [left; split; reflexivity|]. right.
  cbn [length Nat.eqb].
  destruct (js_sort_m _ (d0 :: docs)) as [sorted|e] eqn:E1;
    [|left; eexists; run_steps; reflexivity].
  cbn [and_then].
  destruct (first_document sorted) as [latest|e] eqn:E2;
    [|left; eexists; run_steps; reflexivity].
  cbn [and_then]. right.
  destruct (log_first_report_keys (data latest)) as [[]|e] eqn:E3;
    [|left; eexists; run_steps; reflexivity].
  cbn [and_then].
  destruct (documentToUse latest sorted) as [doc|e] eqn:E4;
    [|left; eexists; run_steps; reflexivity].
  destruct (student_sheets doc [summary_sheet doc]) as [with_students|e] eqn:E5;
    [|left; eexists; run_steps; reflexivity].
  destruct (aggregate_sheets doc with_students) as [workbook|e] eqn:E6;
    [|left; eexists; run_steps; reflexivity].
  right. exists doc, with_students, workbook.
  split; [reflexivity|]. split; [exact E5|]. split; [exact E6|].
  run_steps. reflexivity.
Qed.

Lemma coa_export_run (docs : list FirestoreDocument) : export_run (exportCOA docs).
Proof.
  destruct (coa_cases docs) as [[_ H]|[[e H]|[[e H]|(doc & st & ag & _ & _ & _ & H)]]].
  - eapply OnlyAlerts. exact H.
  - eapply (Throws _ []); [exact H | apply Forall_nil_2].
  - eapply (Throws _ [ENewWorkbook; EFetchLogo]); [exact H|].
    repeat (apply Forall_cons_2 || apply Forall_nil_2); auto.
  - eapply (Downloads _ [ENewWorkbook; EFetchLogo]); [exact H|].
    repeat (apply Forall_cons_2 || apply Forall_nil_2); auto.
Qed.

(** The ways a run of [exportSiteReportsToExcel] can go. *)
Lemma site_cases (docs : list FirestoreDocument) :
  (docs = []
   /\ exportSite docs
      = IO [EAlert "No site reports available to export. Please generate some reports first."]
           (Returned tt))
  \/ (exists e, exportSite docs = IO [ENewWorkbook; EFetchLogo] (Threw e))
  \/ (exists sorted latest sites preceptors,
        js_sort_m compare_site_dates docs = Returned sorted
        /\ first_document sorted = Returned latest
        /\ sites_sheet join_comma logoData (data latest) = Returned sites
        /\ preceptors_sheet join_comma logoData (data latest) = Returned preceptors
        /\ exportSite docs
           = IO [ ENewWorkbook; EFetchLogo;
                  EDownload ("Site_Report_" +:+ timestamp now_iso +:+ ".xlsx")
                    [ site_summary_sheet Date_parse toLocaleString ToString logoData latest;
                      sites; preceptors ] ]
                (Returned tt)).
Proof.
  unfold exportSiteReportsToExcel.
  destruct docs as [|d0 docs]; [left; split; reflexivity|]. right.
  cbn [length Nat.eqb].
  destruct (js_sort_m _ (d0 :: docs)) as [sorted|e] eqn:E1;
    [|left; eexists; run_steps; reflexivity].
  destruct (first_document sorted) as [latest|e] eqn:E2;
    [|left; eexists; run_steps; reflexivity].
  destruct (sites_sheet join_comma logoData (data latest)) as [sites|e] eqn:E3;
    [|left; eexists; run_steps; reflexivity].
  destruct (preceptors_sheet join_comma logoData (data latest))
    as [preceptors|e] eqn:E4;
    [|left; eexists; run_steps; reflexivity].
  right. exists sorted, latest, sites, preceptors.
  do 4 (split; [first [assumption | reflexivity]|]).
  run_steps. reflexivity.
Qed.

Lemma site_export_run (docs : list FirestoreDocument) : export_run (exportSite docs).
Proof.
  destruct (site_cases docs) as [[_ H]|[[e H]|(so & la & si & pr & _ & _ & _ & _ & H)]].
  - eapply OnlyAlerts. exact H.
  - eapply (Throws _ [ENewWorkbook; EFetchLogo]); [exact H|].
    repeat (apply Forall_cons_2 || apply Forall_nil_2); auto.
  - eapply (Downloads _ [ENewWorkbook; EFetchLogo]); [exact H|].
    repeat (apply Forall_cons_2 || apply Forall_nil_2); auto.
Qed.

Lemma student_sheet_named (workbook : list Worksheet) (doc : FirestoreDocument)
    (sr : value) (sheet : Worksheet) :
  student_sheet workbook doc sr = Returned sheet ->
  NoDup (map toLowerCase (sheet_names workbook)) ->
  NoDup (map toLowerCase (sheet_names (workbook ++ [sheet]))).
Proof.
  unfold ExportExcel.student_sheet.
  destruct (get_prop sr "student_name") as [student_name|e]; cbn [and_then]; [|discriminate].
  destruct (sheetName ToNumber_other _) as [v|e]; cbn [and_then]; [|discriminate].
  destruct (addWorksheet workbook v) as [name|e] eqn:Ea; cbn [and_then]; [|discriminate].
  destruct (standard_rows standardsData sr) as [rows|e]; cbn [and_then]; [|discriminate].
  intros [= <-]. apply (names_stay_distinct _ _ _ _ Ea).
Qed.

Lemma add_student_sheets_each (doc : FirestoreDocument) (reports : list value)
    (workbook with_students : list Worksheet) :
  add_student_sheets ToNumber_other standardsData logoData doc reports workbook
  = Returned with_students ->
  exists students,
    with_students = (workbook ++ students)%list
    /\ Forall2 (fun sr sheet => exists before, student_sheet before doc sr = Returned sheet)
         reports students
    /\ (NoDup (map toLowerCase (sheet_names workbook)) ->
        NoDup (map toLowerCase (sheet_names with_students))).
Proof.
  revert workbook. induction reports as [|sr reports IH]; intros workbook;
    cbn [add_student_sheets].
  - intros [= <-]. exists []. rewrite app_nil_r.
    split; [reflexivity|]. split; [constructor | auto].
  - destruct (student_sheet workbook doc sr) as [sheet|e] eqn:Es; cbn [and_then];
      [|discriminate].
    intros H. destruct (IH _ H) as (students & -> & Hall & Hnd).
    exists (sheet :: students). rewrite <- app_assoc.
    split; [reflexivity|]. split.
    + constructor; [exists workbook; exact Es | exact Hall].
    + intros Hw. rewrite <- app_assoc in Hnd. apply Hnd.
      apply (student_sheet_named _ _ _ _ Es Hw).
Qed.

Lemma student_sheets_each (doc : FirestoreDocument) (workbook with_students : list Worksheet) :
  student_sheets doc workbook = Returned with_students ->
  exists students,
    with_students = (workbook ++ students)%list
    /\ Forall2 (fun sr sheet => exists before, student_sheet before doc sr = Returned sheet)
         (elements (student_reports doc)) students
    /\ (NoDup (map toLowerCase (sheet_names workbook)) ->
        NoDup (map toLowerCase (sheet_names with_students))).
Proof.
  rewrite (student_sheets_elements ToNumber_other standardsData logoData).
  apply add_student_sheets_each.
Qed.

Lemma aggregate_sheets_shape (doc : FirestoreDocument) (workbook with_aggregate : list Worksheet) :
  aggregate_sheets doc workbook = Returned with_aggregate ->
  exists aggregate,
    with_aggregate = (workbook ++ aggregate)%list
    /\ (aggregate = [] \/ exists ops, aggregate = [mkSheet (VStr "Aggregate Standards") ops])
    /\ (NoDup (map toLowerCase (sheet_names workbook)) ->
        NoDup (map toLowerCase (sheet_names with_aggregate))).
Proof.
  unfold ExportExcel.aggregate_sheets.
  destruct (if isArray _ then _ else _) as [rows|e]; cbn [and_then]; [|discriminate].
  destruct (nonempty rows).
  - destruct (addWorksheet workbook (VStr "Aggregate Standards")) as [name|e] eqn:Ea;
      cbn [and_then]; [|discriminate].
    intros [= <-]. eexists. split; [reflexivity|].
    pose proof (addWorksheet_inv _ _ _ Ea) as (_ & -> & _).
    split; [right; eexists; reflexivity|].
    apply (names_stay_distinct _ _ _ _ Ea).
  - intros [= <-]. exists []. rewrite app_nil_r. split; [reflexivity|]. split; auto.
Qed.

Lemma rows_or_shape (row : value -> outcome op) (placeholder : string) (entries : value)
    (r : list op) :
  rows_or row placeholder entries = Returned r ->
  if isArray entries && nonempty (elements entries)
  then Forall2 (fun x y => row x = Returned y) (elements entries) r
  else r = [AddRow [VStr placeholder; VStr ""; VStr ""; VStr ""; VStr ""]].
Proof.
  unfold rows_or. destruct (isArray entries && nonempty (elements entries)).
  - apply map_outcome_Forall2.
  - intros [= <-]. reflexivity.
Qed.

End Env.

(** X11.  Whenever [exportCOAReportsToExcel] downloads a file, it
    returns normally and the file is [COA_Reports_<stamp>.xlsx]; the
    workbook holds the 'Summary' sheet of one of the given documents,
    then one sheet for each element of that document's
    [student_reports] array, in its order (none when it is not an
    array), then at most one sheet, 'Aggregate Standards'.  The
    'Student Reports Count' of the summary row is the number of student
    sheets, and no two sheets of the workbook have the same name,
    letter case ignored. *)
Theorem coa_download_shape
    (Date_parse : string -> time_value) (Date_of_object : value -> time_value)
    (toLocaleString : time_value -> string) (ToNumber_other : value -> option Z)
    (standardsData : list (string * string)) (logoData : bool) (now_iso : string)
    (docs : list FirestoreDocument) (filename : string) (workbook : list Worksheet) :
  let export :=
    exportCOAReportsToExcel Date_parse Date_of_object toLocaleString ToNumber_other
      standardsData logoData now_iso in
  downloads (trace (export docs)) = [(filename, workbook)] ->
  result (export docs) = Returned tt
  /\ filename = "COA_Reports_" +:+ timestamp now_iso +:+ ".xlsx"
  /\ exists doc students aggregate,
       doc ∈ docs
       /\ workbook = summary_sheet toLocaleString logoData doc :: students ++ aggregate
       /\ sheet_name (summary_sheet toLocaleString logoData doc) = VStr "Summary"
       /\ Forall2 (fun sr sheet =>
                     exists before,
                       student_sheet ToNumber_other standardsData logoData before doc sr
                       = Returned sheet)
            (elements (student_reports doc)) students
       /\ summary_row toLocaleString doc !! 4%nat = Some (VNum (Z.of_nat (length students)))
       /\ (aggregate = []
           \/ exists ops, aggregate = [mkSheet (VStr "Aggregate Standards") ops])
       /\ NoDup (map toLowerCase (sheet_names workbook)).
Proof.
  intros export. subst export. intros Hd.
  destruct (coa_cases Date_parse Date_of_object toLocaleString ToNumber_other standardsData
              logoData now_iso docs)
    as [[_ H]|[[e H]|[[e H]|(doc & ws & wb & Hsel & Hst & Hag & H)]]];
    rewrite H in Hd |- *; cbn in Hd; try discriminate.
  injection Hd as <- <-. split; [reflexivity|]. split; [reflexivity|].
  destruct (student_sheets_each _ _ _ _ _ _ Hst) as (st & -> & Heach & Hnd1).
  destruct (aggregate_sheets_shape _ _ _ _ _ Hag) as (ag & -> & Hshape & Hnd2).
  exists doc, st, ag.
  split; [eapply selected_document_elem; exact Hsel|].
  split; [rewrite <- app_assoc; reflexivity|]. split; [reflexivity|]. split; [exact Heach|].
  split; [|split; [exact Hshape|]].
  - cbn. unfold array_length. f_equal. f_equal.
    apply Forall2_length in Heach. rewrite <- Heach. unfold student_reports.
    destruct (field (data doc) "student_reports"); reflexivity.
  - apply Hnd2, Hnd1. cbn. apply NoDup_singleton.
Qed.

Lemma coa_download_shape_witness :
  result (exportCOAReportsToExcel sample_Date_parse sample_Date_of_object
            sample_toLocaleString sample_ToNumber sample_standards false sample_now
            [scored_report])
  = Returned tt.
Proof.
  refine (proj1 (coa_download_shape sample_Date_parse sample_Date_of_object
                   sample_toLocaleString sample_ToNumber sample_standards false sample_now
                   [scored_report] _ _ _)).
  vm_compute. reflexivity.
Defined.

(** X12.  Whenever [exportSiteReportsToExcel] downloads a file, it
    returns normally and the file is [Site_Report_<stamp>.xlsx]; the
    workbook has exactly the sheets 'Summary', 'Sites' and
    'Preceptors', in this order, all built from one of the given
    documents.  Under its header the 'Sites' sheet has one row for each
    element of the sites array, and the single row 'No sites data
    available' when that array is empty or is no array; likewise the
    'Preceptors' sheet. *)
Theorem site_download_shape
    (Date_parse : string -> time_value) (toLocaleString : time_value -> string)
    (ToString : value -> string) (join_comma : list value -> string)
    (logoData : bool) (now_iso : string)
    (docs : list FirestoreDocument) (filename : string) (workbook : list Worksheet) :
  let export :=
    exportSiteReportsToExcel Date_parse toLocaleString ToString join_comma logoData now_iso in
  downloads (trace (export docs)) = [(filename, workbook)] ->
  result (export docs) = Returned tt
  /\ filename = "Site_Report_" +:+ timestamp now_iso +:+ ".xlsx"
  /\ map sheet_name workbook = [VStr "Summary"; VStr "Sites"; VStr "Preceptors"]
  /\ exists latest sites preceptors site_rows preceptor_rows,
       latest ∈ docs
       /\ workbook
          = [ site_summary_sheet Date_parse toLocaleString ToString logoData latest;
              sites; preceptors ]
       /\ sheet_ops sites
          = (site_header logoData (data latest)
             ++ AddRow [ VStr "Site Name"; VStr "Total Evaluations"; VStr "Unique Preceptors";
                         VStr "Case Types"; VStr "Preceptor Names" ] :: site_rows)%list
       /\ sheet_ops preceptors
          = (site_header logoData (data latest)
             ++ AddRow [ VStr "Preceptor Name"; VStr "Site"; VStr "Student Count";
                         VStr "Total Evaluations"; VStr "Case Types" ] :: preceptor_rows)%list
       /\ (let entries := listed (data latest) "sites" in
           if isArray entries && nonempty (elements entries)
           then Forall2 (fun x y => site_row join_comma x = Returned y)
                  (elements entries) site_rows
           else site_rows
                = [AddRow [VStr "No sites data available"; VStr ""; VStr ""; VStr ""; VStr ""]])
       /\ (let entries := listed (data latest) "preceptors" in
           if isArray entries && nonempty (elements entries)
           then Forall2 (fun x y => preceptor_row join_comma x = Returned y)
                  (elements entries) preceptor_rows
           else preceptor_rows
                = [AddRow [VStr "No preceptors data available"; VStr ""; VStr ""; VStr "";
                           VStr ""]]).
Proof.
  intros export. subst export. intros Hd.
  destruct (site_cases Date_parse toLocaleString ToString join_comma logoData now_iso docs)
    as [[_ H]|[[e H]|(sorted & latest & sites & preceptors & Hs & Hf & Hsi & Hpr & H)]];
    rewrite H in Hd |- *; cbn in Hd; try discriminate.
  injection Hd as <- <-. split; [reflexivity|]. split; [reflexivity|].
  unfold sites_sheet in Hsi. unfold preceptors_sheet in Hpr.
  destruct (rows_or (site_row join_comma) _ _) as [site_rows|e] eqn:Er1; cbn [and_then] in Hsi;
    [|discriminate].
  destruct (rows_or (preceptor_row join_comma) _ _) as [preceptor_rows|e] eqn:Er2;
    cbn [and_then] in Hpr; [|discriminate].
  injection Hsi as <-. injection Hpr as <-.
  split; [reflexivity|].
  eexists latest, _, _, site_rows, preceptor_rows.
  split.
  { apply js_sort_m_perm in Hs. rewrite <- Hs.
    destruct sorted as [|x sorted]; cbn [first_document] in Hf; [discriminate|].
    injection Hf as ->. apply list_elem_of_here. }
  split; [reflexivity|]. split; [reflexivity|]. split; [reflexivity|].
  split; [exact (rows_or_shape _ _ _ _ Er1) | exact (rows_or_shape _ _ _ _ Er2)].
Qed.

Lemma site_download_shape_witness :
  result (exportSiteReportsToExcel sample_Date_parse sample_toLocaleString sample_ToString
            sample_join false sample_now [site_report])
  = Returned tt.
Proof.
  refine (proj1 (site_download_shape sample_Date_parse sample_toLocaleString sample_ToString
                   sample_join false sample_now [site_report] _ _ _)).
  vm_compute. reflexivity.
Defined.

End ExportRuns.

(** ** The generic export and the standards *)

Module TableSpec.
Import Firestore ExportExcel ExportVocabulary.

Lemma insert_index_elem {A} (n : N) (x : A) (l : list (N * A)) (y : N * A) :
  y ∈ insert_index n x l -> y = (n, x) \/ y ∈ l.
Proof.
  induction l as [|[m z] l IH]; cbn [insert_index]; intros H.
  - apply list_elem_of_singleton in H. left. exact H.
  - destruct (N.leb n m).
    + apply elem_of_cons in H as [H|H]; [left; exact H | right; exact H].
    + apply elem_of_cons in H as [H|H]; [right; rewrite H; apply list_elem_of_here|].
      destruct (IH H) as [Hy|Hy]; [left; exact Hy | right; apply list_elem_of_further, Hy].
Qed.

(** [Object.values] enumerates properties of the object. *)
Lemma own_properties_elem (row : list (string * value)) (kv : string * value) :
  kv ∈ own_properties row -> kv ∈ row.
Proof.
  unfold own_properties. intros H. apply elem_of_app in H as [H|H].
  - apply list_elem_of_fmap in H as ([n kv'] & -> & H). cbn [snd].
    induction row as [|x row IH]; cbn [fold_right] in H.
    + apply elem_of_nil in H. contradiction.
    + destruct (array_index (fst x)).
      * apply insert_index_elem in H as [[= _ ->]|H];
          [apply list_elem_of_here | apply list_elem_of_further, IH, H].
      * apply list_elem_of_further, IH, H.
  - apply list_elem_of_filter in H as [_ H]. exact H.
Qed.

(** An object without array indices among its keys is enumerated in
    the order in which its properties were created. *)
Lemma own_properties_plain (row : list (string * value)) :
  Forall (fun kv => array_index (fst kv) = None) row -> own_properties row = row.
Proof.
  unfold own_properties. intros H.
  assert (Hi : fold_right (fun kv indexed =>
                             match array_index (fst kv) with
                             | Some n => insert_index n kv indexed
                             | None => indexed
                             end) [] row = []).
  { induction H as [|kv row Hkv _ IH]; cbn [fold_right]; [reflexivity|].
    rewrite Hkv. exact IH. }
  rewrite Hi. cbn [map app]. clear Hi.
  induction H as [|kv row Hkv _ IH]; [reflexivity|].
  rewrite filter_cons, decide_True by exact Hkv. f_equal. exact IH.
Qed.

Lemma set_column_fresh (key : string) (v : value) (row : list (string * value)) :
  key ∉ map fst row -> set_column key v row = (row ++ [(key, v)])%list.
Proof.
  induction row as [|[k x] row IH]; cbn [set_column map fst app]; intros H; [reflexivity|].
  apply not_elem_of_cons in H as [Hne H].
  destruct (String.eqb_spec k key) as [->|_]; [contradiction|].
  rewrite (IH H). reflexivity.
Qed.

Section Env.
Variable toLocaleString : time_value -> string.
Variable JSON_stringify : value -> string.
Variable Object_keys : gmap string value -> list string.

Local Abbreviation flatten := (flatten JSON_stringify).
Local Abbreviation export_row := (export_row toLocaleString JSON_stringify Object_keys).

Lemma flatten_scalar (v : value) : scalar (flatten v).
Proof. destruct v as [| | | | | | |[|x l]|]; exact I. Qed.

Lemma set_column_scalar (key : string) (v : value) (row : list (string * value)) :
  scalar v -> Forall scalar (map snd row) -> Forall scalar (map snd (set_column key v row)).
Proof.
  intros Hv. induction row as [|[k x] row IH]; cbn [set_column map snd]; intros H.
  - apply Forall_cons_2; [exact Hv | apply Forall_nil_2].
  - apply Forall_cons in H as [Hx Hr].
    destruct (String.eqb k key); cbn [map snd]; apply Forall_cons_2; auto.
Qed.

Lemma export_row_scalar (doc : FirestoreDocument) : Forall scalar (map snd (export_row doc)).
Proof.
  unfold ExportExcel.export_row.
  assert (H0 : Forall scalar
                 (map snd [("ID", VStr (id doc)); ("Created Date", created_date toLocaleString doc)])).
  { repeat (apply Forall_cons_2 || apply Forall_nil_2); [exact I|].
    unfold created_date. destruct (createdAt doc); exact I. }
  revert H0. generalize [("ID", VStr (id doc)); ("Created Date", created_date toLocaleString doc)].
  induction (Object_keys (data doc)) as [|k l IH]; intros row H; cbn [fold_left].
  - apply Forall_forall. intros v Hv. apply list_elem_of_fmap in Hv as (kv & -> & Hkv).
    apply own_properties_elem in Hkv. rewrite Forall_forall in H. apply H.
    apply list_elem_of_fmap. exists kv. split; [reflexivity | exact Hkv].
  - apply IH. unfold assign. destruct (String.eqb k "__proto__"); [exact H|].
    apply set_column_scalar; [apply flatten_scalar | exact H].
Qed.

(** The row of a document with plain keys. *)
Lemma export_row_plain (doc : FirestoreDocument) :
  plain_keys (Object_keys (data doc)) ->
  export_row doc
  = ("ID", VStr (id doc)) :: ("Created Date", created_date toLocaleString doc)
    :: map (fun k => (k, flatten (field (data doc) k))) (Object_keys (data doc)).
Proof.
  unfold ExportExcel.export_row. intros [Hnd Hall].
  set (g := fun k : string => flatten (field (data doc) k)).
  set (init := [("ID", VStr (id doc)); ("Created Date", created_date toLocaleString doc)]).
  assert (Hfold : forall keys row,
             NoDup keys ->
             Forall (fun k => k <> "__proto__" /\ k ∉ map fst row) keys ->
             fold_left (fun row key => assign key (g key) row) keys row
             = (row ++ map (fun k => (k, g k)) keys)%list).
  { induction keys as [|k keys IH]; intros row Hk Hf; cbn [fold_left map].
    - rewrite app_nil_r. reflexivity.
    - apply NoDup_cons in Hk as [Hk Hks]. apply Forall_cons in Hf as [[Hp Hfresh] Hf].
      unfold assign at 2. destruct (String.eqb_spec k "__proto__"); [contradiction|].
      rewrite (set_column_fresh _ _ _ Hfresh), IH; [rewrite <- app_assoc; reflexivity | exact Hks |].
      apply Forall_forall. intros k' Hk'. rewrite Forall_forall in Hf.
      destruct (Hf k' Hk') as [Hp' Hfresh']. split; [exact Hp'|].
      rewrite map_app. cbn [map fst]. intros Hin. apply elem_of_app in Hin as [Hin|Hin];
        [contradiction|]. apply list_elem_of_singleton in Hin as ->. contradiction. }
  rewrite Hfold; [| exact Hnd |].
  - apply own_properties_plain. subst init. cbn [app].
    repeat apply Forall_cons_2; try reflexivity.
    apply Forall_forall. intros kv Hkv. apply list_elem_of_fmap in Hkv as (k & -> & Hk).
    cbn [fst]. rewrite Forall_forall in Hall. apply (Hall k Hk).
  - eapply Forall_impl; [exact Hall|]. intros k (H1 & H2 & H3 & _). split; [exact H3|].
    subst init. cbn [map fst]. intros Hin.
    apply elem_of_cons in Hin as [->|Hin]; [contradiction|].
    apply list_elem_of_singleton in Hin as ->. contradiction.
Qed.

End Env.

Lemma addWorksheet_first (title : string) :
  addWorksheet [] (VStr title)
  = if accepted_name title then Returned (cut_to_31 title)
    else addWorksheet [] (VStr title).
Proof.
  destruct (accepted_name title) eqn:Ha; [|reflexivity].
  unfold accepted_name in Ha. rewrite !andb_true_iff, !negb_true_iff in Ha.
  destruct Ha as (((H1 & H2) & H3) & H4).
  unfold addWorksheet, name_taken, cut_to_31. rewrite H1, H2, H3, H4. reflexivity.
Qed.

Lemma addWorksheet_refused (workbook : list Worksheet) (title : string) :
  accepted_name title = false -> exists e, addWorksheet workbook (VStr title) = Threw e.
Proof.
  unfold accepted_name, addWorksheet. intros Ha.
  destruct (String.eqb title ""); [eexists; reflexivity|].
  destruct (String.eqb title "History"); [eexists; reflexivity|].
  destruct (has_forbidden title); [eexists; reflexivity|].
  destruct (quote_at_end title); [eexists; reflexivity|]. discriminate.
Qed.



(** A collection name with a stroke gives no sheet. *)
Example generic_export_refused :
  exists e,
    exportToExcel sample_toLocaleString sample_JSON_stringify sample_Object_keys false
      sample_now [scored_report] "agent_coa/reports"
    = IO [ENewWorkbook] (Threw e).
Proof. eexists. vm_compute. reflexivity. Qed.

Example generic_export_table_example :
  map (fun dl => (fst dl, map sheet_name (snd dl), map (fun ws => rows (sheet_ops ws)) (snd dl)))
    (downloads (trace (exportToExcel sample_toLocaleString sample_JSON_stringify
                         (fun _ => ["title"; "7"; "score"]) false sample_now
                         [mkDoc "doc1"
                            (<["title" := VStr "Case 12"]>
                               (<["7" := VNull]> (<["score" := VNum 3]> ∅)))
                            None None]
                         "agent_scenarios")))
  = [ ("agent_scenarios_2026-01-01T10-20-30.xlsx", [VStr "scenarios"],
       [ [ [];
           [VStr "7"; VStr "ID"; VStr "Created Date"; VStr "title"; VStr "score"];
           [VStr "N/A"; VStr "doc1"; VStr "N/A"; VStr "Case 12"; VNum 3] ] ]) ].
Proof. vm_compute. reflexivity. Qed.

(** [getStandardsMap] maps an id to the description of its last
    entry. *)
Lemma getStandardsMap_lookup (standardsData : list (string * string)) (k : string) :
  getStandardsMap standardsData !! k = listed_standard standardsData k.
Proof.
  unfold getStandardsMap, listed_standard.
  induction standardsData as [|[i d] l IH] using rev_ind; [reflexivity|].
  rewrite fold_left_app. cbn [fold_left fst snd].
  rewrite filter_app, filter_cons, filter_nil. cbn [fst].
  destruct (decide (i = k)) as [->|Hne].
  - rewrite lookup_insert_eq, last_snoc. reflexivity.
  - rewrite lookup_insert_ne by exact Hne. rewrite app_nil_r. exact IH.
Qed.

Lemma filter_key_absent (l : list (string * string)) (k : string) :
  k ∉ map fst l -> filter (fun std : string * string => fst std = k) l = [].
Proof.
  induction l as [|[i x] l IH]; intros Hk; [reflexivity|].
  cbn [map fst] in Hk. apply not_elem_of_cons in Hk as [Hne Hk].
  rewrite filter_cons. cbn [fst]. rewrite decide_False by congruence. apply IH, Hk.
Qed.

Lemma listed_standard_unique (standardsData : list (string * string)) (k d : string) :
  NoDup (map fst standardsData) -> (k, d) ∈ standardsData ->
  listed_standard standardsData k = Some d.
Proof.
  unfold listed_standard.
  induction standardsData as [|[i x] l IH]; intros Hnd Hin.
  - apply elem_of_nil in Hin. contradiction.
  - cbn [map fst] in Hnd. apply NoDup_cons in Hnd as [Hi Hl].
    rewrite filter_cons. cbn [fst].
    apply elem_of_cons in Hin as [Heq|Hin].
    + injection Heq as <- <-. rewrite decide_True by reflexivity.
      rewrite (filter_key_absent _ _ Hi). reflexivity.
    + assert (Hik : i <> k).
      { intros ->. apply Hi. apply (list_elem_of_fmap_2 fst _ _ Hin). }
      rewrite decide_False by exact Hik. apply IH; assumption.
Qed.



End TableSpec.

(** ** The download buttons *)

Module ButtonSpec.
Import Firestore ExportVocabulary ExportRuns Dashboard.

Lemma silent_steps (before : list ExportExcel.event) :
  Forall (fun e => e = ExportExcel.ENewWorkbook \/ e = ExportExcel.EFetchLogo) before ->
  downloaded (map EExport before) = [] /\ alerts (map EExport before) = [].
Proof.
  induction 1 as [|e before [->| ->] _ [IH1 IH2]]; [split; reflexivity| |];
    split; cbn; assumption.
Qed.

Lemma guarded_export_settles (m : io ExportExcel.event unit) :
  export_run m -> settles (try_catch (lift EExport m) export_failed).
Proof.
  intros [msg ->|before f wb -> Hb|before e -> Hb]; unfold settles.
  - split; [reflexivity|]. right. split; [reflexivity|]. exists msg. reflexivity.
  - destruct (silent_steps _ Hb) as [Hd Ha].
    split; [reflexivity|]. left. exists f.
    unfold try_catch, lift. cbn [result trace]. rewrite map_app.
    unfold downloaded, alerts in *. rewrite !omap_app, Hd, Ha. split; reflexivity.
  - destruct (silent_steps _ Hb) as [Hd Ha].
    split; [reflexivity|]. right.
    unfold try_catch, lift, export_failed. cbn.
    unfold downloaded, alerts in *. rewrite !omap_app, Hd, Ha.
    split; [reflexivity|]. eexists. reflexivity.
Qed.

Lemma guarded_export_failure (m : io ExportExcel.event unit) (e : js_error) :
  export_run m -> result m = Threw e ->
  alerts (trace (try_catch (lift EExport m) export_failed))
  = ["Failed to export file. Please try again."].
Proof.
  intros [msg ->|before f wb -> Hb|before e' -> Hb]; cbn [result]; try discriminate.
  intros _. destruct (silent_steps _ Hb) as [_ Ha].
  unfold try_catch, lift, export_failed. cbn.
  unfold alerts in *. rewrite !omap_app, Ha. reflexivity.
Qed.

(** A guarded export that does more than alert returns, and either
    downloads one file and shows no alert, or downloads nothing and
    announces the failure. *)
Lemma guarded_export_outcome (m : io ExportExcel.event unit) :
  export_run m ->
  (forall msg, m <> IO [ExportExcel.EAlert msg] (Returned tt)) ->
  let handler := try_catch (lift EExport m) export_failed in
  result handler = Returned tt
  /\ ((exists f, downloaded (trace handler) = [f] /\ alerts (trace handler) = [])
      \/ (downloaded (trace handler) = []
          /\ alerts (trace handler) = ["Failed to export file. Please try again."])).
Proof.
  intros [msg ->|before f wb -> Hb|before e -> Hb] Hno; cbv zeta.
  - destruct (Hno msg eq_refl).
  - destruct (silent_steps _ Hb) as [Hd Ha].
    split; [reflexivity|]. left. exists f.
    unfold try_catch, lift. cbn [result trace]. rewrite map_app.
    unfold downloaded, alerts in *. rewrite !omap_app, Hd, Ha. split; reflexivity.
  - destruct (silent_steps _ Hb) as [Hd Ha].
    split; [reflexivity|]. right.
    unfold try_catch, lift, export_failed. cbn.
    unfold downloaded, alerts in *. rewrite !omap_app, Hd, Ha.
    split; reflexivity.
Qed.

Lemma outcome_is_click_result (handler : io event unit) :
  result handler = Returned tt
  /\ ((exists f, downloaded (trace handler) = [f] /\ alerts (trace handler) = [])
      \/ (downloaded (trace handler) = []
          /\ alerts (trace handler) = ["Failed to export file. Please try again."])) ->
  click_result handler.
Proof.
  intros (Hr & [(f & Hd & Ha)|(Hd & Ha)]).
  - exact (Downloaded _ f Hr Hd Ha).
  - exact (Failed _ Hr Hd Ha).
Qed.

(** Closing the menu first changes neither the downloads nor the
    alerts of a handler. *)
Lemma after_closing_the_menu (handler : io event unit) :
  let run := (emit ECloseDropdown ;;; handler)%io in
  result run = result handler
  /\ downloaded (trace run) = downloaded (trace handler)
  /\ alerts (trace run) = alerts (trace handler).
Proof.
  cbv zeta. split; [|split].
  - rewrite result_bind. reflexivity.
  - unfold downloaded. io_project. reflexivity.
  - unfold alerts. io_project. reflexivity.
Qed.

Section Env.
Variable Date_parse : string -> time_value.
Variable Date_of_object : value -> time_value.
Variable toLocaleString : time_value -> string.
Variable ToNumber_other : value -> option Z.
Variable ToString : value -> string.
Variable join_comma : list value -> string.
Variable standardsData : list (string * string).
Variable logoData : bool.
Variable now_iso : string.

Local Abbreviation exportCOA :=
  (ExportExcel.exportCOAReportsToExcel Date_parse Date_of_object toLocaleString ToNumber_other
     standardsData logoData now_iso).
Local Abbreviation exportSite :=
  (ExportExcel.exportSiteReportsToExcel Date_parse toLocaleString ToString join_comma logoData
     now_iso).
Local Abbreviation handleDownloadCOA :=
  (handleDownloadCOA Date_parse Date_of_object toLocaleString ToNumber_other standardsData
     logoData now_iso).
Local Abbreviation handleDownloadSite :=
  (handleDownloadSite Date_parse toLocaleString ToString join_comma logoData now_iso).

(** An export of a non-empty array does more than alert. *)
Lemma coa_export_works (d : FirestoreDocument) (docs : list FirestoreDocument) (msg : string) :
  exportCOA (d :: docs) <> IO [ExportExcel.EAlert msg] (Returned tt).
Proof.
  destruct (coa_cases Date_parse Date_of_object toLocaleString ToNumber_other standardsData
              logoData now_iso (d :: docs))
    as [[H _]|[[e H]|[[e H]|(doc & st & ag & _ & _ & _ & H)]]];
    [discriminate H | rewrite H; discriminate ..].
Qed.

Lemma site_export_works (d : FirestoreDocument) (docs : list FirestoreDocument) (msg : string) :
  exportSite (d :: docs) <> IO [ExportExcel.EAlert msg] (Returned tt).
Proof.
  destruct (site_cases Date_parse toLocaleString ToString join_comma logoData now_iso
              (d :: docs))
    as [[H _]|[[e H]|(so & la & si & pr & _ & _ & _ & _ & H)]];
    [discriminate H | rewrite H; discriminate ..].
Qed.

Lemma coa_handler_outcome (d : FirestoreDocument) (docs : list FirestoreDocument) :
  click_result (handleDownloadCOA (d :: docs))
  /\ click_result (emit ECloseDropdown ;;; handleDownloadCOA (d :: docs))%io
  /\ click_result (try_catch (lift EExport (exportCOA (d :: docs))) export_failed).
Proof.
  pose proof (guarded_export_outcome _
                (coa_export_run Date_parse Date_of_object toLocaleString ToNumber_other
                   standardsData logoData now_iso (d :: docs))
                (coa_export_works d docs)) as H.
  cbv zeta in H.
  split; [|split]; apply outcome_is_click_result.
  - exact H.
  - destruct (after_closing_the_menu (handleDownloadCOA (d :: docs))) as (Hr & Hd & Ha).
    rewrite Hr, Hd, Ha. exact H.
  - exact H.
Qed.

Lemma site_handler_outcome (d : FirestoreDocument) (docs : list FirestoreDocument) :
  click_result (handleDownloadSite (d :: docs)).
Proof.
  apply outcome_is_click_result.
  exact (guarded_export_outcome _
           (site_export_run Date_parse toLocaleString ToString join_comma logoData now_iso
              (d :: docs))
           (site_export_works d docs)).
Qed.

End Env.

(** X15.  A click on one of the export buttons - 'Download Report' in
    the menu and on the card of the COA agent, 'Download Report' on the
    card of the site agent ([App.tsx]), 'Export Excel' of the document
    viewer - never throws, and comes to one of three things: no handler
    runs; one file is downloaded and no alert shown; or nothing is
    downloaded and the one alert 'Failed to export file. Please try
    again.' is shown.  With no reports no handler runs: the buttons of
    the dashboard are disabled and the viewer shows no button, so that
    the handlers' alert 'No ... reports available to export' is never
    shown.  Nor does one run for the buttons on the cards while
    [isDisabled] (in automated mode, or while the card is loading).  A
    click on an enabled button of a card runs its handler; and when the
    export throws, the handler shows the alert of the failure.  Called
    on no reports, the handlers of the dashboard show their own message
    and do not call the export. *)
Theorem download_buttons_settle
    (Date_parse : string -> time_value) (Date_of_object : value -> time_value)
    (toLocaleString : time_value -> string) (ToNumber_other : value -> option Z)
    (ToString : value -> string) (join_comma : list value -> string)
    (standardsData : list (string * string)) (logoData : bool) (now_iso : string)
    (s : state) (isLoading isDropdownOpen viewerLoading : bool)
    (error collectionName : option string) (documents : list FirestoreDocument) :
  let exportCOA :=
    ExportExcel.exportCOAReportsToExcel Date_parse Date_of_object toLocaleString
      ToNumber_other standardsData logoData now_iso in
  let exportSite :=
    ExportExcel.exportSiteReportsToExcel Date_parse toLocaleString ToString join_comma
      logoData now_iso in
  let handleCOA :=
    handleDownloadCOA Date_parse Date_of_object toLocaleString ToNumber_other standardsData
      logoData now_iso in
  let handleSite :=
    handleDownloadSite Date_parse toLocaleString ToString join_comma logoData now_iso in
  let menu :=
    menuDownloadCOAReport Date_parse Date_of_object toLocaleString ToNumber_other
      standardsData logoData now_iso isLoading isDropdownOpen documents in
  let coa :=
    downloadCOAReport Date_parse Date_of_object toLocaleString ToNumber_other standardsData
      logoData now_iso s isLoading documents in
  let site :=
    downloadSiteReport Date_parse toLocaleString ToString join_comma logoData now_iso
      s isLoading documents in
  let viewer :=
    exportExcelButton Date_parse Date_of_object toLocaleString ToNumber_other standardsData
      logoData now_iso viewerLoading error collectionName documents in
  let nothing := IO [] (Returned tt) in
  let failed := ["Failed to export file. Please try again."] in
  Forall click_result [menu; coa; site; viewer]
  /\ (documents = [] -> menu = nothing /\ coa = nothing /\ site = nothing /\ viewer = nothing)
  /\ (isDisabled s isLoading = true -> coa = nothing /\ site = nothing)
  /\ (documents <> [] -> isDisabled s isLoading = false ->
      coa = handleCOA documents /\ site = handleSite documents)
  /\ (forall e, result (exportCOA documents) = Threw e ->
        alerts (trace (handleCOA documents)) = failed)
  /\ (forall e, result (exportSite documents) = Threw e ->
        alerts (trace (handleSite documents)) = failed)
  /\ handleCOA []
     = IO [EAlert "No COA reports available to export. Please generate some reports first."]
          (Returned tt)
  /\ handleSite []
     = IO [EAlert "No site reports available to export. Please generate some reports first."]
          (Returned tt).
Proof.
  cbv zeta.
  pose proof (coa_export_run Date_parse Date_of_object toLocaleString ToNumber_other
                standardsData logoData now_iso documents) as Hcoa.
  pose proof (site_export_run Date_parse toLocaleString ToString join_comma logoData now_iso
                documents) as Hsite.
  unfold menuDownloadCOAReport, downloadCOAReport, downloadSiteReport, exportExcelButton,
    click, isDisabled.
  split; [|split; [|split; [|split; [|split; [|split; [|split]]]]]].
  - destruct documents as [|d docs]; cbn [length Nat.eqb negb andb orb].
    + rewrite !andb_false_r, !orb_true_r. cbn [negb andb].
      rewrite !andb_false_r. repeat constructor.
    + destruct (coa_handler_outcome Date_parse Date_of_object toLocaleString ToNumber_other
                  standardsData logoData now_iso d docs) as (H1 & H2 & H3).
      pose proof (site_handler_outcome Date_parse toLocaleString ToString join_comma logoData
                    now_iso d docs) as H4.
      rewrite !andb_true_r, !orb_false_r.
      repeat (apply Forall_cons_2 || apply Forall_nil_2).
      * destruct (negb isLoading && isDropdownOpen); [exact H2 | constructor; reflexivity].
      * destruct (negb isLoading && negb (truthy (automatedMode s) || isLoading));
          [exact H1 | constructor; reflexivity].
      * destruct (negb isLoading && negb (truthy (automatedMode s) || isLoading));
          [exact H4 | constructor; reflexivity].
      * destruct (_ && _); [exact H3 | constructor; reflexivity].
  - intros ->. cbn [length Nat.eqb negb andb orb].
    rewrite !andb_false_r, !orb_true_r. cbn [negb andb]. rewrite !andb_false_r.
    repeat split; reflexivity.
  - intros ->. cbn [orb negb]. rewrite !andb_false_r. split; reflexivity.
  - intros Hne Hd. destruct documents as [|d docs]; [contradiction|].
    cbn [length Nat.eqb]. rewrite Hd. apply orb_false_iff in Hd as [_ ->].
    split; reflexivity.
  - intros e He. unfold handleDownloadCOA. destruct documents as [|d docs]; [discriminate He|].
    apply (guarded_export_failure _ e Hcoa He).
  - intros e He. unfold handleDownloadSite. destruct documents as [|d docs]; [discriminate He|].
    apply (guarded_export_failure _ e Hsite He).
  - reflexivity.
  - reflexivity.
Qed.

End ButtonSpec.

(** ** Polling and toggling *)

Module PollSpec.
Import Dashboard ApiSpec ApiFailures.

Lemma requests_lift {A} (m : io Api.event A) :
  requests (trace (lift EApi m)) = Api.fetches (trace m).
Proof.
  unfold requests, Api.fetches, lift. cbn [trace].
  induction (trace m) as [|e t IH]; [reflexivity|].
  cbn [map omap list_omap]. rewrite <- IH. destruct e; reflexivity.
Qed.

Section Env.
Variable VITE_API_URL : option string.
Variable DEV : bool.
Variable window_origin : option string.
Variable network : string -> Api.RequestInit -> outcome Api.Response.

Local Abbreviation getAgentStatus :=
  (Api.getAgentStatus VITE_API_URL DEV window_origin network).
Local Abbreviation getAutomatedModeStatus :=
  (Api.getAutomatedModeStatus VITE_API_URL DEV window_origin network).
Local Abbreviation toggleAutomatedMode :=
  (Api.toggleAutomatedMode VITE_API_URL DEV window_origin network).
Local Abbreviation fetch_status := (fetch_status VITE_API_URL DEV window_origin network).
Local Abbreviation fetchStatuses := (fetchStatuses VITE_API_URL DEV window_origin network).
Local Abbreviation base := (Api.API_BASE_URL VITE_API_URL).

Local Abbreviation polled := (polled VITE_API_URL DEV window_origin network).
Local Abbreviation status_url := (status_url VITE_API_URL).
Local Abbreviation after_mode_status :=
  (after_mode_status VITE_API_URL DEV window_origin network).

Lemma fetch_status_result (statuses : gmap string value) (agentName : string) :
  result (fetch_status statuses agentName) = Returned (polled statuses agentName).
Proof.
  unfold Dashboard.fetch_status, Dashboard.polled. rewrite result_try_catch. io_result.
  rewrite result_lift. destruct (result (getAgentStatus agentName)); reflexivity.
Qed.

Lemma fetch_status_requests (statuses : gmap string value) (agentName : string) :
  requests (trace (fetch_status statuses agentName)) = [status_url agentName].
Proof.
  unfold Dashboard.fetch_status, requests. io_project. fold (requests (trace (lift EApi (getAgentStatus agentName)))).
  rewrite requests_lift, result_lift. unfold Api.getAgentStatus.
  rewrite fetchWithErrorHandling_fetches.
  destruct (result _); reflexivity.
Qed.

Lemma poll_all_result (l : list string) (m0 : gmap string value) :
  exists m,
    result (fold_io fetch_status l m0) = Returned m
    /\ forall n,
         m !! n = if bool_decide (n ∈ l)
                  then match result (getAgentStatus n) with
                       | Returned status => Some status
                       | Threw _ => m0 !! n
                       end
                  else m0 !! n.
Proof.
  revert m0. induction l as [|x l IH]; intros m0; cbn [fold_io].
  - exists m0. split; [reflexivity|]. intros n.
    rewrite bool_decide_eq_false_2 by apply not_elem_of_nil. reflexivity.
  - destruct (IH (polled m0 x)) as (m & Hm & Hl).
    exists m. split; [rewrite result_bind, fetch_status_result; exact Hm|].
    intros n. rewrite Hl. unfold Dashboard.polled.
    destruct (decide (n = x)) as [->|Hne].
    + rewrite (bool_decide_eq_true_2 (x ∈ x :: l)) by apply list_elem_of_here.
      destruct (result (getAgentStatus x)) as [v|e].
      * rewrite lookup_insert_eq. destruct (bool_decide (x ∈ l)); reflexivity.
      * destruct (bool_decide (x ∈ l)); reflexivity.
    + assert (Hiff : bool_decide (n ∈ x :: l) = bool_decide (n ∈ l)).
      { apply bool_decide_ext. rewrite elem_of_cons. tauto. }
      rewrite Hiff.
      destruct (result (getAgentStatus x)) as [v|e];
        rewrite ?lookup_insert_ne by congruence; reflexivity.
Qed.

Lemma poll_all_requests (l : list string) (m0 : gmap string value) :
  requests (trace (fold_io fetch_status l m0)) = map status_url l.
Proof.
  revert m0. induction l as [|x l IH]; intros m0; cbn [fold_io map]; [reflexivity|].
  unfold requests. rewrite omap_trace_bind.
  fold (requests (trace (fetch_status m0 x))). rewrite fetch_status_requests.
  rewrite fetch_status_result. fold (requests (trace (fold_io fetch_status l (polled m0 x)))).
  rewrite IH. reflexivity.
Qed.

Local Abbreviation mode_status_url :=
  (base +:+ "/agents/automated-mode/status", Api.with_cors None).

Lemma mode_status_step (s : state) :
  let step :=
    try_catch
      (autoStatus <- lift EApi getAutomatedModeStatus ;;
       active <- await (get_prop autoStatus "active") ;;
       ret (setAutomatedMode active s))
      (fun error =>
         emit (EConsoleError "[App] Error fetching automated mode status:") ;;;
         ret (if is_cors_error error then setCorsError true s else s)) in
  result step = Returned (after_mode_status s)
  /\ requests (trace step) = [mode_status_url].
Proof.
  cbv zeta. split.
  - unfold Dashboard.after_mode_status. rewrite result_try_catch. io_result.
    rewrite result_lift.
    destruct (result getAutomatedModeStatus) as [v|e]; [|reflexivity].
    destruct v; reflexivity.
  - unfold requests. io_project.
    fold (requests (trace (lift EApi getAutomatedModeStatus))).
    rewrite requests_lift, result_lift. unfold Api.getAutomatedModeStatus.
    rewrite fetchWithErrorHandling_fetches.
    destruct (result _) as [v|e]; [|reflexivity].
    io_project. destruct v; reflexivity.
Qed.

End Env.

(** X16.  One round of [fetchStatuses] never throws and issues exactly
    six requests, whatever the network answers: the automated-mode
    status, then the status of the five agents, in the order of
    [agentNames].  Afterwards [agentStatuses] holds exactly the
    statuses that arrived in this round - an agent whose request failed
    has no entry, whatever it had before - and [corsError] is set
    exactly when the automated-mode request failed with an error whose
    message contains 'CORS_ERROR', as it does when the browser reports
    'Failed to fetch'; a failure of an agent's request does not set it.
    [automatedMode] becomes the [active] field of the answer, and stays
    as it was when the request failed or answered [null]. *)
Theorem fetchStatuses_polls_six
    (VITE_API_URL : option string) (DEV : bool) (window_origin : option string)
    (network : string -> Api.RequestInit -> outcome Api.Response) (s : state) :
  let run := fetchStatuses VITE_API_URL DEV window_origin network s in
  let base := Api.API_BASE_URL VITE_API_URL in
  let mode_status := result (Api.getAutomatedModeStatus VITE_API_URL DEV window_origin network) in
  let status name := result (Api.getAgentStatus VITE_API_URL DEV window_origin network name) in
  exists s',
    result run = Returned s'
    /\ requests (trace run)
       = (base +:+ "/agents/automated-mode/status", Api.with_cors None)
         :: map (fun name => (base +:+ "/agents/" +:+ name +:+ "/status", Api.with_cors None))
              agentNames
    /\ (forall name,
          agentStatuses s' !! name
          = if bool_decide (name ∈ agentNames)
            then match status name with
                 | Returned v => Some v
                 | Threw _ => None
                 end
            else None)
    /\ corsError s'
       = match mode_status with
         | Threw e => includes "CORS_ERROR" (err_message e)
         | Returned _ => false
         end
    /\ automatedMode s'
       = match mode_status with
         | Returned autoStatus =>
             if nullish autoStatus then automatedMode s else read autoStatus "active"
         | Threw _ => automatedMode s
         end
    /\ agentFirestoreStates s' = agentFirestoreStates s
    /\ (forall e,
          network (base +:+ "/agents/automated-mode/status") (Api.with_cors None) = Threw e ->
          includes "Failed to fetch" (err_message e) = true ->
          corsError s' = true).
Proof.
  cbv zeta.
  destruct (mode_status_step VITE_API_URL DEV window_origin network (setCorsError false s))
    as [Hr Ht].
  destruct (poll_all_result VITE_API_URL DEV window_origin network agentNames ∅)
    as (m & Hm & Hl).
  pose proof (poll_all_requests VITE_API_URL DEV window_origin network agentNames ∅) as Hq.
  set (s1 := after_mode_status VITE_API_URL DEV window_origin network (setCorsError false s))
    in *.
  exists (setAgentStatuses m s1).
  assert (Hc : corsError s1
               = match result (Api.getAutomatedModeStatus VITE_API_URL DEV window_origin
                                 network) with
                 | Threw e => includes "CORS_ERROR" (err_message e)
                 | Returned _ => false
                 end).
  { subst s1. unfold after_mode_status.
    destruct (result (Api.getAutomatedModeStatus VITE_API_URL DEV window_origin network))
      as [v|e].
    - destruct (nullish v); reflexivity.
    - unfold is_cors_error. destruct (includes _ _); reflexivity. }
  split; [|split; [|split; [|split; [|split; [|split]]]]].
  - unfold fetchStatuses. rewrite result_try_catch, result_bind, Hr, result_bind, Hm.
    reflexivity.
  - unfold fetchStatuses, requests. rewrite omap_trace_try_catch, omap_trace_bind.
    unfold requests in Ht. rewrite Ht, Hr, omap_trace_bind.
    unfold requests in Hq. rewrite Hq, Hm, omap_trace_ret.
    rewrite result_bind, Hr, result_bind, Hm. cbn [result ret app].
    rewrite !app_nil_r. reflexivity.
  - intros name. cbn [agentStatuses setAgentStatuses]. rewrite Hl, lookup_empty.
    reflexivity.
  - exact Hc.
  - cbn [automatedMode setAgentStatuses]. subst s1. unfold after_mode_status.
    destruct (result (Api.getAutomatedModeStatus VITE_API_URL DEV window_origin network))
      as [v|e].
    + destruct (nullish v); reflexivity.
    + destruct (is_cors_error e); reflexivity.
  - cbn [agentFirestoreStates setAgentStatuses]. subst s1. unfold after_mode_status.
    destruct (result (Api.getAutomatedModeStatus VITE_API_URL DEV window_origin network))
      as [v|e].
    + destruct (nullish v); reflexivity.
    + destruct (is_cors_error e); reflexivity.
  - intros e He Hf. cbn [corsError setAgentStatuses]. rewrite Hc.
    unfold Api.getAutomatedModeStatus. rewrite fetchWithErrorHandling_result, He.
    unfold Api.rethrown, Api.looks_like_cors. rewrite Hf, !orb_true_r. cbn [orb].
    destruct (cors_error_message window_origin) as (msg & -> & _ & Hi & _). exact Hi.
Qed.

End PollSpec.

Module ToggleSpec.
Import Dashboard ApiSpec PollSpec.

Lemma toggle_alerts_lift {A} (m : io Api.event A) : toggle_alerts (trace (lift EApi m)) = [].
Proof.
  unfold toggle_alerts, lift. cbn [trace].
  induction (trace m) as [|e t IH]; [reflexivity|]. cbn [map omap list_omap]. exact IH.
Qed.



End ToggleSpec.

(** ** The status badge *)

Module BadgeSpec.
Import Dashboard ExportVocabulary.

Lemma lower_char_not_upper (c : ascii) : is_upper (lower_char c) = false.
Proof. destruct c as [[] [] [] [] [] [] [] []]; vm_compute; reflexivity. Qed.

Lemma toLowerCase_not_upper (x : string) : existsb is_upper (chars (toLowerCase x)) = false.
Proof.
  unfold chars. induction x as [|c x IH]; [reflexivity|].
  cbn [toLowerCase list_ascii_of_string existsb]. rewrite lower_char_not_upper. exact IH.
Qed.

Lemma normalizedState_not_upper (state : value) :
  existsb is_upper (chars (normalizedState state)) = false.
Proof. destruct state; try reflexivity. apply toLowerCase_not_upper. Qed.

Lemma displayState_lower (k : string) :
  existsb is_upper (chars k) = false ->
  displayState k
  = if bool_decide (k ∈ lower_case_members) then Member k
    else if bool_decide (k ∈ active_names) then Shown "active"
    else Shown "idle".
Proof.
  intros H.
  destruct (decide (k ∈ [ "generating"; "processing"; "completed"; "error"; "idle"; "active";
                          "IDLE"; "ACTIVE"; "GENERATING"; "PROCESSING"; "COMPLETED"; "ERROR";
                          "constructor"; "__proto__"; "hasOwnProperty"; "isPrototypeOf";
                          "propertyIsEnumerable"; "toLocaleString"; "toString"; "valueOf";
                          "__defineGetter__"; "__defineSetter__"; "__lookupGetter__";
                          "__lookupSetter__" ])) as [Hin|Hout].
  - repeat (apply elem_of_cons in Hin as [->|Hin];
            [first [discriminate H | vm_compute; reflexivity]|]).
    apply elem_of_nil in Hin. contradiction.
  - rewrite !not_elem_of_cons in Hout.
    destruct Hout as (? & ? & ? & ? & ? & ? & ? & ? & ? & ? & ? & ? & ? & ? & ? & ? & ? & ?
                      & ? & ? & ? & ? & ? & ? & _).
    unfold displayState, lookup_literal, stateMapping. cbn [list_to_map foldr uncurry fst snd].
    rewrite !lookup_insert_ne by congruence. rewrite lookup_empty.
    rewrite (bool_decide_eq_false_2 (k ∈ inherited_names)).
    2: { unfold inherited_names. rewrite !not_elem_of_cons. repeat split; try congruence.
         apply not_elem_of_nil. }
    rewrite (bool_decide_eq_false_2 (k ∈ lower_case_members)).
    2: { unfold lower_case_members. rewrite !not_elem_of_cons. repeat split; try congruence.
         apply not_elem_of_nil. }
    rewrite (bool_decide_eq_false_2 (k ∈ active_names)).
    2: { unfold active_names. rewrite !not_elem_of_cons. repeat split; try congruence.
         apply not_elem_of_nil. }
    reflexivity.
Qed.

Lemma found_state_firestore (s : state) (agentName : string) :
  truthy (App.entry_state (agentFirestoreStates s) agentName) = true ->
  found_state s agentName = App.entry_state (agentFirestoreStates s) agentName.
Proof.
  intros Ht. unfold found_state. cbv zeta.
  assert (H2 : match timeAgentState s with
               | Some t =>
                   if String.eqb agentName "time_savings_agent"
                      && negb (truthy (App.entry_state (agentFirestoreStates s) agentName))
                   then or_else (field t "state")
                          (or_else (field t "time_agent_state") (field t "status"))
                   else App.entry_state (agentFirestoreStates s) agentName
               | None => App.entry_state (agentFirestoreStates s) agentName
               end = App.entry_state (agentFirestoreStates s) agentName).
  { destruct (timeAgentState s); [rewrite Ht, andb_false_r|]; reflexivity. }
  rewrite H2, Ht. cbn [negb]. rewrite Ht. reflexivity.
Qed.

Lemma found_state_polled (s : state) (agentName : string) :
  truthy (App.entry_state (agentFirestoreStates s) agentName) = false ->
  agentName <> "time_savings_agent" ->
  found_state s agentName
  = if truthy (field (agentStatuses s) agentName)
       && truthy (read (field (agentStatuses s) agentName) "state")
    then read (field (agentStatuses s) agentName) "state"
    else VStr "idle".
Proof.
  intros Hf Hn. unfold found_state. cbv zeta.
  assert (He : String.eqb agentName "time_savings_agent" = false).
  { apply String.eqb_neq. exact Hn. }
  assert (H2 : match timeAgentState s with
               | Some t =>
                   if String.eqb agentName "time_savings_agent"
                      && negb (truthy (App.entry_state (agentFirestoreStates s) agentName))
                   then or_else (field t "state")
                          (or_else (field t "time_agent_state") (field t "status"))
                   else App.entry_state (agentFirestoreStates s) agentName
               | None => App.entry_state (agentFirestoreStates s) agentName
               end = App.entry_state (agentFirestoreStates s) agentName).
  { destruct (timeAgentState s); [rewrite He|]; reflexivity. }
  rewrite H2, Hf. cbn [negb].
  destruct (truthy (field (agentStatuses s) agentName)); cbn [andb].
  - destruct (truthy (read _ "state")) eqn:E; reflexivity.
  - rewrite Hf. reflexivity.
Qed.

(** X18.  The status badge shows 'active' on blue exactly when the
    state found for the agent is a string that, in lower case, is
    'active', 'generating' or 'processing'; every other state - another
    string, in any letter case, or a value that is no string - shows
    'idle' on grey.  (The two exceptions are the strings that in lower
    case are 'constructor' and '__proto__': for them the lookup in
    [stateMapping] finds a member of [Object.prototype].)  A truthy
    state in the agent's Firestore entry is the state found, whatever
    the polled API status says; without one, an agent other than the
    time-savings agent gets the state of its polled status, and 'idle'
    when that is missing or falsy too. *)
Theorem badge_shows_idle_or_active (s : state) (agentName : string) :
  let found := found_state s agentName in
  let normalized := normalizedState found in
  let firestore := App.entry_state (agentFirestoreStates s) agentName in
  let apiStatus := field (agentStatuses s) agentName in
  getStatusBadge s agentName
  = (if bool_decide (normalized ∈ lower_case_members)
     then (Shown "bg-gray-500", Member normalized)
     else badge_of normalized)
  /\ (forall x, found = VStr x -> normalized = toLowerCase x)
  /\ ((forall x, found <> VStr x) -> normalized = "idle")
  /\ (truthy firestore = true -> found = firestore)
  /\ (truthy firestore = false -> agentName <> "time_savings_agent" ->
      found = if truthy apiStatus && truthy (read apiStatus "state")
              then read apiStatus "state"
              else VStr "idle").
Proof.
  cbv zeta. split; [|split; [|split; [|split]]].
  - unfold getStatusBadge, badge_of.
    rewrite (displayState_lower _ (normalizedState_not_upper _)).
    destruct (bool_decide (_ ∈ lower_case_members)); [reflexivity|].
    destruct (bool_decide (_ ∈ active_names)); reflexivity.
  - intros x ->. reflexivity.
  - intros H. destruct (found_state s agentName); try reflexivity.
    exfalso. eapply H. reflexivity.
  - apply found_state_firestore.
  - apply found_state_polled.
Qed.

(** ** The listener on the states of all agents *)

Lemma collect_states_lookup (agents : list App.Agent) (entry : string -> value) (n : string) :
  collect_states agents entry !! n
  = if bool_decide (n ∈ tracked agents) then Some (entry n) else None.
Proof.
  unfold collect_states.
  assert (H : forall m : gmap string value,
             fold_left
               (fun states agent =>
                  if String.eqb (App.apiName agent) "time_savings_agent" then states
                  else <[App.apiName agent := entry (App.apiName agent)]> states)
               agents m !! n
             = if bool_decide (n ∈ tracked agents) then Some (entry n) else m !! n).
  { induction agents as [|a agents IH]; intros m; cbn [fold_left].
    - rewrite bool_decide_eq_false_2 by apply not_elem_of_nil. reflexivity.
    - rewrite IH. unfold tracked. cbn [map]. rewrite filter_cons.
      destruct (String.eqb_spec (App.apiName a) "time_savings_agent") as [Heq|Hne].
      + rewrite decide_False by (intros Hc; apply Hc; exact Heq). reflexivity.
      + rewrite decide_True by exact Hne.
        destruct (decide (n = App.apiName a)) as [->|Hn].
        * rewrite (bool_decide_eq_true_2 (_ ∈ _ :: _)) by apply list_elem_of_here.
          rewrite lookup_insert_eq. destruct (bool_decide _); reflexivity.
        * rewrite lookup_insert_ne by congruence.
          apply (f_equal (fun b : bool => if b then Some (entry n) else m !! n)).
          apply bool_decide_ext. rewrite elem_of_cons. tauto. }
  rewrite H, lookup_empty. reflexivity.
Qed.

Lemma agent_entry_state (data : gmap string value) (n : string) :
  truthy (reported_state data n) = true ->
  exists o, agent_entry data n = VObj o /\ o !! "state" = Some (reported_state data n).
Proof.
  unfold agent_entry, reported_state. intros Ht.
  destruct (nullish (field data (n +:+ "_state"))) eqn:En.
  - destruct (field data (n +:+ "_state")); discriminate.
  - cbn [negb]. eexists. split; [reflexivity|].
    rewrite lookup_insert_ne by discriminate. apply lookup_insert_eq.
Qed.


(** Writing an entry over one that has a state keeps that state. *)
Lemma set_entry_keeps_state (x a : string) (states o : gmap string value) (v : value) :
  states !! a = Some (VObj o) -> o !! "state" = Some v ->
  truthy v = true ->
  App.entry_state (App.set_entry x a states) a = v.
Proof.
  intros Ha Hs Ht. unfold App.entry_state, App.set_entry, field.
  rewrite lookup_insert_eq, Ha. cbn [default from_option id truthy read get_prop].
  unfold field, App.state_literal. cbn [App.spread].
  rewrite (lookup_union_Some_l _ _ _ _ Hs). cbn [default from_option id].
  unfold or_else. rewrite Ht. reflexivity.
Qed.

Lemma snapshot_states_lookup (agents : list App.Agent) (data : gmap string value) (s : state)
    (n : string) :
  agentFirestoreStates (on_all_states agents (Some data) s) !! n
  = if bool_decide (n ∈ tracked agents) then Some (agent_entry data n) else None.
Proof.
  unfold on_all_states.
  destruct (field data "automated_mode"); cbn [agentFirestoreStates setAgentFirestoreStates];
    apply collect_states_lookup.
Qed.



End BadgeSpec.

(** ** The action of an agent *)

Module ActionSpec.
Import App ActionVocabulary AppSpec.

(** X21.  In automated mode [handleAgentAction] shows an alert and does
    nothing else: the action is not called and the state is left as it
    is.  Otherwise it never throws, whatever the action's promise does;
    it calls the action exactly once, sets [loading] to the agent's
    name and sets exactly one timer, of 3000 ms, to clear it.  The
    states of the agents end up as the optimistic update (and what
    arrived while the action was pending) left them, with the revert
    applied on top when the action failed; with nothing arriving in
    between that is the optimistic update itself, whether the action
    failed or not.  A failure is announced by one alert, except during
    the initial load. *)
Theorem agent_action_effect (s : state) (agent : Agent)
    (meanwhile : gmap string value -> gmap string value) (settled : outcome value) :
  let run := handleAgentAction s agent meanwhile settled in
  let a := apiName agent in
  (automatedMode s = true -> run = IO [EAlertAutomatedMode] (Returned s))
  /\ (automatedMode s = false ->
      exists s',
        result run = Returned s'
        /\ agentFirestoreStates s'
           = (if action_failed settled then revert_update a else id)
               (meanwhile (optimistic_update a (agentFirestoreStates s)))
        /\ loading s' = Some (name agent)
        /\ automatedMode s' = false
        /\ isInitialLoad s' = isInitialLoad s
        /\ action_calls (trace run) = [a]
        /\ timeouts (trace run) = [3000]
        /\ failure_alerts (trace run)
           = if action_failed settled && negb (isInitialLoad s) then [name agent] else [])
  /\ (automatedMode s = false ->
      exists s',
        result (handleAgentAction s agent id settled) = Returned s'
        /\ agentFirestoreStates s' = optimistic_update a (agentFirestoreStates s)).
Proof.
  cbv zeta. unfold handleAgentAction. split; [|split].
  - intros ->. reflexivity.
  - intros Ha. rewrite Ha. unfold action_calls, timeouts, failure_alerts, action_failed.
    destruct settled as [answer|e].
    + destruct (ok_not_false answer) as [[|]|e] eqn:Eo.
      * eexists. split; [cbn; rewrite Eo; cbn; reflexivity|].
        cbn. rewrite Eo. cbn. rewrite Ha. repeat split.
      * eexists. split; [cbn; rewrite Eo; cbn; destruct (isInitialLoad s); reflexivity|].
        cbn. rewrite Eo. cbn. rewrite Ha. destruct (isInitialLoad s); repeat split.
      * eexists. split; [cbn; rewrite Eo; cbn; destruct (isInitialLoad s); reflexivity|].
        cbn. rewrite Eo. cbn. rewrite Ha. destruct (isInitialLoad s); repeat split.
    + eexists. split; [cbn; destruct (isInitialLoad s); reflexivity|].
      cbn. rewrite Ha. destruct (isInitialLoad s); repeat split.
  - intros Ha. rewrite Ha.
    destruct settled as [answer|e].
    + destruct (ok_not_false answer) as [[|]|e] eqn:Eo.
      * eexists. split; [cbn; rewrite Eo; cbn; reflexivity|]. reflexivity.
      * eexists. split; [cbn; rewrite Eo; cbn; destruct (isInitialLoad s); reflexivity|].
        cbn. apply revert_after_optimistic.
      * eexists. split; [cbn; rewrite Eo; cbn; destruct (isInitialLoad s); reflexivity|].
        cbn. apply revert_after_optimistic.
    + eexists. split; [cbn; destruct (isInitialLoad s); reflexivity|].
      cbn. apply revert_after_optimistic.
Qed.

Lemma agent_action_effect_witness :
  handleAgentAction (mkState true false None ∅) scenario_agent id (Returned VNull)
  = IO [EAlertAutomatedMode] (Returned (mkState true false None ∅)).
Proof.
  exact (proj1 (agent_action_effect (mkState true false None ∅) scenario_agent id
                  (Returned VNull)) eq_refl).
Defined.

End ActionSpec.

(** ** The completion alerts *)

Module CompletionSpec.
Import Dashboard.

(** No state is both one that was active and one that is idle now. *)
Lemma active_is_not_idle (x : option string) : wasActive x && isNowIdle x = false.
Proof.
  destruct x as [p|]; [|reflexivity]. unfold wasActive, isNowIdle.
  destruct (String.eqb_spec p "active") as [->|]; [reflexivity|].
  destruct (String.eqb_spec p "generating") as [->|]; [reflexivity|].
  destruct (String.eqb_spec p "processing") as [->|]; reflexivity.
Qed.

Section Effect.
Variable agents : list App.Agent.
Variable current : gmap string value.

Local Abbreviation remembered := (remembered current).

Lemma detect_completion_result (initial : bool) (prev : gmap string value)
    (agent : App.Agent) :
  result (detect_completion current initial prev agent)
  = Returned (if String.eqb (App.apiName agent) "time_savings_agent" then prev
              else <[App.apiName agent := field current (App.apiName agent)]> prev).
Proof.
  unfold detect_completion.
  destruct (String.eqb (App.apiName agent) "time_savings_agent"); [reflexivity|].
  rewrite result_bind, result_when. reflexivity.
Qed.

Lemma detect_completion_keeps (initial : bool) (prev prev' : gmap string value)
    (agent : App.Agent) (n : string) :
  result (detect_completion current initial prev agent) = Returned prev' ->
  remembered prev n -> remembered prev' n.
Proof.
  rewrite detect_completion_result. intros [= <-] H. unfold Dashboard.remembered in *.
  destruct (String.eqb (App.apiName agent) "time_savings_agent"); [exact H|].
  unfold field in *. destruct (decide (App.apiName agent = n)) as [->|Hne].
  - rewrite lookup_insert_eq. reflexivity.
  - rewrite lookup_insert_ne by exact Hne. exact H.
Qed.

Lemma detect_completion_learns (initial : bool) (prev prev' : gmap string value)
    (agent : App.Agent) :
  result (detect_completion current initial prev agent) = Returned prev' ->
  App.apiName agent <> "time_savings_agent" ->
  remembered prev' (App.apiName agent).
Proof.
  rewrite detect_completion_result. intros [= <-] Hn.
  apply String.eqb_neq in Hn. rewrite Hn. unfold Dashboard.remembered, field.
  rewrite lookup_insert_eq. reflexivity.
Qed.

Lemma detect_completion_silent (initial : bool) (prev : gmap string value)
    (agent : App.Agent) :
  initial = true
  \/ (App.apiName agent <> "time_savings_agent" -> remembered prev (App.apiName agent)) ->
  completed (trace (detect_completion current initial prev agent)) = [].
Proof.
  intros H. unfold detect_completion, completed.
  destruct (String.eqb_spec (App.apiName agent) "time_savings_agent") as [Heq|Hne];
    [reflexivity|].
  io_project. destruct H as [->|H].
  - rewrite !andb_false_r. reflexivity.
  - rewrite (H Hne). rewrite <- !andb_assoc.
    rewrite (andb_assoc (wasActive _)), active_is_not_idle, !andb_false_r. reflexivity.
Qed.

Lemma effect_runs (initial : bool) (l : list App.Agent) (prev : gmap string value) :
  exists prev',
    result (fold_io (detect_completion current initial) l prev) = Returned prev'
    /\ (forall n, remembered prev n -> remembered prev' n)
    /\ (forall agent, agent ∈ l -> App.apiName agent <> "time_savings_agent" ->
          remembered prev' (App.apiName agent)).
Proof.
  revert prev. induction l as [|x l IH]; intros prev; cbn [fold_io].
  - exists prev. split; [reflexivity|]. split; [auto|].
    intros agent Hin. apply elem_of_nil in Hin. contradiction.
  - destruct (result (detect_completion current initial prev x)) as [p1|e] eqn:E1.
    2: { rewrite detect_completion_result in E1. discriminate. }
    destruct (IH p1) as (prev' & Hr & Hkeep & Hlearn).
    exists prev'. split; [rewrite result_bind, E1; exact Hr|]. split.
    + intros n Hn. apply Hkeep. eapply detect_completion_keeps; eassumption.
    + intros agent Hin Hne. apply elem_of_cons in Hin as [->|Hin].
      * apply Hkeep. eapply detect_completion_learns; eassumption.
      * apply Hlearn; assumption.
Qed.

Lemma effect_silent (initial : bool) (l : list App.Agent) (prev : gmap string value) :
  initial = true
  \/ (forall agent, agent ∈ l -> App.apiName agent <> "time_savings_agent" ->
        remembered prev (App.apiName agent)) ->
  completed (trace (fold_io (detect_completion current initial) l prev)) = [].
Proof.
  revert prev. induction l as [|x l IH]; intros prev H; cbn [fold_io]; [reflexivity|].
  unfold completed. rewrite omap_trace_bind.
  fold (completed (trace (detect_completion current initial prev x))).
  rewrite detect_completion_silent.
  2: { destruct H as [->|H]; [left; reflexivity|]. right. intros Hne.
       apply H; [apply list_elem_of_here | exact Hne]. }
  destruct (result (detect_completion current initial prev x)) as [p1|e] eqn:E1;
    [|reflexivity].
  fold (completed (trace (fold_io (detect_completion current initial) l p1))).
  apply IH. destruct H as [->|H]; [left; reflexivity|]. right.
  intros agent Hin Hne. eapply detect_completion_keeps; [exact E1|].
  apply H; [apply list_elem_of_further; exact Hin | exact Hne].
Qed.

Lemma detect_completion_announces (prev : gmap string value) (agent : App.Agent) :
  completed (trace (detect_completion current false prev agent))
  = if finished current prev agent then [App.name agent] else [].
Proof.
  unfold detect_completion, completed, finished.
  destruct (String.eqb (App.apiName agent) "time_savings_agent"); [reflexivity|].
  io_project. cbn [negb andb]. rewrite andb_true_r.
  destruct (_ && _ && _ && _); reflexivity.
Qed.

Lemma finished_same_entry (prev prev0 : gmap string value) (agent : App.Agent) :
  field prev (App.apiName agent) = field prev0 (App.apiName agent) ->
  finished current prev agent = finished current prev0 agent.
Proof. unfold finished. intros ->. reflexivity. Qed.

Lemma effect_announces (l : list App.Agent) (prev0 prev : gmap string value) :
  NoDup (map App.apiName l) ->
  (forall agent, agent ∈ l ->
     field prev (App.apiName agent) = field prev0 (App.apiName agent)) ->
  completed (trace (fold_io (detect_completion current false) l prev))
  = map App.name (filter (fun agent => finished current prev0 agent = true) l).
Proof.
  revert prev. induction l as [|x l IH]; intros prev Hnd Hsame; cbn [fold_io];
    [reflexivity|].
  cbn [map] in Hnd. apply NoDup_cons in Hnd as [Hx Hl].
  unfold completed. rewrite omap_trace_bind.
  fold (completed (trace (detect_completion current false prev x))).
  rewrite detect_completion_announces, detect_completion_result.
  rewrite (finished_same_entry prev prev0 x) by (apply Hsame, list_elem_of_here).
  set (p1 := if String.eqb (App.apiName x) "time_savings_agent" then prev
             else <[App.apiName x := field current (App.apiName x)]> prev).
  fold (completed (trace (fold_io (detect_completion current false) l p1))).
  rewrite (IH p1 Hl).
  - rewrite filter_cons. destruct (finished current prev0 x); reflexivity.
  - intros agent Hin. rewrite <- (Hsame agent) by (apply list_elem_of_further; exact Hin).
    subst p1. destruct (String.eqb (App.apiName x) "time_savings_agent"); [reflexivity|].
    unfold field. rewrite lookup_insert_ne; [reflexivity|].
    intros Heq. apply Hx. rewrite Heq. apply (list_elem_of_fmap_2 App.apiName _ _ Hin).
Qed.

End Effect.

(** X22.  A run of the completion effect never throws and leaves in
    its ref the current entry of every agent it looks at (all but the
    time-savings agent).  Hence a second run on the same states - the
    effect runs again when [isInitialLoad] changes - announces
    nothing; and no run announces anything during the initial load.
    After the initial load, for agents with distinct API names, the
    run announces exactly the agents whose entry went from a state
    that in lower case is 'active', 'generating' or 'processing' to
    one that is 'idle' or 'completed', in the order of the agents. *)
Theorem completion_is_announced_once
    (agents : list App.Agent) (s : state) (prev : gmap string value) :
  let current := agentFirestoreStates s in
  exists prev',
    result (completion_effect agents s prev) = Returned prev'
    /\ (forall agent, agent ∈ agents -> App.apiName agent <> "time_savings_agent" ->
          field prev' (App.apiName agent) = field current (App.apiName agent))
    /\ (forall s2,
          agentFirestoreStates s2 = current ->
          completed (trace (completion_effect agents s2 prev')) = [])
    /\ (isInitialLoad s = true -> completed (trace (completion_effect agents s prev)) = [])
    /\ (isInitialLoad s = false -> NoDup (map App.apiName agents) ->
        completed (trace (completion_effect agents s prev))
        = map App.name (filter (fun agent => finished current prev agent = true) agents)).
Proof.
  cbv zeta. unfold completion_effect.
  destruct (effect_runs (agentFirestoreStates s) (isInitialLoad s) agents prev)
    as (prev' & Hr & _ & Hlearn).
  exists prev'. split; [exact Hr|]. split; [exact Hlearn|]. split; [|split].
  - intros s2 ->. apply effect_silent. right. exact Hlearn.
  - intros Hi. apply effect_silent. left. exact Hi.
  - intros Hi Hnd. rewrite Hi. apply effect_announces; [exact Hnd | reflexivity].
Qed.

Example completion_example :
  completed (trace (completion_effect sample_agents now_idle was_generating)) = ["COA Agent"].
Proof. vm_compute. reflexivity. Qed.

End CompletionSpec.

(** ** The time-savings panel *)

Module TimeSavingsSpec.
Import TimeSavings ApiSpec.

(** X23.  [fetchAnalytics] never throws and issues exactly one request:
    a GET of the time-savings analytics for the selected timeframe,
    with insights.  It always ends with [loading] false.  When the
    request succeeds, [data] is the answer and [error] is cleared;
    when it fails, [error] is the message of the failure - never the
    empty string: a default text stands in for an empty message - and
    [data] keeps what it held. *)
Theorem fetchAnalytics_settles
    (VITE_API_URL : option string) (DEV : bool) (window_origin : option string)
    (network : string -> Api.RequestInit -> outcome Api.Response) (s : state) :
  let run := fetchAnalytics VITE_API_URL DEV window_origin network s in
  let request :=
    Api.getTimeSavingsAnalytics VITE_API_URL DEV window_origin network
      (Some (timeframe s)) (Some true) in
  exists s',
    result run = Returned s'
    /\ Api.fetches (trace run)
       = [(Api.API_BASE_URL VITE_API_URL +:+ "/agents/time-savings/analytics?timeframe="
             +:+ timeframe s +:+ "&include_insights=true",
           Api.with_cors None)]
    /\ loading s' = false
    /\ timeframe s' = timeframe s
    /\ match result request with
       | Returned response => data s' = response /\ error s' = None
       | Threw err =>
           data s' = data s
           /\ error s' = Some (or_string (err_message err)
                                 "Failed to load time savings analytics")
       end
    /\ error s' <> Some "".
Proof.
  cbv zeta. unfold fetchAnalytics.
  pose proof (fun url => fetchWithErrorHandling_fetches DEV window_origin network url None)
    as Hf.
  unfold Api.fetches in *. cbn [timeframe data loading error].
  rewrite result_bind, result_try_catch. io_project.
  unfold Api.getTimeSavingsAnalytics. cbn [default Api.string_of_bool from_option id].
  rewrite Hf.
  destruct (result (Api.fetchWithErrorHandling DEV window_origin network _ None))
    as [response|err].
  - io_project. eexists. split; [reflexivity|]. cbn. repeat split. discriminate.
  - io_project. eexists. split; [reflexivity|]. cbn. repeat split.
    unfold or_string. destruct (String.eqb_spec (err_message err) ""); congruence.
Qed.

End TimeSavingsSpec.

(** ** The [Created] column of the document tables *)

Module CellSpec.
Import Firestore FirestoreQueries DocumentTable.

Section Cells.
Variable Date_parse : string -> time_value.
Variable Date_of_object : value -> time_value.
Variable toLocaleString : time_value -> string.

Local Abbreviation dates_stored := (dates_stored Date_parse Date_of_object).
Local Abbreviation formatDate := (formatDate Date_parse Date_of_object toLocaleString).
Local Abbreviation created_cell := (created_cell Date_parse Date_of_object toLocaleString).
Local Abbreviation generic_created_cell :=
  (generic_created_cell Date_parse Date_of_object toLocaleString).

(** The row of a converted document holds the document's own dates. *)
Lemma table_row_dates (d : FirestoreDocument) :
  dates_stored d ->
  field (table_row d) "created_at" = field (data d) "created_at"
  /\ field (table_row d) "createdAt" = date_value (createdAt d).
Proof.
  intros (H1 & _ & H3 & _). unfold table_row, field in *.
  rewrite !lookup_union.
  rewrite !(lookup_insert_ne _ "id") by congruence.
  rewrite lookup_insert_eq.
  rewrite (lookup_insert_ne _ "createdAt") by congruence.
  rewrite lookup_insert_eq.
  split.
  - destruct (data d !! "created_at") as [v|] eqn:E; cbn; [reflexivity|].
    cbn in H3. rewrite H3. reflexivity.
  - destruct (data d !! "createdAt") as [v|] eqn:E; cbn in *; [exact H1|reflexivity].
Qed.

(** [formatDate] on a value without a [toDate]. *)
Lemma formatDate_free (v : value) :
  toDate_free v ->
  formatDate v
  = match date_if_truthy Date_parse Date_of_object v with
    | Some t => toLocaleString t
    | None => dash
    end.
Proof.
  intros Hf. unfold DocumentTable.formatDate, date_if_truthy.
  destruct (truthy v) eqn:Et; cbn [negb]; [|reflexivity].
  destruct v; try reflexivity; cbn in Hf; [contradiction|].
  assert (truthy (field o "toDate") = false) as ->; [|reflexivity].
  destruct (field o "toDate"); cbn in Hf |- *; congruence.
Qed.

Lemma cells_of_converted (d : FirestoreDocument) :
  dates_stored d ->
  created_cell (table_row d) = creation_date toLocaleString d
  /\ generic_created_cell (table_row d) = creation_date toLocaleString d.
Proof.
  intros Hd. destruct (table_row_dates d Hd) as [Hr1 Hr2].
  destruct Hd as (H1 & _ & H3 & _ & H5 & _).
  unfold DocumentTable.created_cell, DocumentTable.generic_created_cell, creation_date.
  rewrite Hr1, Hr2. split.
  - rewrite H3. unfold or_else, date_if_truthy.
    destruct (truthy (field (data d) "created_at")) eqn:Et.
    + rewrite (formatDate_free _ H5). unfold date_if_truthy. rewrite Et. reflexivity.
    + reflexivity.
  - destruct (createdAt d) as [t|]; reflexivity.
Qed.

End Cells.

(** X24.  Whatever timestamp a Firestore document carries, and
    whichever columns its table uses, the [Created] cell of a document
    that the service produced shows the locale string of the document's
    [createdAt], and the dash when the document has none: the cell of
    the four collections with columns of their own, which formats
    [created_at || createdAt] of the row, and the cell of the generic
    columns, which formats the row's [createdAt], agree. *)
Theorem created_column_shows_createdAt
    (Date_parse : string -> time_value) (Date_of_object : value -> time_value)
    (toLocaleString : time_value -> string)
    (snap : list QueryDocumentSnapshot) (out : list FirestoreDocument)
    (d : FirestoreDocument) :
  snapshotToDocuments Date_parse Date_of_object snap = Returned out ->
  d ∈ out ->
  created_cell Date_parse Date_of_object toLocaleString (table_row d)
  = creation_date toLocaleString d
  /\ generic_created_cell Date_parse Date_of_object toLocaleString (table_row d)
     = creation_date toLocaleString d.
Proof.
  intros H Hd. apply cells_of_converted.
  pose proof (ConversionSpec.produced_dates _ _ _ _ H) as Hall.
  rewrite Forall_forall in Hall. exact (Hall d Hd).
Qed.

Lemma created_column_shows_createdAt_witness :
  exists out,
    snapshotToDocuments sample_Date_parse sample_Date_of_object three_stamped = Returned out
    /\ forall d, d ∈ out ->
         created_cell sample_Date_parse sample_Date_of_object ExportExcel.sample_toLocaleString
           (table_row d)
         = creation_date ExportExcel.sample_toLocaleString d.
Proof.
  eexists. split; [vm_compute; reflexivity|]. intros d Hd.
  exact (proj1 (created_column_shows_createdAt sample_Date_parse sample_Date_of_object
                  ExportExcel.sample_toLocaleString three_stamped _ d eq_refl Hd)).
Defined.

End CellSpec.
